(** * libgpuarray: the cuBLAS dispatcher and the NCCL collectives

    A shallow embedding of the two backend files of the repository:
    the BLAS dispatcher (gemm, dot, ger and the batched gemm, gemv and ger
    entry points of [cublas_ops], with the kernel table [setup] builds) and
    the collective operations ([nccl_ops]: reduce, all_reduce,
    reduce_scatter, broadcast, all_gather with their shared validator
    [check_restrictions]).

    Every call the C code makes into the CUDA runtime, cuBLAS, NCCL or the
    buffer allocator is an event appended to a trace; what such a call
    answers is read from an environment indexed by the position of the call
    in the trace, so a theorem quantified over the environment covers every
    combination of failing and succeeding external calls.

    [ASSERT_BUF], [ASSERT_CTX] and [ASSERT_COMM] are macros of the private
    header that expand to nothing outside DEBUG builds; [broadcast] applies
    them to two names it does not declare, so the collectives compile in
    such a build only, and the macros are not modelled.  The [assert] of
    assert.h is modelled, with the [NDEBUG] switch of the build.  The one
    read with undefined behaviour the files make, of [dest->sz] through a
    NULL [dest] in the second assertion of [check_restrictions], either
    stops the program or is dropped, as the build decides.  An argument
    of type [size_t] passed for an [int] of the cuBLAS interface with no
    test before it (the strides of dot, the batch counts) reaches cuBLAS
    converted to 32 bits.  The
    messages and diagnostic strings stored in the context are left out:
    a call is modelled by its events and the status it returns.

    The module [Handle] models, over a trace of its own, the rest of the
    two files: [setup] and [teardown] of the cuBLAS handle, gemv, the
    reduced-precision gemm, the strided-batched gemm, and [comm_new] and
    [comm_free] of the communicator. *)

From Stdlib Require Import ZArith List Bool Lia PrimFloat.
Import ListNotations.
Open Scope Z_scope.

(* ================================================================== *)
(** ** Machine integers *)

(** [size_t] is a 64-bit unsigned integer: a [Z] reduced modulo 2^64. *)
Definition size_wrap (v : Z) : Z := v mod 2 ^ 64.

(** [int] is a 32-bit signed integer; signed overflow is taken as the
    two's complement wrap-around of the hardware. *)
Definition int_wrap (v : Z) : Z := (v + 2 ^ 31) mod 2 ^ 32 - 2 ^ 31.

Definition INT_MAX : Z := 2147483647.

(** [#define LARGE_VAL(v) (v >= INT_MAX)] *)
Definition LARGE_VAL (v : Z) : bool := INT_MAX <=? v.

(** Pointers to float, double and to pointers, in bytes. *)
Inductive prec : Type := F32 | F64.

Definition sizeof_elem (p : prec) : Z :=
  match p with F32 => 4 | F64 => 8 end.

Definition sizeof_ptr : Z := 8.

(* ================================================================== *)
(** ** Enumerations of the interface *)

(** The status codes the two files name; [GA_IMPL_ERROR] also stands for
    the other codes an external call may answer. *)
Inductive ga_error : Type :=
| GA_NO_ERROR
| GA_MEMORY_ERROR
| GA_VALUE_ERROR
| GA_IMPL_ERROR
| GA_INVALID_ERROR
| GA_UNSUPPORTED_ERROR
| GA_DEVSUP_ERROR
| GA_BLAS_ERROR
| GA_COMM_ERROR
| GA_XLARGE_ERROR.

Definition is_no_error (e : ga_error) : bool :=
  match e with GA_NO_ERROR => true | _ => false end.

Inductive cb_order : Type := cb_c | cb_fortran.

Inductive cb_transpose : Type := cb_no_trans | cb_trans | cb_conj_trans.

Inductive cublasOperation_t : Type := CUBLAS_OP_N | CUBLAS_OP_T | CUBLAS_OP_C.

Definition convT (trans : cb_transpose) : cublasOperation_t :=
  match trans with
  | cb_no_trans => CUBLAS_OP_N
  | cb_trans => CUBLAS_OP_T
  | cb_conj_trans => CUBLAS_OP_C
  end.

Inductive cublasStatus_t : Type :=
| CUBLAS_STATUS_SUCCESS
| CUBLAS_STATUS_NOT_INITIALIZED
| CUBLAS_STATUS_ALLOC_FAILED
| CUBLAS_STATUS_INVALID_VALUE
| CUBLAS_STATUS_ARCH_MISMATCH
| CUBLAS_STATUS_MAPPING_ERROR
| CUBLAS_STATUS_EXECUTION_FAILED
| CUBLAS_STATUS_INTERNAL_ERROR
| CUBLAS_STATUS_NOT_SUPPORTED
| CUBLAS_STATUS_LICENSE_ERROR.

Definition cublas_ok (s : cublasStatus_t) : bool :=
  match s with CUBLAS_STATUS_SUCCESS => true | _ => false end.

(** [error_cublas]: the status code it hands back (the message it formats
    into the context's error record is not modelled). *)
Definition error_cublas (err : cublasStatus_t) : ga_error :=
  match err with
  | CUBLAS_STATUS_ARCH_MISMATCH => GA_DEVSUP_ERROR
  | _ => GA_BLAS_ERROR
  end.

Inductive cublasPointerMode_t : Type :=
| CUBLAS_POINTER_MODE_HOST
| CUBLAS_POINTER_MODE_DEVICE.

Inductive wait_mode : Type := CUDA_WAIT_READ | CUDA_WAIT_WRITE | CUDA_WAIT_ALL.

Inductive ncclResult_t : Type :=
| ncclSuccess
| ncclFailure (code : Z).

Definition nccl_ok (r : ncclResult_t) : bool :=
  match r with ncclSuccess => true | ncclFailure _ => false end.

Inductive ncclRedOp_t : Type := ncclSum | ncclProd | ncclMax | ncclMin | nccl_NUM_OPS.

Inductive ncclDataType_t : Type :=
| ncclChar | ncclInt | ncclHalf | ncclFloat | ncclDouble | ncclInt64 | ncclUint64
| nccl_NUM_TYPES.

(** Reduce-operation codes and element type codes: the cases the two
    [switch] statements name, and every other integer. *)
Inductive opcode_t : Type := GA_SUM | GA_PROD | GA_MAX | GA_MIN | GA_OP_OTHER (code : Z).

Inductive typecode_t : Type :=
| GA_BYTE | GA_INT | GA_HALF | GA_FLOAT | GA_DOUBLE | GA_LONG | GA_ULONG
| GA_TYPE_OTHER (code : Z).

(* ================================================================== *)
(** ** Buffers, kernels and events *)

(** [gpudata]: the owning context, the device address and the size in
    bytes.  A [gpudata *] that may be NULL is an [option gpudata]. *)
Record gpudata : Type := mk_gpudata {
  g_ctx : Z;
  g_ptr : Z;
  g_sz : Z
}.

(** The six kernels [blas_handle] owns. *)
Inductive kernel : Type :=
| sgemvBH_N_a1_b1_small
| sgemvBH_T_a1_b1_small
| dgemvBH_N_a1_b1_small
| dgemvBH_T_a1_b1_small
| sgerBH_gen_small
| dgerBH_gen_small.

(** [setup]: the element type each kernel is compiled for (the type of
    its source text and, for the two ger kernels, of the scalar [types[4]],
    [GA_FLOAT] then [GA_DOUBLE]). *)
Definition kernel_elem (k : kernel) : prec :=
  match k with
  | sgemvBH_N_a1_b1_small | sgemvBH_T_a1_b1_small | sgerBH_gen_small => F32
  | dgemvBH_N_a1_b1_small | dgemvBH_T_a1_b1_small | dgerBH_gen_small => F64
  end.

(** One entry of a kernel's [args] array: a buffer, the address of a
    [size_t], or the address of a scalar of the caller's element type. *)
Inductive karg : Type :=
| KBuf (ptr : Z)
| KSize (v : Z)
| KScalar (p : prec) (v : float).

Inductive event : Type :=
| EvEnter (ctx : Z)
| EvExit (ctx : Z)
| EvWait (b : gpudata) (m : wait_mode)
| EvRecord (b : gpudata) (m : wait_mode)
| EvGemm (p : prec) (ta tb : cublasOperation_t) (M N K : Z) (alpha : float)
         (A lda B ldb : Z) (beta : float) (C ldc : Z)
| EvGemmBatched (p : prec) (ta tb : cublasOperation_t) (M N K : Z) (alpha : float)
         (Aa lda Ba ldb : Z) (beta : float) (Ca ldc : Z) (batchCount : Z)
| EvGer (p : prec) (M N : Z) (alpha : float) (X incX Y incY A lda : Z)
| EvGetPointerMode
| EvSetPointerMode (m : cublasPointerMode_t)
| EvDot (p : prec) (N X incX Y incY Zr : Z)
| EvAlloc (sz : Z) (init : option (list Z)) (buf : Z)
| EvAllocFail (sz : Z)
| EvWrite (buf off : Z) (data : list Z) (sz : Z)
| EvRelease (buf : Z)
| EvKernel (k : kernel) (gs ls : list Z) (args : list karg)
| EvNcclReduce (src : Z) (dest : option Z) (count : Z) (dt : ncclDataType_t)
               (op : ncclRedOp_t) (root : Z)
| EvNcclAllReduce (src dest count : Z) (dt : ncclDataType_t) (op : ncclRedOp_t)
| EvNcclReduceScatter (src dest count : Z) (dt : ncclDataType_t) (op : ncclRedOp_t)
| EvNcclBcast (buf count : Z) (dt : ncclDataType_t) (root : Z)
| EvNcclAllGather (src count : Z) (dt : ncclDataType_t) (dest : Z).

(* ================================================================== *)
(** ** The environment and the monad *)

Inductive alloc_result : Type :=
| AllocOk (buf : Z)
| AllocFail (code : ga_error).

(** What the outside answers to the call made when the trace has [n]
    events, and how the file is compiled: with or without [NDEBUG] and
    [CUDA_HAS_HALF], and by a build that makes, and stops at, a read
    through a NULL pointer that the value of its expression does not
    need, or by one that drops such a read ([NULL_READ_TRAPS]). *)
Record env : Type := mk_env {
  ga_answer : nat -> ga_error;
  cublas_answer : nat -> cublasStatus_t;
  alloc_answer : nat -> alloc_result;
  nccl_answer : nat -> ncclResult_t;
  NDEBUG : bool;
  CUDA_HAS_HALF : bool;
  NULL_READ_TRAPS : bool
}.

(** The trace of external calls and the pointer mode of the cuBLAS handle. *)
Record state : Type := mk_state {
  trace : list event;
  pointer_mode : cublasPointerMode_t
}.

(** How a call of a C function ends: it returns a status, an [assert]
    fails, a NULL pointer is read, or an integer is divided by zero. *)
Inductive outcome : Type :=
| Returned (code : ga_error)
| AssertFailed
| NullDeref
| DivByZero.

Inductive res (A : Type) : Type :=
| Val (a : A)
| Stop (o : outcome).
Arguments Val {A} a.
Arguments Stop {A} o.

Definition comp (A : Type) : Type := env -> state -> state * res A.

Definition ret {A : Type} (a : A) : comp A := fun _ st => (st, Val a).

Definition bind {A B : Type} (m : comp A) (f : A -> comp B) : comp B :=
  fun e st =>
    match m e st with
    | (st', Val a) => f a e st'
    | (st', Stop o) => (st', Stop o)
    end.

Declare Scope gpu_scope.
Delimit Scope gpu_scope with gpu.
Notation "x <- m ;; k" := (bind m (fun x => k))
  (at level 61, m at next level, right associativity) : gpu_scope.
Notation "m ;; k" := (bind m (fun _ => k))
  (at level 61, right associativity) : gpu_scope.
Open Scope gpu_scope.

(** [return code;] in the middle of a body. *)
Definition return_ {A : Type} (code : ga_error) : comp A :=
  fun _ st => (st, Stop (Returned code)).

Definition stop {A : Type} (o : outcome) : comp A := fun _ st => (st, Stop o).

Definition emit (ev : event) : comp unit :=
  fun _ st => (mk_state (trace st ++ [ev]) (pointer_mode st), Val tt).

(** An external call answering a status. *)
Definition ga_call (ev : event) : comp ga_error :=
  fun e st =>
    (mk_state (trace st ++ [ev]) (pointer_mode st),
     Val (ga_answer e (length (trace st)))).

Definition cublas_call (ev : event) : comp cublasStatus_t :=
  fun e st =>
    (mk_state (trace st ++ [ev]) (pointer_mode st),
     Val (cublas_answer e (length (trace st)))).

Definition nccl_call (ev : event) : comp ncclResult_t :=
  fun e st =>
    (mk_state (trace st ++ [ev]) (pointer_mode st),
     Val (nccl_answer e (length (trace st)))).

(** The call of a C function: its body run from a state. *)
Definition call (body : comp ga_error) (e : env) (st : state) : state * outcome :=
  match body e st with
  | (st', Val code) => (st', Returned code)
  | (st', Stop o) => (st', o)
  end.

(** The events a call added to the trace. *)
Definition events_of (body : comp ga_error) (e : env) (st : state) : list event :=
  skipn (length (trace st)) (trace (fst (call body e st))).

Definition outcome_of (body : comp ga_error) (e : env) (st : state) : outcome :=
  snd (call body e st).

(** [for (i = 0; i < n; i++) body] - [for_loop 0 n body]. *)
Fixpoint for_loop (i : nat) (n : nat) (body : nat -> comp unit) : comp unit :=
  match n with
  | O => ret tt
  | S n' => body i ;; for_loop (S i) n' body
  end.

(* ================================================================== *)
(** ** The primitives of the CUDA backend *)

Definition cuda_enter (ctx : Z) : comp unit := emit (EvEnter ctx).
Definition cuda_exit (ctx : Z) : comp unit := emit (EvExit ctx).
Definition cuda_wait (b : gpudata) (m : wait_mode) : comp ga_error := ga_call (EvWait b m).
Definition cuda_record (b : gpudata) (m : wait_mode) : comp ga_error := ga_call (EvRecord b m).

(** Modelled from the spec: [GA_CUDA_EXIT_ON_ERROR] is a macro of the
    private CUDA header.  A failing wait or record aborts the enclosing
    operation, which exits the critical section before it returns the
    status; [GA_EXIT_ON_ERROR] of the collectives file is written so. *)
Definition GA_CUDA_EXIT_ON_ERROR (ctx : Z) (cmd : comp ga_error) : comp unit :=
  err <- cmd ;;
  if is_no_error err then ret tt
  else cuda_exit ctx ;; return_ err.

(** [CUBLAS_EXIT_ON_ERROR] *)
Definition CUBLAS_EXIT_ON_ERROR (ctx : Z) (cmd : comp cublasStatus_t) : comp unit :=
  err <- cmd ;;
  if cublas_ok err then ret tt
  else cuda_exit ctx ;; return_ (error_cublas err).

(** [gpudata_alloc] and [cuda_ops.buffer_alloc]: NULL, with the status the
    allocator left in the context's error record, or a fresh buffer. *)
Definition buffer_alloc (sz : Z) (init : option (list Z)) : comp alloc_result :=
  fun e st =>
    match alloc_answer e (length (trace st)) with
    | AllocOk buf =>
        (mk_state (trace st ++ [EvAlloc sz init buf]) (pointer_mode st), Val (AllocOk buf))
    | AllocFail code =>
        (mk_state (trace st ++ [EvAllocFail sz]) (pointer_mode st), Val (AllocFail code))
    end.

Definition buffer_release (buf : Z) : comp unit := emit (EvRelease buf).

Definition gpudata_write (buf off : Z) (data : list Z) (sz : Z) : comp ga_error :=
  ga_call (EvWrite buf off data sz).

Definition GpuKernel_call (k : kernel) (gs ls : list Z) (args : list karg) : comp ga_error :=
  ga_call (EvKernel k gs ls args).

(** [cublasGetPointerMode] and [cublasSetPointerMode] on the handle. *)
Definition cublasGetPointerMode : comp (cublasStatus_t * cublasPointerMode_t) :=
  fun e st =>
    (mk_state (trace st ++ [EvGetPointerMode]) (pointer_mode st),
     Val (cublas_answer e (length (trace st)), pointer_mode st)).

Definition cublasSetPointerMode (m : cublasPointerMode_t) : comp cublasStatus_t :=
  fun e st =>
    let r := cublas_answer e (length (trace st)) in
    (mk_state (trace st ++ [EvSetPointerMode m])
              (if cublas_ok r then m else pointer_mode st),
     Val r).

(* ================================================================== *)
(** ** The BLAS dispatcher *)

(** [A->ptr], cast to a pointer to the element type, plus [off]: the
    address of element [off] of a buffer. *)
Definition elem_addr (p : prec) (b : gpudata) (off : Z) : Z :=
  size_wrap (g_ptr b + sizeof_elem p * off).

(** [A->ptr + off] on the integer device address: a byte offset. *)
Definition byte_addr (b : gpudata) (off : Z) : Z :=
  size_wrap (g_ptr b + off).

(** The overflow test shared by the gemm entry points. *)
Definition gemm_sizes_large (M N K lda ldb ldc : Z) : bool :=
  LARGE_VAL M || LARGE_VAL N || LARGE_VAL K ||
  LARGE_VAL lda || LARGE_VAL ldb || LARGE_VAL ldc ||
  LARGE_VAL (size_wrap (M * N)) || LARGE_VAL (size_wrap (M * K)) ||
  LARGE_VAL (size_wrap (K * N)).

(** [sgemm] and [dgemm] from [cuda_enter] on, with the operands as the
    row-major swap left them. *)
Definition gemm_issue (p : prec) (ctx : Z) (transA transB : cb_transpose)
    (M N K : Z) (alpha : float) (A : gpudata) (offA lda : Z)
    (B : gpudata) (offB ldb : Z) (beta : float)
    (C : gpudata) (offC ldc : Z) : comp ga_error :=
  cuda_enter ctx ;;
  GA_CUDA_EXIT_ON_ERROR ctx (cuda_wait A CUDA_WAIT_READ) ;;
  GA_CUDA_EXIT_ON_ERROR ctx (cuda_wait B CUDA_WAIT_READ) ;;
  GA_CUDA_EXIT_ON_ERROR ctx (cuda_wait C CUDA_WAIT_ALL) ;;
  CUBLAS_EXIT_ON_ERROR ctx
    (cublas_call (EvGemm p (convT transA) (convT transB) M N K alpha
                    (elem_addr p A offA) lda (elem_addr p B offB) ldb beta
                    (elem_addr p C offC) ldc)) ;;
  GA_CUDA_EXIT_ON_ERROR ctx (cuda_record A CUDA_WAIT_READ) ;;
  GA_CUDA_EXIT_ON_ERROR ctx (cuda_record B CUDA_WAIT_READ) ;;
  GA_CUDA_EXIT_ON_ERROR ctx (cuda_record C CUDA_WAIT_ALL) ;;
  cuda_exit ctx ;;
  ret GA_NO_ERROR.

Definition gemm (p : prec) (order : cb_order) (transA transB : cb_transpose)
    (M N K : Z) (alpha : float) (A : gpudata) (offA lda : Z)
    (B : gpudata) (offB ldb : Z) (beta : float)
    (C : gpudata) (offC ldc : Z) : comp ga_error :=
  let ctx := g_ctx A in
  if gemm_sizes_large M N K lda ldb ldc then return_ GA_XLARGE_ERROR
  else
    match order with
    | cb_c => (* swap A and B *)
        gemm_issue p ctx transB transA N M K alpha B offB ldb A offA lda beta C offC ldc
    | cb_fortran =>
        gemm_issue p ctx transA transB M N K alpha A offA lda B offB ldb beta C offC ldc
    end.

Definition sgemm := gemm F32.
Definition dgemm := gemm F64.

(** [sdot] and [ddot].  [incX] and [incY] are [size_t] and are passed,
    with no test before, for two [int] of cuBLAS: the call receives them
    converted. *)
Definition dot (p : prec) (N : Z) (X : gpudata) (offX incX : Z)
    (Y : gpudata) (offY incY : Z) (Zb : gpudata) (offZ : Z) : comp ga_error :=
  let ctx := g_ctx X in
  if LARGE_VAL N then return_ GA_XLARGE_ERROR
  else
    cuda_enter ctx ;;
    GA_CUDA_EXIT_ON_ERROR ctx (cuda_wait X CUDA_WAIT_READ) ;;
    GA_CUDA_EXIT_ON_ERROR ctx (cuda_wait Y CUDA_WAIT_READ) ;;
    GA_CUDA_EXIT_ON_ERROR ctx (cuda_wait Zb CUDA_WAIT_WRITE) ;;
    (* we should store dot result on device *)
    (* CUBLAS_EXIT_ON_ERROR around cublasGetPointerMode(h->h, &pmode) *)
    got <- cublasGetPointerMode ;;
    (if cublas_ok (fst got) then ret tt
     else cuda_exit ctx ;; return_ (error_cublas (fst got))) ;;
    let pmode := snd got in
    CUBLAS_EXIT_ON_ERROR ctx (cublasSetPointerMode CUBLAS_POINTER_MODE_DEVICE) ;;
    CUBLAS_EXIT_ON_ERROR ctx
      (cublas_call (EvDot p N (elem_addr p X offX) (int_wrap incX)
                      (elem_addr p Y offY) (int_wrap incY)
                      (elem_addr p Zb offZ))) ;;
    CUBLAS_EXIT_ON_ERROR ctx (cublasSetPointerMode pmode) ;;
    GA_CUDA_EXIT_ON_ERROR ctx (cuda_record X CUDA_WAIT_READ) ;;
    GA_CUDA_EXIT_ON_ERROR ctx (cuda_record Y CUDA_WAIT_READ) ;;
    GA_CUDA_EXIT_ON_ERROR ctx (cuda_record Zb CUDA_WAIT_WRITE) ;;
    cuda_exit ctx ;;
    ret GA_NO_ERROR.

Definition sdot := dot F32.
Definition ddot := dot F64.

(** [sger] and [dger] from [cuda_enter] on; [incX] and [incY] are [int]. *)
Definition ger_issue (p : prec) (ctx : Z) (M N : Z) (alpha : float)
    (X : gpudata) (offX incX : Z) (Y : gpudata) (offY incY : Z)
    (A : gpudata) (offA lda : Z) : comp ga_error :=
  cuda_enter ctx ;;
  GA_CUDA_EXIT_ON_ERROR ctx (cuda_wait X CUDA_WAIT_READ) ;;
  GA_CUDA_EXIT_ON_ERROR ctx (cuda_wait Y CUDA_WAIT_READ) ;;
  GA_CUDA_EXIT_ON_ERROR ctx (cuda_wait A CUDA_WAIT_ALL) ;;
  CUBLAS_EXIT_ON_ERROR ctx
    (cublas_call (EvGer p M N alpha (elem_addr p X offX) incX
                    (elem_addr p Y offY) incY (elem_addr p A offA) lda)) ;;
  GA_CUDA_EXIT_ON_ERROR ctx (cuda_record X CUDA_WAIT_READ) ;;
  GA_CUDA_EXIT_ON_ERROR ctx (cuda_record Y CUDA_WAIT_READ) ;;
  GA_CUDA_EXIT_ON_ERROR ctx (cuda_record A CUDA_WAIT_ALL) ;;
  cuda_exit ctx ;;
  ret GA_NO_ERROR.

Definition ger (p : prec) (order : cb_order) (M N : Z) (alpha : float)
    (X : gpudata) (offX incX : Z) (Y : gpudata) (offY incY : Z)
    (A : gpudata) (offA lda : Z) : comp ga_error :=
  let ctx := g_ctx X in
  if LARGE_VAL M || LARGE_VAL N || LARGE_VAL (size_wrap (M * N)) ||
     LARGE_VAL lda || LARGE_VAL incX || LARGE_VAL incY
  then return_ GA_XLARGE_ERROR
  else
    match order with
    | cb_c => ger_issue p ctx N M alpha Y offY incY X offX incX A offA lda
    | cb_fortran => ger_issue p ctx M N alpha X offX incX Y offY incY A offA lda
    end.

Definition sger := ger F32.
Definition dger := ger F64.

(* ------------------------------------------------------------------ *)
(** *** Batched gemm *)

(** A C array ([gpudata **A], [size_t *offA]) is the map from an index to
    its element; the entry points read the indices below [batchCount]. *)
Definition array (T : Type) : Type := nat -> T.

Definition threshold : Z := 650.

(** [M * N * K > threshold * threshold * threshold] in [size_t]. *)
Definition gemmBatch_large (M N K : Z) : bool :=
  size_wrap (size_wrap (M * N) * K) >?
  size_wrap (size_wrap (threshold * threshold) * threshold).

(** The host array [T_l] of [batchCount * 3] pointers the first loop of
    the batched branch fills: [A_l], then [B_l], then [C_l]. *)
Definition pointer_table (addr : gpudata -> Z -> Z) (n : nat)
    (A : array gpudata) (offA : array Z) : list Z :=
  map (fun i => addr (A i) (offA i)) (seq 0 n).

(** [sgemmBatch] and [dgemmBatch] from [cuda_enter] on, with the operands
    as the row-major swap, which the code makes next, leaves them.  Where
    the code returns [ctx->err->code] the model returns the status the
    failed call stored there: the one the allocator left, or the one
    [gpudata_write] answered.  [batchCount] is a [size_t] passed, with no
    test before, for the [int] of the batched call, which receives it
    converted. *)
Definition gemmBatch_issue (p : prec) (ctx : Z) (transA transB : cb_transpose)
    (M N K : Z) (alpha : float) (A : array gpudata) (offA : array Z) (lda : Z)
    (B : array gpudata) (offB : array Z) (ldb : Z) (beta : float)
    (C : array gpudata) (offC : array Z) (ldc : Z)
    (batchCount : Z) : comp ga_error :=
  let n := Z.to_nat batchCount in
  cuda_enter ctx ;;
  (* use parallel cublasSgemm calls rather than cublasSgemmBatched for
     large products *)
  (if gemmBatch_large M N K then
     for_loop 0 n (fun i =>
       GA_CUDA_EXIT_ON_ERROR ctx (cuda_wait (A i) CUDA_WAIT_READ) ;;
       GA_CUDA_EXIT_ON_ERROR ctx (cuda_wait (B i) CUDA_WAIT_READ) ;;
       GA_CUDA_EXIT_ON_ERROR ctx (cuda_wait (C i) CUDA_WAIT_ALL) ;;
       CUBLAS_EXIT_ON_ERROR ctx
         (cublas_call (EvGemm p (convT transA) (convT transB) M N K alpha
                         (elem_addr p (A i) (offA i)) lda
                         (elem_addr p (B i) (offB i)) ldb beta
                         (elem_addr p (C i) (offC i)) ldc)) ;;
       GA_CUDA_EXIT_ON_ERROR ctx (cuda_record (A i) CUDA_WAIT_READ) ;;
       GA_CUDA_EXIT_ON_ERROR ctx (cuda_record (B i) CUDA_WAIT_READ) ;;
       GA_CUDA_EXIT_ON_ERROR ctx (cuda_record (C i) CUDA_WAIT_ALL))
   else
     for_loop 0 n (fun i =>
       GA_CUDA_EXIT_ON_ERROR ctx (cuda_wait (A i) CUDA_WAIT_READ) ;;
       GA_CUDA_EXIT_ON_ERROR ctx (cuda_wait (B i) CUDA_WAIT_READ) ;;
       GA_CUDA_EXIT_ON_ERROR ctx (cuda_wait (C i) CUDA_WAIT_ALL)) ;;
     let T_l := pointer_table (elem_addr p) n A offA ++
                pointer_table (elem_addr p) n B offB ++
                pointer_table (elem_addr p) n C offC in
     let bytes := size_wrap (size_wrap (sizeof_ptr * batchCount) * 3) in
     Ta <- buffer_alloc bytes None ;;
     match Ta with
     | AllocFail code => cuda_exit ctx ;; return_ code
     | AllocOk Aa =>
         let Ba := size_wrap (Aa + size_wrap (batchCount * sizeof_ptr)) in
         let Ca := size_wrap (Aa + size_wrap (size_wrap (batchCount * sizeof_ptr) * 2)) in
         w <- gpudata_write Aa 0 T_l bytes ;;
         (if is_no_error w then ret tt
          else buffer_release Aa ;; cuda_exit ctx ;; return_ w) ;;
         err <- cublas_call (EvGemmBatched p (convT transA) (convT transB) M N K alpha
                               Aa lda Ba ldb beta Ca ldc (int_wrap batchCount)) ;;
         buffer_release Aa ;;
         (if cublas_ok err then ret tt
          else cuda_exit ctx ;; return_ (error_cublas err)) ;;
         for_loop 0 n (fun i =>
           GA_CUDA_EXIT_ON_ERROR ctx (cuda_record (A i) CUDA_WAIT_READ) ;;
           GA_CUDA_EXIT_ON_ERROR ctx (cuda_record (B i) CUDA_WAIT_READ) ;;
           GA_CUDA_EXIT_ON_ERROR ctx (cuda_record (C i) CUDA_WAIT_ALL))
     end) ;;
  cuda_exit ctx ;;
  ret GA_NO_ERROR.

Definition gemmBatch (p : prec) (order : cb_order) (transA transB : cb_transpose)
    (M N K : Z) (alpha : float) (A : array gpudata) (offA : array Z) (lda : Z)
    (B : array gpudata) (offB : array Z) (ldb : Z) (beta : float)
    (C : array gpudata) (offC : array Z) (ldc : Z)
    (batchCount : Z) : comp ga_error :=
  let ctx := g_ctx (A 0%nat) in
  if gemm_sizes_large M N K lda ldb ldc then return_ GA_XLARGE_ERROR
  else
    match order with
    | cb_c => (* swap A and B *)
        gemmBatch_issue p ctx transB transA N M K alpha B offB ldb A offA lda
                        beta C offC ldc batchCount
    | cb_fortran =>
        gemmBatch_issue p ctx transA transB M N K alpha A offA lda B offB ldb
                        beta C offC ldc batchCount
    end.

Definition sgemmBatch := gemmBatch F32.
Definition dgemmBatch := gemmBatch F64.

(* ------------------------------------------------------------------ *)
(** *** Batched gemv *)

(** The block [ls] and the grid [gs] of the batched gemv kernels; [None]
    where [ls[1]] is zero and the code divides by it. *)
Definition gemvBatch_shape (M batchCount : Z) : option (list Z * list Z) :=
  let ls0 := if M <? 512 then 32 else 512 in
  let ls1 := if M <? 512 then (if batchCount >? 16 then 16 else batchCount) else 1 in
  let gs0 := size_wrap (M + ls0 - 1) / ls0 in
  if ls1 =? 0 then None
  else
    let gs1 := size_wrap (batchCount + ls1 - 1) / ls1 in
    let gs1' := if (size_wrap (gs0 * gs1) / 65535 =? 0) then gs1 else 65535 / gs0 in
    Some ([gs0; gs1'], [ls0; ls1]).

(** The three device arrays of operand pointers, each from its own
    [buffer_alloc]; the failure branches as written. *)
Definition alloc_pointer_arrays (bytes : Z) (A_l x_l y_l : list Z)
    : comp (Z * Z * Z) :=
  Aa <- buffer_alloc bytes (Some A_l) ;;
  match Aa with
  | AllocFail code => return_ code
  | AllocOk Aa =>
      xa <- buffer_alloc bytes (Some x_l) ;;
      match xa with
      | AllocFail code => buffer_release Aa ;; return_ code
      | AllocOk xa =>
          ya <- buffer_alloc bytes (Some y_l) ;;
          match ya with
          | AllocFail code =>
              buffer_release Aa ;; buffer_release xa ;; return_ code
          | AllocOk ya => ret (Aa, xa, ya)
          end
      end
  end.

Definition gemv_kernel (p : prec) (transA : cb_transpose) : kernel :=
  match p, transA with
  | F32, cb_no_trans => sgemvBH_N_a1_b1_small
  | F32, _ => sgemvBH_T_a1_b1_small
  | F64, cb_no_trans => dgemvBH_N_a1_b1_small
  | F64, _ => dgemvBH_T_a1_b1_small
  end.

(** [sgemvBatch] and [dgemvBatch] from [cuda_enter] on. *)
Definition gemvBatch_issue (p : prec) (ctx : Z) (gs ls : list Z)
    (transA : cb_transpose) (M N : Z)
    (A : array gpudata) (offA : array Z) (lda : Z)
    (x : array gpudata) (offX : array Z) (incX : Z)
    (y : array gpudata) (offY : array Z) (incY : Z)
    (batchCount : Z) : comp ga_error :=
  let n := Z.to_nat batchCount in
  cuda_enter ctx ;;
  for_loop 0 n (fun i =>
    GA_CUDA_EXIT_ON_ERROR ctx (cuda_wait (A i) CUDA_WAIT_READ) ;;
    GA_CUDA_EXIT_ON_ERROR ctx (cuda_wait (x i) CUDA_WAIT_READ) ;;
    GA_CUDA_EXIT_ON_ERROR ctx (cuda_wait (y i) CUDA_WAIT_ALL)) ;;
  bufs <- alloc_pointer_arrays (size_wrap (sizeof_ptr * batchCount))
            (pointer_table byte_addr n A offA)
            (pointer_table byte_addr n x offX)
            (pointer_table byte_addr n y offY) ;;
  let '(Aa, xa, ya) := bufs in
  let args := [KBuf Aa; KSize lda; KBuf xa; KSize incX; KBuf ya; KSize incY;
               KSize batchCount; KSize M; KSize N] in
  err <- GpuKernel_call (gemv_kernel p transA) gs ls args ;;
  buffer_release Aa ;;
  buffer_release xa ;;
  buffer_release ya ;;
  (if is_no_error err then ret tt else cuda_exit ctx ;; return_ err) ;;
  for_loop 0 n (fun i =>
    GA_CUDA_EXIT_ON_ERROR ctx (cuda_record (A i) CUDA_WAIT_READ) ;;
    GA_CUDA_EXIT_ON_ERROR ctx (cuda_record (x i) CUDA_WAIT_READ) ;;
    GA_CUDA_EXIT_ON_ERROR ctx (cuda_record (y i) CUDA_WAIT_ALL)) ;;
  cuda_exit ctx ;;
  ret GA_NO_ERROR.

Definition gemvBatch (p : prec) (order : cb_order) (transA : cb_transpose)
    (M N : Z) (alpha : float)
    (A : array gpudata) (offA : array Z) (lda : Z)
    (x : array gpudata) (offX : array Z) (incX : Z) (beta : float)
    (y : array gpudata) (offY : array Z) (incY : Z)
    (batchCount : Z) (flags : Z) : comp ga_error :=
  let ctx := g_ctx (A 0%nat) in
  if negb (flags =? 0) then return_ GA_INVALID_ERROR
  else if negb (PrimFloat.eqb alpha 1) || negb (PrimFloat.eqb beta 1)
  then return_ GA_UNSUPPORTED_ERROR
  else
    match gemvBatch_shape M batchCount with
    | None => stop DivByZero
    | Some (gs, ls) =>
        match order with
        | cb_c =>
            gemvBatch_issue p ctx gs ls
              (match transA with cb_no_trans => cb_trans | _ => cb_no_trans end)
              N M A offA lda x offX incX y offY incY batchCount
        | cb_fortran =>
            gemvBatch_issue p ctx gs ls transA
              M N A offA lda x offX incX y offY incY batchCount
        end
    end.

Definition sgemvBatch := gemvBatch F32.
Definition dgemvBatch := gemvBatch F64.

(* ------------------------------------------------------------------ *)
(** *** Batched ger *)

(** The block [ls] and the grid [gs] of the batched ger kernel, or the
    status of the "Input too large" return. *)
Definition gerBatch_shape (M N incX batchCount : Z) : ga_error + (list Z * list Z) :=
  let ls0 := M in let ls1 := N in
  let gs0 := 1 in let gs1 := 1 in let gs2 := batchCount in
  let '(ls0, ls1, gs0, gs1) :=
    if incX =? 1 then
      let '(gs0, ls0) :=
        if ls0 >? 32 then (size_wrap (ls0 + 31) / 32, 32) else (gs0, ls0) in
      let '(gs1, ls1) :=
        if size_wrap (ls0 * ls1) >? 512 then (size_wrap (ls1 + 15) / 16, 16)
        else (gs1, ls1) in
      (ls0, ls1, gs0, gs1)
    else
      let '(gs1, ls1) :=
        if ls1 >? 32 then (size_wrap (ls1 + 31) / 32, 32) else (gs1, ls1) in
      let '(gs0, ls0) :=
        if size_wrap (ls0 * ls1) >? 512 then (size_wrap (ls0 + 15) / 16, 16)
        else (gs0, ls0) in
      (ls0, ls1, gs0, gs1) in
  if size_wrap (size_wrap (gs0 * gs1) * gs2) >? 65535 then
    if size_wrap (gs0 * gs1) >? 65535 then inl GA_VALUE_ERROR
    else inr ([gs0; gs1; 65535 / size_wrap (gs0 * gs1)], [ls0; ls1; 1])
  else inr ([gs0; gs1; gs2], [ls0; ls1; 1]).

(** [sgerBatch] and [dgerBatch] from [cuda_enter] on.  [kern] is the
    kernel of the handle the entry point launches. *)
Definition gerBatch_issue (p : prec) (kern : kernel) (ctx : Z) (gs ls : list Z)
    (M N : Z) (alpha : float)
    (x : array gpudata) (offX : array Z) (incX : Z)
    (y : array gpudata) (offY : array Z) (incY : Z)
    (A : array gpudata) (offA : array Z) (lda : Z)
    (batchCount : Z) : comp ga_error :=
  let n := Z.to_nat batchCount in
  cuda_enter ctx ;;
  for_loop 0 n (fun i =>
    GA_CUDA_EXIT_ON_ERROR ctx (cuda_wait (A i) CUDA_WAIT_ALL) ;;
    GA_CUDA_EXIT_ON_ERROR ctx (cuda_wait (x i) CUDA_WAIT_READ) ;;
    GA_CUDA_EXIT_ON_ERROR ctx (cuda_wait (y i) CUDA_WAIT_READ)) ;;
  bufs <- alloc_pointer_arrays (size_wrap (sizeof_ptr * batchCount))
            (pointer_table byte_addr n A offA)
            (pointer_table byte_addr n x offX)
            (pointer_table byte_addr n y offY) ;;
  let '(Aa, xa, ya) := bufs in
  let args := [KBuf xa; KSize incX; KBuf ya; KSize incY; KScalar p alpha;
               KBuf Aa; KSize lda; KSize batchCount; KSize M; KSize N] in
  err <- GpuKernel_call kern gs ls args ;;
  buffer_release Aa ;;
  buffer_release xa ;;
  buffer_release ya ;;
  (if is_no_error err then ret tt else cuda_exit ctx ;; return_ err) ;;
  for_loop 0 n (fun i =>
    GA_CUDA_EXIT_ON_ERROR ctx (cuda_record (A i) CUDA_WAIT_READ) ;;
    GA_CUDA_EXIT_ON_ERROR ctx (cuda_record (x i) CUDA_WAIT_READ) ;;
    GA_CUDA_EXIT_ON_ERROR ctx (cuda_record (y i) CUDA_WAIT_ALL)) ;;
  cuda_exit ctx ;;
  ret GA_NO_ERROR.

Definition gerBatch (p : prec) (kern : kernel) (order : cb_order)
    (M N : Z) (alpha : float)
    (x : array gpudata) (offX : array Z) (incX : Z)
    (y : array gpudata) (offY : array Z) (incY : Z)
    (A : array gpudata) (offA : array Z) (lda : Z)
    (batchCount : Z) (flags : Z) : comp ga_error :=
  let ctx := g_ctx (x 0%nat) in
  if negb (flags =? 0) then return_ GA_INVALID_ERROR
  else
    match gerBatch_shape M N incX batchCount with
    | inl code => return_ code
    | inr (gs, ls) =>
        match order with
        | cb_c =>
            gerBatch_issue p kern ctx gs ls N M alpha
              y offY incY x offX incX A offA lda batchCount
        | cb_fortran =>
            gerBatch_issue p kern ctx gs ls M N alpha
              x offX incX y offY incY A offA lda batchCount
        end
    end.

(** Both entry points pass [sgerBH_gen_small] to [GpuKernel_call]. *)
Definition sgerBatch := gerBatch F32 sgerBH_gen_small.
Definition dgerBatch := gerBatch F64 sgerBH_gen_small.

(* ================================================================== *)
(** ** The collectives *)

(** What [ncclCommUserRank] and [ncclCommCount] answer for a communicator. *)
Record ncclComm_t : Type := mk_ncclComm {
  nccl_user_rank : ncclResult_t * Z;
  nccl_comm_count : ncclResult_t * Z
}.

(** [struct _gpucomm] *)
Record gpucomm : Type := mk_gpucomm {
  comm_ctx : Z;
  comm_c : ncclComm_t
}.

(** [NCCL_CHKFAIL] around the two queries: the status, and the value
    written through the out pointer (the diagnostic string stored in the
    context is not modelled). *)
Definition get_count (comm : gpucomm) (count0 : Z) : ga_error * Z :=
  match nccl_comm_count (comm_c comm) with
  | (ncclSuccess, n) => (GA_NO_ERROR, n)
  | (ncclFailure _, _) => (GA_COMM_ERROR, count0)
  end.

Definition get_rank (comm : gpucomm) (rank0 : Z) : ga_error * Z :=
  match nccl_user_rank (comm_c comm) with
  | (ncclSuccess, r) => (GA_NO_ERROR, r)
  | (ncclFailure _, _) => (GA_COMM_ERROR, rank0)
  end.

Definition convert_reduce_op (opcode : opcode_t) : ncclRedOp_t :=
  match opcode with
  | GA_SUM => ncclSum
  | GA_PROD => ncclProd
  | GA_MAX => ncclMax
  | GA_MIN => ncclMin
  | GA_OP_OTHER _ => nccl_NUM_OPS
  end.

Definition convert_data_type (has_half : bool) (typecode : typecode_t) : ncclDataType_t :=
  match typecode with
  | GA_BYTE => ncclChar
  | GA_INT => ncclInt
  | GA_HALF => if has_half then ncclHalf else nccl_NUM_TYPES
  | GA_FLOAT => ncclFloat
  | GA_DOUBLE => ncclDouble
  | GA_LONG => ncclInt64
  | GA_ULONG => ncclUint64
  | GA_TYPE_OTHER _ => nccl_NUM_TYPES
  end.

(** Modelled from the spec: [gpuarray_get_elsize] is defined in the type
    table of the library, outside these files; the element types of the
    closed enumeration map to their fixed byte widths (byte, 32-bit int,
    16/32/64-bit float, 64-bit signed and unsigned int).  The collectives
    read it only for a type code [convert_data_type] accepted. *)
Definition gpuarray_get_elsize (typecode : typecode_t) : Z :=
  match typecode with
  | GA_BYTE => 1
  | GA_INT => 4
  | GA_HALF => 2
  | GA_FLOAT => 4
  | GA_DOUBLE => 8
  | GA_LONG => 8
  | GA_ULONG => 8
  | GA_TYPE_OTHER _ => 0
  end.

Definition is_NUM_TYPES (d : ncclDataType_t) : bool :=
  match d with nccl_NUM_TYPES => true | _ => false end.

Definition is_NUM_OPS (o : ncclRedOp_t) : bool :=
  match o with nccl_NUM_OPS => true | _ => false end.

(** [assert(c)] of assert.h: nothing under [NDEBUG]; otherwise the
    condition is evaluated and the program aborts when it is false. *)
Definition assert_ (c : comp bool) : comp unit :=
  fun e st =>
    if NDEBUG e then (st, Val tt)
    else match c e st with
         | (st', Val true) => (st', Val tt)
         | (st', Val false) => (st', Stop AssertFailed)
         | (st', Stop o) => (st', Stop o)
         end.

(** [p->field] through a pointer that may be NULL. *)
Definition deref {A : Type} (p : option gpudata) (field : gpudata -> A) : comp A :=
  match p with
  | Some g => ret (field g)
  | None => stop NullDeref
  end.

Definition is_null (p : option gpudata) : bool :=
  match p with None => true | Some _ => false end.

(** [p->field] as the operand of a bitwise [&] whose other operand is
    [p != NULL]: with [p] NULL the read is made through the NULL pointer
    although the result, [0 & v], does not need it.  That is undefined
    behaviour, and the builds differ: the unoptimised one makes the read
    and stops there, the optimising ones drop it.  [NULL_READ_TRAPS] says
    which build runs; where the read is dropped the operand stands for any
    value, 0 here. *)
Definition deref_unneeded (p : option gpudata) (field : gpudata -> Z) : comp Z :=
  fun e st =>
    match p with
    | Some g => (st, Val (field g))
    | None => if NULL_READ_TRAPS e then (st, Stop NullDeref) else (st, Val 0)
    end.

(** [count * gpuarray_get_elsize(typecode)]: the [int] converted to
    [size_t], the product in [size_t]. *)
Definition op_size_of (count : Z) (typecode : typecode_t) : Z :=
  size_wrap (size_wrap count * gpuarray_get_elsize typecode).

(** [check_restrictions].  [datatype] and [op] say whether the two out
    pointers are non-NULL; the values written through them come back with
    the status. *)
Definition check_restrictions (src : gpudata) (offsrc : Z)
    (dest : option gpudata) (offdest : Z) (count : Z)
    (typecode : typecode_t) (opcode : opcode_t) (comm : gpucomm)
    (datatype op : bool) : comp (ga_error * ncclDataType_t * ncclRedOp_t) :=
  fun e =>
  let dt := convert_data_type (CUDA_HAS_HALF e) typecode in
  let rop := convert_reduce_op opcode in
  let fail := ret (GA_VALUE_ERROR, dt, rop) in
  (* src, dest and comm must refer to the same context *)
  (if negb (g_ctx src =? comm_ctx comm) then fail
   else if match dest with
           | Some d => negb (g_ctx d =? comm_ctx comm)
           | None => false
           end then fail
   (* typecode must correspond to a valid ncclDataType_t *)
   else if datatype && is_NUM_TYPES dt then fail
   (* opcode must correspond to a valid ncclRedOp_t *)
   else if op && is_NUM_OPS rop then fail
   else
     (* size to operate upon must be able to fit inside the gpudata *)
     let op_size := op_size_of count typecode in
     if size_wrap (g_sz src - offsrc) <? op_size then fail
     else if match dest with
             | Some d => size_wrap (g_sz d - offdest) <? op_size
             | None => false
             end then fail
     else
       (* offsets must not be larger than gpudata's size itself *)
       assert_ (ret (negb (offsrc >? g_sz src))) ;;
       (* the bitwise [&] evaluates both operands *)
       assert_ (sz <- deref_unneeded dest g_sz ;;
                ret (negb (negb (is_null dest) && (offdest >? sz)))) ;;
       ret (GA_NO_ERROR, dt, rop)) e.

(** [GA_CHECK] *)
Definition GA_CHECK (err : ga_error) : comp unit :=
  if is_no_error err then ret tt else return_ err.

(** [GA_EXIT_ON_ERROR] *)
Definition GA_EXIT_ON_ERROR (ctx : Z) (cmd : comp ga_error) : comp unit :=
  err <- cmd ;;
  if is_no_error err then ret tt
  else cuda_exit ctx ;; return_ err.

(** [NCCL_EXIT_ON_ERROR] *)
Definition NCCL_EXIT_ON_ERROR (ctx : Z) (cmd : comp ncclResult_t) : comp unit :=
  nccl_err <- cmd ;;
  if nccl_ok nccl_err then ret tt
  else cuda_exit ctx ;; return_ GA_COMM_ERROR.

(** [reduce].  [dest] may be NULL; [cuda_wait], [cuda_record] and the
    address computation of the root read through it. *)
Definition reduce (src : gpudata) (offsrc : Z) (dest : option gpudata) (offdest : Z)
    (count : Z) (typecode : typecode_t) (opcode : opcode_t)
    (root : Z) (comm : gpucomm) : comp ga_error :=
  let '(err, rank) := get_rank comm 0 in
  GA_CHECK err ;;
  let dst := if rank =? root then dest else None in
  chk <- check_restrictions src offsrc dst offdest count typecode opcode comm true true ;;
  let '(err, datatype, op) := chk in
  GA_CHECK err ;;
  let ctx := comm_ctx comm in
  cuda_enter ctx ;;
  (* sync: wait till a write has finished (out of concurrent kernels) *)
  GA_EXIT_ON_ERROR ctx (cuda_wait src CUDA_WAIT_READ) ;;
  (* sync: wait till a read/write has finished (out of concurrent kernels) *)
  (if rank =? root then
     d <- deref dest (fun d => d) ;;
     GA_EXIT_ON_ERROR ctx (cuda_wait d CUDA_WAIT_WRITE)
   else ret tt) ;;
  (if rank =? root then
     d <- deref dest (fun d => d) ;;
     NCCL_EXIT_ON_ERROR ctx
       (nccl_call (EvNcclReduce (byte_addr src offsrc) (Some (byte_addr d offdest))
                     count datatype op root))
   else
     NCCL_EXIT_ON_ERROR ctx
       (nccl_call (EvNcclReduce (byte_addr src offsrc) None
                     count datatype op root))) ;;
  GA_EXIT_ON_ERROR ctx (cuda_record src CUDA_WAIT_READ) ;;
  (if rank =? root then
     d <- deref dest (fun d => d) ;;
     GA_EXIT_ON_ERROR ctx (cuda_record d CUDA_WAIT_WRITE)
   else ret tt) ;;
  cuda_exit ctx ;;
  ret GA_NO_ERROR.

(** [all_reduce] *)
Definition all_reduce (src : gpudata) (offsrc : Z) (dest : gpudata) (offdest : Z)
    (count : Z) (typecode : typecode_t) (opcode : opcode_t)
    (comm : gpucomm) : comp ga_error :=
  chk <- check_restrictions src offsrc (Some dest) offdest count typecode opcode
           comm true true ;;
  let '(err, datatype, op) := chk in
  GA_CHECK err ;;
  let ctx := comm_ctx comm in
  cuda_enter ctx ;;
  GA_EXIT_ON_ERROR ctx (cuda_wait src CUDA_WAIT_READ) ;;
  GA_EXIT_ON_ERROR ctx (cuda_wait dest CUDA_WAIT_WRITE) ;;
  NCCL_EXIT_ON_ERROR ctx
    (nccl_call (EvNcclAllReduce (byte_addr src offsrc) (byte_addr dest offdest)
                  count datatype op)) ;;
  GA_EXIT_ON_ERROR ctx (cuda_record src CUDA_WAIT_READ) ;;
  GA_EXIT_ON_ERROR ctx (cuda_record dest CUDA_WAIT_WRITE) ;;
  cuda_exit ctx ;;
  ret GA_NO_ERROR.

(** [reduce_scatter]; [count * ndev] is a product of two [int]. *)
Definition reduce_scatter (src : gpudata) (offsrc : Z) (dest : gpudata) (offdest : Z)
    (count : Z) (typecode : typecode_t) (opcode : opcode_t)
    (comm : gpucomm) : comp ga_error :=
  let '(err, ndev) := get_count comm 0 in
  GA_CHECK err ;;
  chk <- check_restrictions src offsrc None 0 (int_wrap (count * ndev)) typecode opcode
           comm true true ;;
  let '(err, datatype, op) := chk in
  GA_CHECK err ;;
  if negb (g_ctx dest =? comm_ctx comm) then return_ GA_VALUE_ERROR
  else
    let resc_size := op_size_of count typecode in
    if size_wrap (g_sz dest - offdest) <? resc_size then return_ GA_VALUE_ERROR
    else
      assert_ (ret (negb (offdest >? g_sz dest))) ;;
      let ctx := comm_ctx comm in
      cuda_enter ctx ;;
      GA_EXIT_ON_ERROR ctx (cuda_wait src CUDA_WAIT_READ) ;;
      GA_EXIT_ON_ERROR ctx (cuda_wait dest CUDA_WAIT_WRITE) ;;
      NCCL_EXIT_ON_ERROR ctx
        (nccl_call (EvNcclReduceScatter (byte_addr src offsrc) (byte_addr dest offdest)
                      count datatype op)) ;;
      GA_EXIT_ON_ERROR ctx (cuda_record src CUDA_WAIT_READ) ;;
      GA_EXIT_ON_ERROR ctx (cuda_record dest CUDA_WAIT_WRITE) ;;
      cuda_exit ctx ;;
      ret GA_NO_ERROR.

(** [broadcast]; the literal 0 passed as [opcode] is not read, [op] being
    NULL. *)
Definition broadcast (array_ : gpudata) (offset : Z) (count : Z)
    (typecode : typecode_t) (root : Z) (comm : gpucomm) : comp ga_error :=
  chk <- check_restrictions array_ offset None 0 count typecode (GA_OP_OTHER 0)
           comm true false ;;
  let '(err, datatype, _) := chk in
  GA_CHECK err ;;
  let ctx := comm_ctx comm in
  cuda_enter ctx ;;
  GA_EXIT_ON_ERROR ctx (cuda_wait array_ CUDA_WAIT_READ) ;;
  NCCL_EXIT_ON_ERROR ctx
    (nccl_call (EvNcclBcast (byte_addr array_ offset) count datatype root)) ;;
  GA_EXIT_ON_ERROR ctx (cuda_record array_ CUDA_WAIT_READ) ;;
  cuda_exit ctx ;;
  ret GA_NO_ERROR.

(** [all_gather]; [ndev * count] is a product of two [int]. *)
Definition all_gather (src : gpudata) (offsrc : Z) (dest : gpudata) (offdest : Z)
    (count : Z) (typecode : typecode_t) (comm : gpucomm) : comp ga_error :=
  chk <- check_restrictions src offsrc None 0 count typecode (GA_OP_OTHER 0)
           comm true false ;;
  let '(err, datatype, _) := chk in
  GA_CHECK err ;;
  if negb (g_ctx dest =? comm_ctx comm) then return_ GA_VALUE_ERROR
  else
    let '(err, ndev) := get_count comm 0 in
    GA_CHECK err ;;
    let resc_size := op_size_of (int_wrap (ndev * count)) typecode in
    if size_wrap (g_sz dest - offdest) <? resc_size then return_ GA_VALUE_ERROR
    else
      assert_ (ret (negb (offdest >? g_sz dest))) ;;
      let ctx := comm_ctx comm in
      cuda_enter ctx ;;
      GA_EXIT_ON_ERROR ctx (cuda_wait src CUDA_WAIT_READ) ;;
      GA_EXIT_ON_ERROR ctx (cuda_wait dest CUDA_WAIT_WRITE) ;;
      NCCL_EXIT_ON_ERROR ctx
        (nccl_call (EvNcclAllGather (byte_addr src offsrc) count datatype
                      (byte_addr dest offdest))) ;;
      GA_EXIT_ON_ERROR ctx (cuda_record src CUDA_WAIT_READ) ;;
      GA_EXIT_ON_ERROR ctx (cuda_record dest CUDA_WAIT_WRITE) ;;
      cuda_exit ctx ;;
      ret GA_NO_ERROR.

(* ================================================================== *)
(** ** Observations on a trace *)

(** Entries into the critical section not yet matched by an exit. *)
Fixpoint gate_depth (evs : list event) : Z :=
  match evs with
  | [] => 0
  | EvEnter _ :: evs' => gate_depth evs' + 1
  | EvExit _ :: evs' => gate_depth evs' - 1
  | _ :: evs' => gate_depth evs'
  end.

(** The hazards waited for and the hazards recorded, in order. *)
Fixpoint waits (evs : list event) : list (gpudata * wait_mode) :=
  match evs with
  | [] => []
  | EvWait b m :: evs' => (b, m) :: waits evs'
  | _ :: evs' => waits evs'
  end.

Fixpoint records (evs : list event) : list (gpudata * wait_mode) :=
  match evs with
  | [] => []
  | EvRecord b m :: evs' => (b, m) :: records evs'
  | _ :: evs' => records evs'
  end.

(** The kernels launched, with their grids. *)
Fixpoint launches (evs : list event) : list (kernel * list Z * list Z) :=
  match evs with
  | [] => []
  | EvKernel k gs ls _ :: evs' => (k, gs, ls) :: launches evs'
  | _ :: evs' => launches evs'
  end.

(** Scratch buffers: the allocator's events, and the buffers alive after
    a trace.  Releasing a buffer that is not alive is an error ([None]). *)
Fixpoint remove_one (buf : Z) (live : list Z) : option (list Z) :=
  match live with
  | [] => None
  | b :: live' =>
      if b =? buf then Some live'
      else match remove_one buf live' with
           | Some l => Some (b :: l)
           | None => None
           end
  end.

Fixpoint scratch_live (live : list Z) (evs : list event) : option (list Z) :=
  match evs with
  | [] => Some live
  | EvAlloc _ _ buf :: evs' => scratch_live (buf :: live) evs'
  | EvRelease buf :: evs' =>
      match remove_one buf live with
      | Some live' => scratch_live live' evs'
      | None => None
      end
  | _ :: evs' => scratch_live live evs'
  end.

(** Every scratch buffer allocated in the trace is released in it, once,
    after its allocation. *)
Definition scratch_released (evs : list event) : Prop :=
  scratch_live [] evs = Some [].

(** The vendor gemm calls of a trace: the destination of a per-item call,
    the three pointer arrays and the batch count of a batched call. *)
Inductive vendor_call : Type :=
| PerItem (C : Z)
| Batched (Aa Ba Ca : Z) (batchCount : Z).

Fixpoint vendor_calls (evs : list event) : list vendor_call :=
  match evs with
  | [] => []
  | EvGemm _ _ _ _ _ _ _ _ _ _ _ _ C _ :: evs' => PerItem C :: vendor_calls evs'
  | EvGemmBatched _ _ _ _ _ _ _ Aa _ Ba _ _ Ca _ bc :: evs' =>
      Batched Aa Ba Ca bc :: vendor_calls evs'
  | _ :: evs' => vendor_calls evs'
  end.

(** The scratch allocations of a trace with what was written into them. *)
Fixpoint scratch_events (evs : list event) : list event :=
  match evs with
  | [] => []
  | (EvAlloc _ _ _ as ev) :: evs'
  | (EvAllocFail _ as ev) :: evs'
  | (EvWrite _ _ _ _ as ev) :: evs'
  | (EvRelease _ as ev) :: evs' => ev :: scratch_events evs'
  | _ :: evs' => scratch_events evs'
  end.

(** Events of the hazard loops: waits, records, the exit of an error
    branch, and the per-item gemm. *)
Definition loop_event (ev : event) : Prop :=
  match ev with
  | EvWait _ _ | EvRecord _ _ | EvExit _ | EvGemm _ _ _ _ _ _ _ _ _ _ _ _ _ _ => True
  | _ => False
  end.

(** A computation appends [evs] to the trace, leaves the pointer mode
    alone and ends with [r]. *)
Definition appends {A : Type} (m : comp A) (e : env) (st : state)
    (evs : list event) (r : res A) : Prop :=
  m e st = (mk_state (trace st ++ evs) (pointer_mode st), r).

(* ================================================================== *)
(** ** Inputs of the examples *)

(** Every external call succeeds; the allocator answers the address
    [1000 + n] at position [n] of the trace.  The build is the
    unoptimised one, which makes every read it is asked for. *)
Definition ok_env (ndebug : bool) : env :=
  mk_env (fun _ => GA_NO_ERROR) (fun _ => CUBLAS_STATUS_SUCCESS)
         (fun n => AllocOk (1000 + Z.of_nat n)) (fun _ => ncclSuccess)
         ndebug true true.

(** As [ok_env] with assertions, in an optimising build. *)
Definition optimised_env : env :=
  mk_env (fun _ => GA_NO_ERROR) (fun _ => CUBLAS_STATUS_SUCCESS)
         (fun n => AllocOk (1000 + Z.of_nat n)) (fun _ => ncclSuccess)
         false true false.

(** As [ok_env], but the allocator is out of memory. *)
Definition oom_env : env :=
  mk_env (fun _ => GA_NO_ERROR) (fun _ => CUBLAS_STATUS_SUCCESS)
         (fun _ => AllocFail GA_MEMORY_ERROR) (fun _ => ncclSuccess)
         false true true.

Definition st0 : state := mk_state [] CUBLAS_POINTER_MODE_HOST.

(** Buffers of 4096 bytes of context 7. *)
Definition buf (k : Z) : gpudata := mk_gpudata 7 (k * 4096) 4096.

Definition bufs (base : Z) : array gpudata := fun i => buf (base + Z.of_nat i).

Definition offs : array Z := fun _ => 0.

(** A communicator of context 7: rank 1 in a world of 2. *)
Definition comm1 : gpucomm :=
  mk_gpucomm 7 (mk_ncclComm (ncclSuccess, 1) (ncclSuccess, 2)).

(* ================================================================== *)
(** ** The collective entry points as one family *)

Inductive collective : Type :=
| Reduce (src : gpudata) (offsrc : Z) (dest : option gpudata) (offdest : Z)
         (count : Z) (typecode : typecode_t) (opcode : opcode_t) (root : Z)
| AllReduce (src : gpudata) (offsrc : Z) (dest : gpudata) (offdest : Z)
         (count : Z) (typecode : typecode_t) (opcode : opcode_t)
| ReduceScatter (src : gpudata) (offsrc : Z) (dest : gpudata) (offdest : Z)
         (count : Z) (typecode : typecode_t) (opcode : opcode_t)
| Broadcast (array_ : gpudata) (offset : Z) (count : Z) (typecode : typecode_t)
         (root : Z)
| AllGather (src : gpudata) (offsrc : Z) (dest : gpudata) (offdest : Z)
         (count : Z) (typecode : typecode_t).

Definition run_collective (c : collective) (comm : gpucomm) : comp ga_error :=
  match c with
  | Reduce src offsrc dest offdest count typecode opcode root =>
      reduce src offsrc dest offdest count typecode opcode root comm
  | AllReduce src offsrc dest offdest count typecode opcode =>
      all_reduce src offsrc dest offdest count typecode opcode comm
  | ReduceScatter src offsrc dest offdest count typecode opcode =>
      reduce_scatter src offsrc dest offdest count typecode opcode comm
  | Broadcast array_ offset count typecode root =>
      broadcast array_ offset count typecode root comm
  | AllGather src offsrc dest offdest count typecode =>
      all_gather src offsrc dest offdest count typecode comm
  end.

(** The world size and the rank the communicator reports. *)
Definition ndev_of (comm : gpucomm) : Z := snd (nccl_comm_count (comm_c comm)).
Definition rank_of (comm : gpucomm) : Z := snd (nccl_user_rank (comm_c comm)).

(** The operand buffers an operation validates, each with its offset and
    the number of elements requested of it: every source; the destination
    of all_reduce, reduce_scatter and all_gather; the destination of
    reduce on the root only. *)
Definition validated_operands (c : collective) (comm : gpucomm)
    : list (gpudata * Z * Z) :=
  match c with
  | Reduce src offsrc dest offdest count _ _ root =>
      (src, offsrc, count) ::
      match dest with
      | Some d => if rank_of comm =? root then [(d, offdest, count)] else []
      | None => []
      end
  | AllReduce src offsrc dest offdest count _ _ =>
      [(src, offsrc, count); (dest, offdest, count)]
  | ReduceScatter src offsrc dest offdest count _ _ =>
      [(src, offsrc, count * ndev_of comm); (dest, offdest, count)]
  | Broadcast array_ offset count _ _ => [(array_, offset, count)]
  | AllGather src offsrc dest offdest count _ =>
      [(src, offsrc, count); (dest, offdest, ndev_of comm * count)]
  end.

Definition typecode_of (c : collective) : typecode_t :=
  match c with
  | Reduce _ _ _ _ _ t _ _ | AllReduce _ _ _ _ _ t _
  | ReduceScatter _ _ _ _ _ t _ | Broadcast _ _ _ t _ | AllGather _ _ _ _ _ t => t
  end.

(** The queries the operation makes on the communicator succeed. *)
Definition queries_ok (c : collective) (comm : gpucomm) : Prop :=
  match c with
  | Reduce _ _ _ _ _ _ _ _ => fst (nccl_user_rank (comm_c comm)) = ncclSuccess
  | ReduceScatter _ _ _ _ _ _ _ | AllGather _ _ _ _ _ _ =>
      fst (nccl_comm_count (comm_c comm)) = ncclSuccess
  | AllReduce _ _ _ _ _ _ _ | Broadcast _ _ _ _ _ => True
  end.

(** An operand as the types of the C interface allow it and inside the
    buffer: a size and an offset of [size_t] with the offset at most the
    size, and a non-negative element count of [int]. *)
Definition operand_in_range (o : gpudata * Z * Z) : Prop :=
  let '(b, off, cnt) := o in
  0 <= off <= g_sz b /\ g_sz b < 2 ^ 64 /\ 0 <= cnt <= INT_MAX.

(** The requested elements, scaled by the element width, exceed what the
    buffer holds past the offset. *)
Definition operand_too_small (t : typecode_t) (o : gpudata * Z * Z) : Prop :=
  let '(b, off, cnt) := o in
  g_sz b - off < cnt * gpuarray_get_elsize t.

(* ================================================================== *)
(** ** Notions used in the statements *)

(** A result that is an error status returned to the caller. *)
Definition failed {A : Type} (r : res A) : Prop :=
  exists c, r = Stop (Returned c) /\ c <> GA_NO_ERROR.

(** The allocator, when it answers NULL, has left an error status in the
    context's error record. *)
Definition allocator_reports (e : env) : Prop :=
  forall n, alloc_answer e n <> AllocFail GA_NO_ERROR.

(** The operand arrays as the row-major swap leaves them. *)
Definition swapped {T : Type} (order : cb_order) (a b : T) : T * T :=
  match order with cb_c => (b, a) | cb_fortran => (a, b) end.

(* ================================================================== *)
(** ** Further notions and inputs *)

(** As [ok_env], but the cuBLAS call made at position [k] of the trace
    fails in execution. *)
Definition cublas_fail_env (k : nat) : env :=
  mk_env (fun _ => GA_NO_ERROR)
         (fun n => if Nat.eqb n k then CUBLAS_STATUS_EXECUTION_FAILED
                   else CUBLAS_STATUS_SUCCESS)
         (fun n => AllocOk (1000 + Z.of_nat n)) (fun _ => ncclSuccess)
         false true true.

(** As [ok_env], but the wait, record or kernel call made at position
    [k] of the trace fails. *)
Definition ga_fail_env (k : nat) : env :=
  mk_env (fun n => if Nat.eqb n k then GA_IMPL_ERROR else GA_NO_ERROR)
         (fun _ => CUBLAS_STATUS_SUCCESS)
         (fun n => AllocOk (1000 + Z.of_nat n)) (fun _ => ncclSuccess)
         false true true.

(** An allocation of the trace failed. *)
Fixpoint has_alloc_fail (evs : list event) : bool :=
  match evs with
  | [] => false
  | EvAllocFail _ :: _ => true
  | _ :: evs' => has_alloc_fail evs'
  end.

(** The events of a tracked device call, in their order: the critical
    section is entered, the hazards are waited for, the call is made,
    the same hazards are recorded, the critical section is left. *)
Definition tracked (ctx : Z) (ops : list (gpudata * wait_mode)) (native : event)
    : list event :=
  EvEnter ctx :: map (fun o => EvWait (fst o) (snd o)) ops ++
  native :: map (fun o => EvRecord (fst o) (snd o)) ops ++ [EvExit ctx].

(** The calls into NCCL. *)
Definition is_nccl_call (ev : event) : bool :=
  match ev with
  | EvNcclReduce _ _ _ _ _ _ | EvNcclAllReduce _ _ _ _ _
  | EvNcclReduceScatter _ _ _ _ _ | EvNcclBcast _ _ _ _
  | EvNcclAllGather _ _ _ _ => true
  | _ => false
  end.

(** The hazards a collective tracks: its source, for reading; its
    destination, for writing - that of reduce on the root only.  The one
    buffer of broadcast is tracked for reading on every rank. *)
Definition hazard_operands (c : collective) (comm : gpucomm)
    : list (gpudata * wait_mode) :=
  match c with
  | Reduce src _ dest _ _ _ _ root =>
      (src, CUDA_WAIT_READ) ::
      match dest with
      | Some d => if rank_of comm =? root then [(d, CUDA_WAIT_WRITE)] else []
      | None => []
      end
  | AllReduce src _ dest _ _ _ _ | ReduceScatter src _ dest _ _ _ _
  | AllGather src _ dest _ _ _ =>
      [(src, CUDA_WAIT_READ); (dest, CUDA_WAIT_WRITE)]
  | Broadcast array_ _ _ _ _ => [(array_, CUDA_WAIT_READ)]
  end.

(** The source buffer, its offset and the reduction code of a collective. *)
Definition source_of (c : collective) : gpudata :=
  match c with
  | Reduce src _ _ _ _ _ _ _ | AllReduce src _ _ _ _ _ _
  | ReduceScatter src _ _ _ _ _ _ | Broadcast src _ _ _ _ | AllGather src _ _ _ _ _ => src
  end.

Definition offset_of (c : collective) : Z :=
  match c with
  | Reduce _ o _ _ _ _ _ _ | AllReduce _ o _ _ _ _ _
  | ReduceScatter _ o _ _ _ _ _ | Broadcast _ o _ _ _ | AllGather _ o _ _ _ _ => o
  end.

Definition opcode_of (c : collective) : option opcode_t :=
  match c with
  | Reduce _ _ _ _ _ _ o _ | AllReduce _ _ _ _ _ _ o | ReduceScatter _ _ _ _ _ _ o => Some o
  | Broadcast _ _ _ _ _ | AllGather _ _ _ _ _ _ => None
  end.

(** The codes [check_restrictions] refuses: a source of another context,
    an element type NCCL has no name for in this build, or a reduction
    NCCL has no name for. *)
Definition refused_codes (c : collective) (comm : gpucomm) (e : env) : Prop :=
  g_ctx (source_of c) <> comm_ctx comm \/
  convert_data_type (CUDA_HAS_HALF e) (typecode_of c) = nccl_NUM_TYPES \/
  (exists o, opcode_of c = Some o /\ convert_reduce_op o = nccl_NUM_OPS).

(** The calls that hand [check_restrictions] a NULL destination: every
    call but all_reduce and reduce on the root with a destination. *)
Definition validates_null_destination (c : collective) (comm : gpucomm) : Prop :=
  match c with
  | Reduce _ _ dest _ _ _ _ root => rank_of comm <> root \/ dest = None
  | AllReduce _ _ _ _ _ _ _ => False
  | ReduceScatter _ _ _ _ _ _ _ | Broadcast _ _ _ _ _ | AllGather _ _ _ _ _ _ => True
  end.

(** As [ok_env], compiled without the half type. *)
Definition no_half_env : env :=
  mk_env (fun _ => GA_NO_ERROR) (fun _ => CUBLAS_STATUS_SUCCESS)
         (fun n => AllocOk (1000 + Z.of_nat n)) (fun _ => ncclSuccess)
         true false true.

(* ================================================================== *)
(** ** The handle of a context, the entry points that go through it,
       and the life of a communicator *)

(** [setup], [teardown], gemv, the reduced-precision gemm, the
    strided-batched gemm, [comm_new] and [comm_free] make calls the
    events above have no name for.  They are modelled over a trace of
    their own, in the same way: the events above for the critical section
    and the hazards, the host allocator, the life of the cuBLAS handle,
    of the six kernels and of an NCCL communicator, and three more cuBLAS
    routines.  A call that creates a resource carries what it answered.
    The state maps a context to its [ctx->blas_handle]: NULL, or the
    block [setup] allocated. *)
Module Handle.

Definition cuda_event : Type := event.
Definition cuda_env : Type := env.

(** The cuBLAS routines the loader may not have found. *)
Inductive routine : Type :=
| cublasSgemmEx
| cublasHgemmStridedBatched
| cublasSgemmStridedBatched
| cublasDgemmStridedBatched.

(** The entries of a [types] array of [setup]: [GA_BUFFER], [GA_SIZE],
    [GA_FLOAT] and [GA_DOUBLE]. *)
Inductive kernel_type : Type := KT_BUFFER | KT_SIZE | KT_FLOAT | KT_DOUBLE.

Inductive event : Type :=
| Cuda (ev : cuda_event)
| Calloc (block : option Z)
| Free (block : Z)
| CublasCreate (block : Z) (r : cublasStatus_t)
| CublasSetStream (block : Z)
| CublasSetPointerMode (block : Z) (m : cublasPointerMode_t)
| CublasDestroy (block : Z)
| KernelInit (block : Z) (k : kernel) (argcount : Z) (types : list kernel_type)
             (use_double : bool) (r : ga_error)
| KernelClear (block : Z) (k : kernel)
| Gemv (block : Z) (p : prec) (trans : cublasOperation_t) (M N : Z) (alpha : float)
       (A lda X incX : Z) (beta : float) (Y incY : Z)
| GemmEx (block : Z) (ta tb : cublasOperation_t) (M N K : Z) (alpha : float)
         (A lda B ldb : Z) (beta : float) (C ldc : Z)
| GemmStridedBatched (block : Z) (f : routine) (ta tb : cublasOperation_t) (M N K : Z)
         (alpha : float) (A lda strideA B ldb strideB : Z) (beta : float)
         (C ldc strideC : Z) (batchCount : Z)
| Retain (ctx : Z)
| BufferDeinit (ctx : Z)
| NcclCommInitRank (block : Z) (ndev : Z) (comm_id : Z) (rank : Z) (r : ncclResult_t)
| NcclCommDestroy (block : Z).

(** The answers of the outside as above, what [calloc] answers to the
    call made when the trace has [n] events, the status [error_sys]
    returns, and the routines the loader found. *)
Record env : Type := mk_env {
  outside : cuda_env;
  calloc_answer : nat -> option Z;
  error_sys_answer : ga_error;
  loaded : routine -> bool
}.

Record state : Type := mk_state {
  trace : list event;
  blas_handle : Z -> option Z
}.

Definition comp (A : Type) : Type := env -> state -> state * res A.

Definition ret {A : Type} (a : A) : comp A := fun _ st => (st, Val a).

Definition bind {A B : Type} (m : comp A) (f : A -> comp B) : comp B :=
  fun e st =>
    match m e st with
    | (st', Val a) => f a e st'
    | (st', Stop o) => (st', Stop o)
    end.

Declare Scope handle_scope.
Notation "x <- m ;; k" := (bind m (fun x => k))
  (at level 61, m at next level, right associativity) : handle_scope.
Notation "m ;; k" := (bind m (fun _ => k))
  (at level 61, right associativity) : handle_scope.
Local Open Scope handle_scope.

Definition return_ {A : Type} (code : ga_error) : comp A :=
  fun _ st => (st, Stop (Returned code)).

Definition stop {A : Type} (o : outcome) : comp A := fun _ st => (st, Stop o).

Definition emit (ev : event) : comp unit :=
  fun _ st => (mk_state (trace st ++ [ev]) (blas_handle st), Val tt).

Definition ga_call (ev : event) : comp ga_error :=
  fun e st =>
    (mk_state (trace st ++ [ev]) (blas_handle st),
     Val (ga_answer (outside e) (length (trace st)))).

Definition cublas_call (ev : event) : comp cublasStatus_t :=
  fun e st =>
    (mk_state (trace st ++ [ev]) (blas_handle st),
     Val (cublas_answer (outside e) (length (trace st)))).

Definition call (body : comp ga_error) (e : env) (st : state) : state * outcome :=
  match body e st with
  | (st', Val code) => (st', Returned code)
  | (st', Stop o) => (st', o)
  end.

Definition events_of (body : comp ga_error) (e : env) (st : state) : list event :=
  skipn (length (trace st)) (trace (fst (call body e st))).

Definition outcome_of (body : comp ga_error) (e : env) (st : state) : outcome :=
  snd (call body e st).

(** *** The primitives *)

Definition cuda_enter (ctx : Z) : comp unit := emit (Cuda (EvEnter ctx)).
Definition cuda_exit (ctx : Z) : comp unit := emit (Cuda (EvExit ctx)).
Definition cuda_wait (b : gpudata) (m : wait_mode) : comp ga_error :=
  ga_call (Cuda (EvWait b m)).
Definition cuda_record (b : gpudata) (m : wait_mode) : comp ga_error :=
  ga_call (Cuda (EvRecord b m)).

(** Modelled from the spec: as [GA_CUDA_EXIT_ON_ERROR] above. *)
Definition GA_CUDA_EXIT_ON_ERROR (ctx : Z) (cmd : comp ga_error) : comp unit :=
  err <- cmd ;;
  if is_no_error err then ret tt
  else cuda_exit ctx ;; return_ err.

(** [CUBLAS_EXIT_ON_ERROR] *)
Definition CUBLAS_EXIT_ON_ERROR (ctx : Z) (cmd : comp cublasStatus_t) : comp unit :=
  err <- cmd ;;
  if cublas_ok err then ret tt
  else cuda_exit ctx ;; return_ (error_cublas err).

(** [calloc] of one [blas_handle] *)
Definition calloc : comp (option Z) :=
  fun e st =>
    let r := calloc_answer e (length (trace st)) in
    (mk_state (trace st ++ [Calloc r]) (blas_handle st), Val r).

Definition free (block : Z) : comp unit := emit (Free block).

(** Modelled from the spec: [error_sys] is defined in the error module of
    the library, outside these files; it stores the message of [errno] in
    the error record and returns a status, which is not [GA_NO_ERROR]
    for a failed allocation. *)
Definition error_sys : comp ga_error := fun e st => (st, Val (error_sys_answer e)).

Definition cublasCreate (block : Z) : comp cublasStatus_t :=
  fun e st =>
    let r := cublas_answer (outside e) (length (trace st)) in
    (mk_state (trace st ++ [CublasCreate block r]) (blas_handle st), Val r).

Definition cublasSetStream (block : Z) : comp cublasStatus_t :=
  cublas_call (CublasSetStream block).

Definition cublasSetPointerMode (block : Z) (m : cublasPointerMode_t)
    : comp cublasStatus_t :=
  cublas_call (CublasSetPointerMode block m).

Definition cublasDestroy (block : Z) : comp unit := emit (CublasDestroy block).

Definition GpuKernel_init (block : Z) (k : kernel) (argcount : Z)
    (types : list kernel_type) (use_double : bool) : comp ga_error :=
  fun e st =>
    let r := ga_answer (outside e) (length (trace st)) in
    (mk_state (trace st ++ [KernelInit block k argcount types use_double r])
              (blas_handle st), Val r).

Definition GpuKernel_clear (block : Z) (k : kernel) : comp unit :=
  emit (KernelClear block k).

(** [ctx->blas_handle], read and written. *)
Definition get_blas_handle (ctx : Z) : comp (option Z) :=
  fun _ st => (st, Val (blas_handle st ctx)).

Definition set_blas_handle (ctx : Z) (h : option Z) : comp unit :=
  fun _ st =>
    (mk_state (trace st) (fun c => if c =? ctx then h else blas_handle st c), Val tt).

(** [h->h], with [h] the [blas_handle] of the context. *)
Definition handle_of (ctx : Z) : comp Z :=
  fun _ st =>
    match blas_handle st ctx with
    | Some block => (st, Val block)
    | None => (st, Stop NullDeref)
    end.

(** *** [setup] and [teardown] *)

(** The [types] array when the four gemv kernels are built, and when each
    of the two ger kernels is: [types[4]] is the type of the scalar. *)
Definition types_gemv : list kernel_type :=
  [KT_BUFFER; KT_SIZE; KT_BUFFER; KT_SIZE; KT_BUFFER; KT_SIZE; KT_SIZE; KT_SIZE; KT_SIZE].

Definition types_ger (scalar : kernel_type) : list kernel_type :=
  [KT_BUFFER; KT_SIZE; KT_BUFFER; KT_SIZE; scalar; KT_BUFFER; KT_SIZE; KT_SIZE;
   KT_SIZE; KT_SIZE].

(** The labels [e1] to [e6] at the end of [setup]; each falls through to
    the one before. *)
Definition e1 (ctx handle : Z) (e : ga_error) : comp ga_error :=
  cublasDestroy handle ;;
  cuda_exit ctx ;;
  free handle ;;
  return_ e.

Definition e2 (ctx handle : Z) (e : ga_error) : comp ga_error :=
  GpuKernel_clear handle sgemvBH_N_a1_b1_small ;; e1 ctx handle e.

Definition e3 (ctx handle : Z) (e : ga_error) : comp ga_error :=
  GpuKernel_clear handle sgemvBH_T_a1_b1_small ;; e2 ctx handle e.

Definition e4 (ctx handle : Z) (e : ga_error) : comp ga_error :=
  GpuKernel_clear handle dgemvBH_N_a1_b1_small ;; e3 ctx handle e.

Definition e5 (ctx handle : Z) (e : ga_error) : comp ga_error :=
  GpuKernel_clear handle dgemvBH_T_a1_b1_small ;; e4 ctx handle e.

Definition e6 (ctx handle : Z) (e : ga_error) : comp ga_error :=
  GpuKernel_clear handle sgerBH_gen_small ;; e5 ctx handle e.

Definition setup (ctx : Z) : comp ga_error :=
  h0 <- get_blas_handle ctx ;;
  match h0 with
  | Some _ => return_ GA_NO_ERROR
  | None =>
      got <- calloc ;;
      match got with
      | None => e <- error_sys ;; return_ e
      | Some handle =>
          cuda_enter ctx ;;
          err <- cublasCreate handle ;;
          if negb (cublas_ok err) then
            cuda_exit ctx ;; free handle ;; return_ (error_cublas err)
          else
          err <- cublasSetStream handle ;;
          if negb (cublas_ok err) then e1 ctx handle (error_cublas err)
          else
          err <- cublasSetPointerMode handle CUBLAS_POINTER_MODE_HOST ;;
          if negb (cublas_ok err) then e1 ctx handle (error_cublas err)
          else
          e <- GpuKernel_init handle sgemvBH_N_a1_b1_small 9 types_gemv false ;;
          if negb (is_no_error e) then e1 ctx handle e else
          e <- GpuKernel_init handle sgemvBH_T_a1_b1_small 9 types_gemv false ;;
          if negb (is_no_error e) then e2 ctx handle e else
          e <- GpuKernel_init handle dgemvBH_N_a1_b1_small 9 types_gemv true ;;
          if negb (is_no_error e) then e3 ctx handle e else
          e <- GpuKernel_init handle dgemvBH_T_a1_b1_small 9 types_gemv true ;;
          if negb (is_no_error e) then e4 ctx handle e else
          e <- GpuKernel_init handle sgerBH_gen_small 10 (types_ger KT_FLOAT) false ;;
          if negb (is_no_error e) then e5 ctx handle e else
          e <- GpuKernel_init handle dgerBH_gen_small 10 (types_ger KT_DOUBLE) true ;;
          if negb (is_no_error e) then e6 ctx handle e else
          set_blas_handle ctx (Some handle) ;;
          cuda_exit ctx ;;
          ret GA_NO_ERROR
      end
  end.

(** [teardown] *)
Definition teardown (ctx : Z) : comp unit :=
  h0 <- get_blas_handle ctx ;;
  match h0 with
  | None => ret tt
  | Some handle =>
      cuda_enter ctx ;;
      cublasDestroy handle ;;
      GpuKernel_clear handle sgemvBH_N_a1_b1_small ;;
      GpuKernel_clear handle sgemvBH_T_a1_b1_small ;;
      GpuKernel_clear handle dgemvBH_N_a1_b1_small ;;
      GpuKernel_clear handle dgemvBH_T_a1_b1_small ;;
      GpuKernel_clear handle sgerBH_gen_small ;;
      GpuKernel_clear handle dgerBH_gen_small ;;
      cuda_exit ctx ;;
      free handle ;;
      set_blas_handle ctx None
  end.

(** *** [comm_new] and [comm_free] *)

(** [ctx->refcnt++] *)
Definition retain (ctx : Z) : comp unit := emit (Retain ctx).

(** Modelled from the spec: [cuda_ops.buffer_deinit] is defined in the
    buffer module of the backend, outside these files; it releases one
    reference to the context. *)
Definition buffer_deinit (ctx : Z) : comp unit := emit (BufferDeinit ctx).

Definition ncclCommInitRank (block ndev comm_id rank : Z) : comp ncclResult_t :=
  fun e st =>
    let r := nccl_answer (outside e) (length (trace st)) in
    (mk_state (trace st ++ [NcclCommInitRank block ndev comm_id rank r]) (blas_handle st),
     Val r).

Definition ncclCommDestroy (block : Z) : comp unit := emit (NcclCommDestroy block).

(** [comm_clear]; [ctx] is [comm->ctx]. *)
Definition comm_clear (ctx comm : Z) : comp unit :=
  buffer_deinit ctx ;;
  free comm.

(** [comm_new] answers the status and what it stored in [*comm_ptr]. *)
Definition comm_new (ctx comm_id ndev rank : Z) : comp (ga_error * option Z) :=
  got <- calloc ;;
  match got with
  | None => ret (GA_MEMORY_ERROR, None)
  | Some comm =>
      retain ctx ;;  (* So that ctx would not be destroyed before comm *)
      cuda_enter ctx ;;
      nccl_err <- ncclCommInitRank comm ndev comm_id rank ;;
      cuda_exit ctx ;;
      if negb (nccl_ok nccl_err) then
        comm_clear ctx comm ;;
        ret (GA_COMM_ERROR, None)
      else ret (GA_NO_ERROR, Some comm)
  end.

(** [comm_free]; [ctx] is [comm->ctx]. *)
Definition comm_free (ctx comm : Z) : comp unit :=
  cuda_enter ctx ;;
  ncclCommDestroy comm ;;
  cuda_exit ctx ;;
  comm_clear ctx comm.

(** *** gemv *)

(** The overflow test of [sgemv] and [dgemv]. *)
Definition gemv_sizes_large (M N lda incX incY : Z) : bool :=
  LARGE_VAL M || LARGE_VAL N || LARGE_VAL (size_wrap (M * N)) ||
  LARGE_VAL lda || LARGE_VAL incX || LARGE_VAL incY.

(** [sgemv] and [dgemv] from [cuda_enter] on. *)
Definition gemv_issue (p : prec) (ctx : Z) (transA : cb_transpose) (M N : Z)
    (alpha : float) (A : gpudata) (offA lda : Z) (X : gpudata) (offX incX : Z)
    (beta : float) (Y : gpudata) (offY incY : Z) : comp ga_error :=
  cuda_enter ctx ;;
  GA_CUDA_EXIT_ON_ERROR ctx (cuda_wait A CUDA_WAIT_READ) ;;
  GA_CUDA_EXIT_ON_ERROR ctx (cuda_wait X CUDA_WAIT_READ) ;;
  GA_CUDA_EXIT_ON_ERROR ctx (cuda_wait Y CUDA_WAIT_ALL) ;;
  CUBLAS_EXIT_ON_ERROR ctx
    (h <- handle_of ctx ;;
     cublas_call (Gemv h p (convT transA) M N alpha (elem_addr p A offA) lda
                    (elem_addr p X offX) incX beta (elem_addr p Y offY) incY)) ;;
  GA_CUDA_EXIT_ON_ERROR ctx (cuda_record A CUDA_WAIT_READ) ;;
  GA_CUDA_EXIT_ON_ERROR ctx (cuda_record X CUDA_WAIT_READ) ;;
  GA_CUDA_EXIT_ON_ERROR ctx (cuda_record Y CUDA_WAIT_ALL) ;;
  cuda_exit ctx ;;
  ret GA_NO_ERROR.

Definition gemv (p : prec) (order : cb_order) (transA : cb_transpose) (M N : Z)
    (alpha : float) (A : gpudata) (offA lda : Z) (X : gpudata) (offX incX : Z)
    (beta : float) (Y : gpudata) (offY incY : Z) : comp ga_error :=
  let ctx := g_ctx A in
  if gemv_sizes_large M N lda incX incY then return_ GA_XLARGE_ERROR
  else
    match order with
    | cb_c =>
        gemv_issue p ctx
          (match transA with cb_no_trans => cb_trans | _ => cb_no_trans end)
          N M alpha A offA lda X offX incX beta Y offY incY
    | cb_fortran =>
        gemv_issue p ctx transA M N alpha A offA lda X offX incX beta Y offY incY
    end.

Definition sgemv := gemv F32.
Definition dgemv := gemv F64.

(** *** The reduced-precision gemm and the strided-batched gemm *)

(** [A->ptr], cast to a pointer to [uint16_t], plus [off]. *)
Definition half_addr (b : gpudata) (off : Z) : Z := size_wrap (g_ptr b + 2 * off).

(** [hgemm]: the operands are buffers of 16-bit elements, the scalars
    are [float]. *)
Definition hgemm_issue (ctx : Z) (transA transB : cb_transpose)
    (M N K : Z) (alpha : float) (A : gpudata) (offA lda : Z)
    (B : gpudata) (offB ldb : Z) (beta : float)
    (C : gpudata) (offC ldc : Z) : comp ga_error :=
  cuda_enter ctx ;;
  GA_CUDA_EXIT_ON_ERROR ctx (cuda_wait A CUDA_WAIT_READ) ;;
  GA_CUDA_EXIT_ON_ERROR ctx (cuda_wait B CUDA_WAIT_READ) ;;
  GA_CUDA_EXIT_ON_ERROR ctx (cuda_wait C CUDA_WAIT_ALL) ;;
  CUBLAS_EXIT_ON_ERROR ctx
    (h <- handle_of ctx ;;
     cublas_call (GemmEx h (convT transA) (convT transB) M N K alpha
                    (half_addr A offA) lda (half_addr B offB) ldb beta
                    (half_addr C offC) ldc)) ;;
  GA_CUDA_EXIT_ON_ERROR ctx (cuda_record A CUDA_WAIT_READ) ;;
  GA_CUDA_EXIT_ON_ERROR ctx (cuda_record B CUDA_WAIT_READ) ;;
  GA_CUDA_EXIT_ON_ERROR ctx (cuda_record C CUDA_WAIT_ALL) ;;
  cuda_exit ctx ;;
  ret GA_NO_ERROR.

Definition hgemm (order : cb_order) (transA transB : cb_transpose)
    (M N K : Z) (alpha : float) (A : gpudata) (offA lda : Z)
    (B : gpudata) (offB ldb : Z) (beta : float)
    (C : gpudata) (offC ldc : Z) : comp ga_error :=
  fun e =>
  let ctx := g_ctx A in
  (if negb (loaded e cublasSgemmEx) then return_ GA_DEVSUP_ERROR
   else if gemm_sizes_large M N K lda ldb ldc then return_ GA_XLARGE_ERROR
   else
     match order with
     | cb_c => (* swap A and B *)
         hgemm_issue ctx transB transA N M K alpha B offB ldb A offA lda beta C offC ldc
     | cb_fortran =>
         hgemm_issue ctx transA transB M N K alpha A offA lda B offB ldb beta C offC ldc
     end) e.

(** The element width of the three strided-batched routines. *)
Definition sizeof_routine (f : routine) : Z :=
  match f with
  | cublasSgemmEx | cublasHgemmStridedBatched => 2
  | cublasSgemmStridedBatched => 4
  | cublasDgemmStridedBatched => 8
  end.

Definition routine_addr (f : routine) (b : gpudata) (off : Z) : Z :=
  size_wrap (g_ptr b + sizeof_routine f * off).

(** [hgemm3D], [sgemm3D] and [dgemm3D] after [cuda_enter], with the
    operands as the row-major swap, made inside the critical section,
    leaves them.  [hgemm3D] converts the two scalars with
    [ga_float2half]; the event carries them as given.  [batchCount] is a
    [size_t] passed for the [int] of the interface. *)
Definition gemm3D_issue (f : routine) (ctx : Z) (transA transB : cb_transpose)
    (M N K : Z) (alpha : float) (A : gpudata) (offA lda strideA : Z)
    (B : gpudata) (offB ldb strideB : Z) (beta : float)
    (C : gpudata) (offC ldc strideC : Z) (batchCount : Z) : comp ga_error :=
  GA_CUDA_EXIT_ON_ERROR ctx (cuda_wait A CUDA_WAIT_READ) ;;
  GA_CUDA_EXIT_ON_ERROR ctx (cuda_wait B CUDA_WAIT_READ) ;;
  GA_CUDA_EXIT_ON_ERROR ctx (cuda_wait C CUDA_WAIT_ALL) ;;
  h <- handle_of ctx ;;
  err <- cublas_call (GemmStridedBatched h f (convT transA) (convT transB) M N K alpha
                        (routine_addr f A offA) lda strideA
                        (routine_addr f B offB) ldb strideB beta
                        (routine_addr f C offC) ldc strideC (int_wrap batchCount)) ;;
  (if cublas_ok err then ret tt
   else cuda_exit ctx ;; return_ (error_cublas err)) ;;
  GA_CUDA_EXIT_ON_ERROR ctx (cuda_record A CUDA_WAIT_READ) ;;
  GA_CUDA_EXIT_ON_ERROR ctx (cuda_record B CUDA_WAIT_READ) ;;
  GA_CUDA_EXIT_ON_ERROR ctx (cuda_record C CUDA_WAIT_ALL) ;;
  cuda_exit ctx ;;
  ret GA_NO_ERROR.

Definition gemm3D (f : routine) (order : cb_order) (transA transB : cb_transpose)
    (M N K : Z) (alpha : float) (A : gpudata) (offA lda strideA : Z)
    (B : gpudata) (offB ldb strideB : Z) (beta : float)
    (C : gpudata) (offC ldc strideC : Z) (batchCount : Z) : comp ga_error :=
  fun e =>
  let ctx := g_ctx A in
  (if negb (loaded e f) then return_ GA_DEVSUP_ERROR
   else if gemm_sizes_large M N K lda ldb ldc then return_ GA_XLARGE_ERROR
   else
     cuda_enter ctx ;;
     match order with
     | cb_c => (* swap A and B *)
         gemm3D_issue f ctx transB transA N M K alpha B offB ldb strideB
                      A offA lda strideA beta C offC ldc strideC batchCount
     | cb_fortran =>
         gemm3D_issue f ctx transA transB M N K alpha A offA lda strideA
                      B offB ldb strideB beta C offC ldc strideC batchCount
     end) e.

Definition hgemm3D := gemm3D cublasHgemmStridedBatched.
Definition sgemm3D := gemm3D cublasSgemmStridedBatched.
Definition dgemm3D := gemm3D cublasDgemmStridedBatched.

(** *** Observations *)

(** The events of the critical section and of the hazards. *)
Fixpoint cuda_events (evs : list event) : list cuda_event :=
  match evs with
  | [] => []
  | Cuda ev :: evs' => ev :: cuda_events evs'
  | _ :: evs' => cuda_events evs'
  end.

(** What [setup] and [comm_new] create: a block of host memory, the
    cuBLAS handle in a block, a kernel of a block, the NCCL communicator
    in a block, and a reference to a context. *)
Inductive resource : Type :=
| Block (block : Z)
| CublasHandle (block : Z)
| Kernel (block : Z) (k : kernel)
| Communicator (block : Z)
| Reference (ctx : Z).

Definition kernel_eqb (a b : kernel) : bool :=
  match a, b with
  | sgemvBH_N_a1_b1_small, sgemvBH_N_a1_b1_small
  | sgemvBH_T_a1_b1_small, sgemvBH_T_a1_b1_small
  | dgemvBH_N_a1_b1_small, dgemvBH_N_a1_b1_small
  | dgemvBH_T_a1_b1_small, dgemvBH_T_a1_b1_small
  | sgerBH_gen_small, sgerBH_gen_small
  | dgerBH_gen_small, dgerBH_gen_small => true
  | _, _ => false
  end.

Definition resource_eqb (a b : resource) : bool :=
  match a, b with
  | Block x, Block y | CublasHandle x, CublasHandle y
  | Communicator x, Communicator y | Reference x, Reference y => x =? y
  | Kernel x k, Kernel y l => (x =? y) && kernel_eqb k l
  | _, _ => false
  end.

Fixpoint release_one (r : resource) (held : list resource) : option (list resource) :=
  match held with
  | [] => None
  | r' :: held' =>
      if resource_eqb r r' then Some held'
      else match release_one r held' with
           | Some l => Some (r' :: l)
           | None => None
           end
  end.

(** The resources held after a trace, starting from [held]: a creation
    that succeeded adds one, a release takes one away.  Releasing what is
    not held is an error ([None]). *)
Fixpoint held_after (held : list resource) (evs : list event) : option (list resource) :=
  match evs with
  | [] => Some held
  | Calloc (Some b) :: evs' => held_after (Block b :: held) evs'
  | CublasCreate b CUBLAS_STATUS_SUCCESS :: evs' => held_after (CublasHandle b :: held) evs'
  | KernelInit b k _ _ _ GA_NO_ERROR :: evs' => held_after (Kernel b k :: held) evs'
  | NcclCommInitRank b _ _ _ ncclSuccess :: evs' =>
      held_after (Communicator b :: held) evs'
  | Retain c :: evs' => held_after (Reference c :: held) evs'
  | Free b :: evs' =>
      match release_one (Block b) held with
      | Some held' => held_after held' evs'
      | None => None
      end
  | CublasDestroy b :: evs' =>
      match release_one (CublasHandle b) held with
      | Some held' => held_after held' evs'
      | None => None
      end
  | KernelClear b k :: evs' =>
      match release_one (Kernel b k) held with
      | Some held' => held_after held' evs'
      | None => None
      end
  | NcclCommDestroy b :: evs' =>
      match release_one (Communicator b) held with
      | Some held' => held_after held' evs'
      | None => None
      end
  | BufferDeinit c :: evs' =>
      match release_one (Reference c) held with
      | Some held' => held_after held' evs'
      | None => None
      end
  | _ :: evs' => held_after held evs'
  end.

(** All a handle block owns once [setup] has succeeded. *)
Definition handle_resources (block : Z) : list resource :=
  [Kernel block dgerBH_gen_small; Kernel block sgerBH_gen_small;
   Kernel block dgemvBH_T_a1_b1_small; Kernel block dgemvBH_N_a1_b1_small;
   Kernel block sgemvBH_T_a1_b1_small; Kernel block sgemvBH_N_a1_b1_small;
   CublasHandle block; Block block].

(** The vendor calls of a trace. *)
Fixpoint vendor_events (evs : list event) : list event :=
  match evs with
  | [] => []
  | (Gemv _ _ _ _ _ _ _ _ _ _ _ _ _ as ev) :: evs'
  | (GemmEx _ _ _ _ _ _ _ _ _ _ _ _ _ _ as ev) :: evs'
  | (GemmStridedBatched _ _ _ _ _ _ _ _ _ _ _ _ _ _ _ _ _ _ _ as ev) :: evs' =>
      ev :: vendor_events evs'
  | _ :: evs' => vendor_events evs'
  end.

(** *** Inputs of the examples *)

(** [calloc] answers the block 4242, [error_sys] answers
    [GA_MEMORY_ERROR], every routine is loaded; the other calls are
    answered by [o]. *)
Definition env_of (o : cuda_env) : env :=
  mk_env o (fun _ => Some 4242) GA_MEMORY_ERROR (fun _ => true).

(** As [env_of] of the environment where every call succeeds, with no
    routine loaded. *)
Definition unloaded_env : env :=
  mk_env (ok_env true) (fun _ => Some 4242) GA_MEMORY_ERROR (fun _ => false).

(** No context has a handle. *)
Definition st0 : state := mk_state [] (fun _ => None).

(** Context 7 has the handle 4242. *)
Definition st1 : state := mk_state [] (fun c => if c =? 7 then Some 4242 else None).

End Handle.

(* ================================================================== *)
(** * Proofs *)

(** ** Basic facts and proof steps *)

Lemma skipn_app_length {A : Type} (l evs : list A) :
  skipn (length l) (l ++ evs) = evs.
Proof. induction l as [|a l IH]; simpl; auto. Qed.

Lemma error_cublas_not_ok (s : cublasStatus_t) : error_cublas s <> GA_NO_ERROR.
Proof. destruct s; simpl; discriminate. Qed.

Lemma elsize_bounds (t : typecode_t) : 0 <= gpuarray_get_elsize t <= 8.
Proof. destruct t; simpl; lia. Qed.

Lemma size_wrap_small (v : Z) : 0 <= v < 2 ^ 64 -> size_wrap v = v.
Proof. intros H. unfold size_wrap. apply Z.mod_small. exact H. Qed.

Lemma int_wrap_exact (v : Z) : 0 <= v <= INT_MAX -> int_wrap v = v.
Proof.
  unfold int_wrap, INT_MAX. intros H.
  rewrite Z.mod_small; lia.
Qed.

Lemma op_size_exact (cnt : Z) (t : typecode_t) :
  0 <= cnt <= INT_MAX -> op_size_of cnt t = cnt * gpuarray_get_elsize t.
Proof.
  unfold op_size_of, INT_MAX. intros H.
  pose proof (elsize_bounds t) as Hs.
  rewrite (size_wrap_small cnt) by lia.
  apply size_wrap_small. nia.
Qed.

(** Unfold the primitives of a straight-line body. *)
Ltac run_prims :=
  cbv [bind ret return_ stop emit ga_call cublas_call nccl_call cuda_enter cuda_exit
       cuda_wait cuda_record GA_CUDA_EXIT_ON_ERROR CUBLAS_EXIT_ON_ERROR
       GA_EXIT_ON_ERROR NCCL_EXIT_ON_ERROR GA_CHECK
       buffer_release gpudata_write GpuKernel_call
       cublasGetPointerMode cublasSetPointerMode];
  cbn [fst snd trace pointer_mode].

(** Case analysis on what the next external call answers. *)
Ltac split_answer :=
  match goal with
  | |- context [is_no_error (ga_answer ?e ?n)] =>
      let E := fresh "E" in destruct (is_no_error (ga_answer e n)) eqn:E
  | |- context [cublas_ok (cublas_answer ?e ?n)] =>
      let E := fresh "E" in destruct (cublas_ok (cublas_answer e n)) eqn:E
  | |- context [nccl_ok (nccl_answer ?e ?n)] =>
      let E := fresh "E" in destruct (nccl_answer e n) eqn:E; cbv [nccl_ok]
  end.

(** An error branch cannot have returned [GA_NO_ERROR]. *)
Ltac not_success :=
  match goal with
  | H : Returned ?c = Returned GA_NO_ERROR |- _ =>
      exfalso; injection H as H; cbn [app] in *;
      first [ apply error_cublas_not_ok in H; exact H
            | rewrite H in *; simpl in *; discriminate
            | discriminate ]
  end.

(* ================================================================== *)
(** ** The dot product *)

(** C10.  Every dot product ([sdot], [ddot]) that returns success leaves
    the pointer mode of the cuBLAS handle as it found it: the mode is read,
    the handle is switched to the device pointer mode for the dot call, so
    that the result goes to the device buffer [Z], and the mode read is set
    again before the three hazards are recorded.  The dot call receives
    the two strides converted to [int]. *)
Theorem dot_restores_pointer_mode (p : prec) (N : Z) (X : gpudata) (offX incX : Z)
    (Y : gpudata) (offY incY : Z) (Zb : gpudata) (offZ : Z) (e : env) (st : state) :
  outcome_of (dot p N X offX incX Y offY incY Zb offZ) e st = Returned GA_NO_ERROR ->
  pointer_mode (fst (call (dot p N X offX incX Y offY incY Zb offZ) e st)) = pointer_mode st /\
  events_of (dot p N X offX incX Y offY incY Zb offZ) e st =
    [EvEnter (g_ctx X);
     EvWait X CUDA_WAIT_READ; EvWait Y CUDA_WAIT_READ; EvWait Zb CUDA_WAIT_WRITE;
     EvGetPointerMode;
     EvSetPointerMode CUBLAS_POINTER_MODE_DEVICE;
     EvDot p N (elem_addr p X offX) (int_wrap incX) (elem_addr p Y offY) (int_wrap incY)
       (elem_addr p Zb offZ);
     EvSetPointerMode (pointer_mode st);
     EvRecord X CUDA_WAIT_READ; EvRecord Y CUDA_WAIT_READ; EvRecord Zb CUDA_WAIT_WRITE;
     EvExit (g_ctx X)].
Proof.
  unfold outcome_of, events_of, call, dot.
  destruct (LARGE_VAL N); [cbv [return_ snd]; discriminate|].
  run_prims.
  repeat (split_answer; cbn [fst snd trace pointer_mode]; [| intros H; not_success]).
  intros _. split; [reflexivity|].
  rewrite <- !app_assoc. simpl. apply skipn_app_length.
Qed.

(** A successful [sdot] on a handle in host pointer mode. *)
Lemma dot_restores_pointer_mode_witness :
  pointer_mode (fst (call (sdot 4 (buf 1) 0 1 (buf 2) 0 1 (buf 3) 0) (ok_env false) st0)) =
    CUBLAS_POINTER_MODE_HOST /\
  events_of (sdot 4 (buf 1) 0 1 (buf 2) 0 1 (buf 3) 0) (ok_env false) st0 =
    [EvEnter 7;
     EvWait (buf 1) CUDA_WAIT_READ; EvWait (buf 2) CUDA_WAIT_READ;
     EvWait (buf 3) CUDA_WAIT_WRITE;
     EvGetPointerMode;
     EvSetPointerMode CUBLAS_POINTER_MODE_DEVICE;
     EvDot F32 4 4096 1 8192 1 12288;
     EvSetPointerMode CUBLAS_POINTER_MODE_HOST;
     EvRecord (buf 1) CUDA_WAIT_READ; EvRecord (buf 2) CUDA_WAIT_READ;
     EvRecord (buf 3) CUDA_WAIT_WRITE;
     EvExit 7].
Proof.
  apply (dot_restores_pointer_mode F32 4 (buf 1) 0 1 (buf 2) 0 1 (buf 3) 0
           (ok_env false) st0).
  vm_compute. reflexivity.
Defined.

(** The single rank-1 update leaves the critical section on every path
    and, where it succeeds, records each operand with the mode it waited
    for. *)
Lemma ger_closes_gate_and_records_symmetrically (p : prec) (order : cb_order)
    (M N : Z) (alpha : float) (X : gpudata) (offX incX : Z) (Y : gpudata)
    (offY incY : Z) (A : gpudata) (offA lda : Z) (e : env) (st : state) :
  let evs := events_of (ger p order M N alpha X offX incX Y offY incY A offA lda) e st in
  gate_depth evs = 0 /\
  (outcome_of (ger p order M N alpha X offX incX Y offY incY A offA lda) e st =
     Returned GA_NO_ERROR ->
   records evs = waits evs).
Proof.
  cbv zeta. unfold outcome_of, events_of, call, ger.
  match goal with |- context [if ?g then return_ _ else _] => destruct g end.
  - cbv [return_]. cbn [fst snd]. rewrite skipn_all. split; [reflexivity|discriminate].
  - destruct order; unfold ger_issue; run_prims;
      repeat (split_answer; cbn [fst snd trace pointer_mode]);
      rewrite <- ?app_assoc in *; rewrite skipn_app_length;
      (split; [reflexivity | intros H; first [ reflexivity | not_success ] ]).
Qed.

(* ================================================================== *)
(** ** The hazard loops of the batched entry points *)

Lemma is_no_error_false (c : ga_error) : is_no_error c = false -> c <> GA_NO_ERROR.
Proof. intros H ->. discriminate. Qed.

Lemma failed_ga {A : Type} (c : ga_error) :
  is_no_error c = false -> @failed A (Stop (Returned c)).
Proof. intros H. exists c. split; [reflexivity|]. apply is_no_error_false, H. Qed.

Lemma failed_cublas {A : Type} (s : cublasStatus_t) :
  @failed A (Stop (Returned (error_cublas s))).
Proof. eexists. split; [reflexivity|]. apply error_cublas_not_ok. Qed.

Lemma appends_events_of (body : comp ga_error) (e : env) (st : state)
    (evs : list event) (r : res ga_error) :
  appends body e st evs r -> events_of body e st = evs.
Proof.
  unfold appends, events_of, call. intros ->.
  destruct r; simpl; apply skipn_app_length.
Qed.

Lemma appends_outcome_of (body : comp ga_error) (e : env) (st : state)
    (evs : list event) (r : res ga_error) :
  appends body e st evs r ->
  outcome_of body e st = match r with Val c => Returned c | Stop o => o end.
Proof.
  unfold appends, outcome_of, call. intros ->. destruct r; reflexivity.
Qed.

Lemma scratch_live_app (l : list Z) (a b : list event) :
  scratch_live l (a ++ b) =
  match scratch_live l a with Some l' => scratch_live l' b | None => None end.
Proof.
  revert l. induction a as [|ev a IH]; intros l; simpl; [reflexivity|].
  destruct ev; auto.
  match goal with |- context [remove_one ?b l] => destruct (remove_one b l) end; auto.
Qed.

Lemma scratch_live_loop (l : list Z) (evs : list event) :
  Forall loop_event evs -> scratch_live l evs = Some l.
Proof.
  induction 1 as [|ev evs Hev _ IH]; simpl; [reflexivity|].
  destruct ev; simpl in Hev; try contradiction; exact IH.
Qed.

Lemma scratch_events_app (a b : list event) :
  scratch_events (a ++ b) = scratch_events a ++ scratch_events b.
Proof.
  induction a as [|ev a IH]; simpl; [reflexivity|].
  destruct ev; simpl; rewrite ?IH; reflexivity.
Qed.

Lemma scratch_events_loop (evs : list event) :
  Forall loop_event evs -> scratch_events evs = [].
Proof.
  induction 1 as [|ev evs Hev _ IH]; simpl; [reflexivity|].
  destruct ev; simpl in Hev; try contradiction; exact IH.
Qed.

Lemma vendor_calls_app (a b : list event) :
  vendor_calls (a ++ b) = vendor_calls a ++ vendor_calls b.
Proof.
  induction a as [|ev a IH]; simpl; [reflexivity|].
  destruct ev; simpl; rewrite ?IH; reflexivity.
Qed.

Lemma vendor_calls_flat_map (bev : nat -> list event) (f : nat -> list vendor_call)
    (l : list nat) :
  (forall i, vendor_calls (bev i) = f i) ->
  vendor_calls (flat_map bev l) = flat_map f l.
Proof.
  intros H. induction l as [|i l IH]; simpl; [reflexivity|].
  rewrite vendor_calls_app, H, IH. reflexivity.
Qed.

(** The loop rule: every iteration appends hazard events, and either runs
    to its end with the events [bev i] or returns an error status. *)
Lemma for_loop_appends (body : nat -> comp unit) (bev : nat -> list event) :
  (forall i e st, exists evs r,
      appends (body i) e st evs r /\ Forall loop_event evs /\
      ((r = Val tt /\ evs = bev i) \/ failed r)) ->
  forall n i e st, exists evs r,
      appends (for_loop i n body) e st evs r /\ Forall loop_event evs /\
      ((r = Val tt /\ evs = flat_map bev (seq i n)) \/ failed r).
Proof.
  intros Hbody. induction n as [|n IH]; intros i e st.
  - exists [], (Val tt). unfold appends. simpl. unfold ret.
    rewrite app_nil_r. destruct st; simpl. auto.
  - destruct (Hbody i e st) as (evs1 & r1 & H1 & F1 & [[-> ->] | Hf]).
    + destruct (IH (S i) e (mk_state (trace st ++ bev i) (pointer_mode st)))
        as (evs2 & r2 & H2 & F2 & Hr2).
      exists (bev i ++ evs2), r2.
      split; [|split].
      * unfold appends in *. simpl. unfold bind. rewrite H1, H2. simpl.
        rewrite app_assoc. reflexivity.
      * apply Forall_app. auto.
      * destruct Hr2 as [[-> ->] | Hf]; [left | right]; auto.
    + exists evs1, r1. destruct Hf as (c & -> & Hc).
      split; [|split]; auto.
      * unfold appends in *. simpl. unfold bind. rewrite H1. reflexivity.
      * right. exists c. auto.
Qed.

(** The events of a loop body are hazard events. *)
Ltac loop_events Hf :=
  cbn [app];
  repeat first [ apply Forall_nil | apply Forall_cons | apply Hf | exact I ].

(** One path of a loop body: its events and its result. *)
Ltac finish_body Hf :=
  rewrite <- ?app_assoc in *;
  do 2 eexists;
  split; [ cbn [trace pointer_mode]; reflexivity
         | split; [ loop_events Hf
                  | first [ left; split; reflexivity
                          | right; first [ apply failed_ga; assumption
                                         | apply failed_cublas ] ] ] ].

Lemma hazard3_appends (ctx : Z) (f : gpudata -> wait_mode -> event)
    (a b c : array gpudata) (ma mb mc : wait_mode) :
  (forall g m, loop_event (f g m)) ->
  forall i e st, exists evs r,
    appends (GA_CUDA_EXIT_ON_ERROR ctx (ga_call (f (a i) ma)) ;;
             GA_CUDA_EXIT_ON_ERROR ctx (ga_call (f (b i) mb)) ;;
             GA_CUDA_EXIT_ON_ERROR ctx (ga_call (f (c i) mc))) e st evs r /\
    Forall loop_event evs /\
    ((r = Val tt /\ evs = [f (a i) ma; f (b i) mb; f (c i) mc]) \/ failed r).
Proof.
  intros Hf i e st. unfold appends. run_prims.
  repeat (split_answer; cbn [fst snd trace pointer_mode]).
  all: finish_body Hf.
Qed.

Lemma per_item_appends (p : prec) (ctx : Z) (ta tb : cublasOperation_t) (M N K : Z)
    (alpha : float) (A : array gpudata) (offA : array Z) (lda : Z)
    (B : array gpudata) (offB : array Z) (ldb : Z) (beta : float)
    (C : array gpudata) (offC : array Z) (ldc : Z) :
  forall i e st, exists evs r,
    appends (GA_CUDA_EXIT_ON_ERROR ctx (cuda_wait (A i) CUDA_WAIT_READ) ;;
             GA_CUDA_EXIT_ON_ERROR ctx (cuda_wait (B i) CUDA_WAIT_READ) ;;
             GA_CUDA_EXIT_ON_ERROR ctx (cuda_wait (C i) CUDA_WAIT_ALL) ;;
             CUBLAS_EXIT_ON_ERROR ctx
               (cublas_call (EvGemm p ta tb M N K alpha
                               (elem_addr p (A i) (offA i)) lda
                               (elem_addr p (B i) (offB i)) ldb beta
                               (elem_addr p (C i) (offC i)) ldc)) ;;
             GA_CUDA_EXIT_ON_ERROR ctx (cuda_record (A i) CUDA_WAIT_READ) ;;
             GA_CUDA_EXIT_ON_ERROR ctx (cuda_record (B i) CUDA_WAIT_READ) ;;
             GA_CUDA_EXIT_ON_ERROR ctx (cuda_record (C i) CUDA_WAIT_ALL)) e st evs r /\
    Forall loop_event evs /\
    ((r = Val tt /\
      evs = [EvWait (A i) CUDA_WAIT_READ; EvWait (B i) CUDA_WAIT_READ;
             EvWait (C i) CUDA_WAIT_ALL;
             EvGemm p ta tb M N K alpha (elem_addr p (A i) (offA i)) lda
               (elem_addr p (B i) (offB i)) ldb beta (elem_addr p (C i) (offC i)) ldc;
             EvRecord (A i) CUDA_WAIT_READ; EvRecord (B i) CUDA_WAIT_READ;
             EvRecord (C i) CUDA_WAIT_ALL]) \/ failed r).
Proof.
  intros i e st. unfold appends. run_prims.
  repeat (split_answer; cbn [fst snd trace pointer_mode]).
  all: finish_body I.
Qed.

Lemma waits_appends (ctx : Z) (a b c : array gpudata) (ma mb mc : wait_mode) :
  forall i e st, exists evs r,
    appends (GA_CUDA_EXIT_ON_ERROR ctx (cuda_wait (a i) ma) ;;
             GA_CUDA_EXIT_ON_ERROR ctx (cuda_wait (b i) mb) ;;
             GA_CUDA_EXIT_ON_ERROR ctx (cuda_wait (c i) mc)) e st evs r /\
    Forall loop_event evs /\
    ((r = Val tt /\ evs = [EvWait (a i) ma; EvWait (b i) mb; EvWait (c i) mc])
     \/ failed r).
Proof. apply (hazard3_appends ctx EvWait). intros; exact I. Qed.

Lemma records_appends (ctx : Z) (a b c : array gpudata) (ma mb mc : wait_mode) :
  forall i e st, exists evs r,
    appends (GA_CUDA_EXIT_ON_ERROR ctx (cuda_record (a i) ma) ;;
             GA_CUDA_EXIT_ON_ERROR ctx (cuda_record (b i) mb) ;;
             GA_CUDA_EXIT_ON_ERROR ctx (cuda_record (c i) mc)) e st evs r /\
    Forall loop_event evs /\
    ((r = Val tt /\ evs = [EvRecord (a i) ma; EvRecord (b i) mb; EvRecord (c i) mc])
     \/ failed r).
Proof. apply (hazard3_appends ctx EvRecord). intros; exact I. Qed.

(** Replay the allocator's events of a trace with loops in it. *)
Ltac scratch_steps :=
  unfold scratch_released;
  repeat first [ progress cbn [app scratch_live scratch_events remove_one]
               | rewrite scratch_live_app
               | rewrite scratch_events_app
               | rewrite scratch_live_loop by assumption
               | rewrite scratch_events_loop by assumption
               | rewrite Z.eqb_refl ].

(** Case analysis on what the allocator answers. *)
Ltac split_alloc :=
  match goal with
  | |- context [alloc_answer ?e ?n] =>
      let Ea := fresh "Ea" in destruct (alloc_answer e n) eqn:Ea
  end.

(** The end of a path: name its events and its result. *)
Ltac leaf :=
  rewrite <- ?app_assoc in *; do 2 eexists; split; [reflexivity|]; split.

Ltac path_end :=
  rewrite <- ?app_assoc in *; do 2 eexists; split; [reflexivity|].

(** Run the next loop of the goal by the loop rule. *)
Ltac use_loop lemma :=
  match goal with
  | |- context [for_loop 0 ?n ?body ?e ?st] =>
      let evs := fresh "evs" in let r := fresh "r" in
      let H := fresh "Hloop" in let F := fresh "Floop" in let R := fresh "Rloop" in
      destruct (for_loop_appends body _ lemma n 0%nat e st) as (evs & r & H & F & R);
      unfold appends in H; cbn [trace pointer_mode] in H; rewrite H; clear H;
      destruct R as [[-> ->] | (? & -> & ?)]; cbn [fst snd trace pointer_mode]
  end.

Lemma gemmBatch_issue_appends (p : prec) (ctx : Z) (tA tB : cb_transpose)
    (M N K : Z) (alpha : float) (A : array gpudata) (offA : array Z) (lda : Z)
    (B : array gpudata) (offB : array Z) (ldb : Z) (beta : float)
    (C : array gpudata) (offC : array Z) (ldc : Z) (bc : Z) (e : env) (st : state) :
  exists evs r,
    appends (gemmBatch_issue p ctx tA tB M N K alpha A offA lda B offB ldb beta
               C offC ldc bc) e st evs r /\
    scratch_released evs /\
    (allocator_reports e ->
     (r = Val GA_NO_ERROR /\
      if gemmBatch_large M N K then
        vendor_calls evs =
          map (fun i => PerItem (elem_addr p (C i) (offC i))) (seq 0 (Z.to_nat bc)) /\
        scratch_events evs = []
      else
        exists Ta,
          vendor_calls evs =
            [Batched Ta (size_wrap (Ta + size_wrap (bc * sizeof_ptr)))
                     (size_wrap (Ta + size_wrap (size_wrap (bc * sizeof_ptr) * 2)))
                     (int_wrap bc)] /\
          scratch_events evs =
            [EvAlloc (size_wrap (size_wrap (sizeof_ptr * bc) * 3)) None Ta;
             EvWrite Ta 0
               (pointer_table (elem_addr p) (Z.to_nat bc) A offA ++
                pointer_table (elem_addr p) (Z.to_nat bc) B offB ++
                pointer_table (elem_addr p) (Z.to_nat bc) C offC)
               (size_wrap (size_wrap (sizeof_ptr * bc) * 3));
             EvRelease Ta])
     \/ failed r).
Proof.
  unfold appends, gemmBatch_issue.
  cbv [bind cuda_enter cuda_exit emit ret return_ buffer_alloc buffer_release
       gpudata_write ga_call cublas_call].
  cbn [fst snd trace pointer_mode].
  destruct (gemmBatch_large M N K).
  - use_loop (per_item_appends p ctx (convT tA) (convT tB) M N K alpha A offA lda
                B offB ldb beta C offC ldc).
    + leaf.
      * scratch_steps. reflexivity.
      * intros _. left. split; [reflexivity|]. split.
        -- rewrite !vendor_calls_app. simpl.
           rewrite (vendor_calls_flat_map _ (fun i => [PerItem (elem_addr p (C i) (offC i))]))
             by reflexivity.
           rewrite app_nil_r. rewrite flat_map_concat_map.
           generalize (seq 0 (Z.to_nat bc)). intros l.
           induction l; simpl; congruence.
        -- scratch_steps. reflexivity.
    + leaf; [scratch_steps; reflexivity | intros _; right; eexists; eauto].
  - use_loop (waits_appends ctx A B C CUDA_WAIT_READ CUDA_WAIT_READ CUDA_WAIT_ALL).
    2: { leaf; [scratch_steps; reflexivity | intros _; right; eexists; eauto]. }
    split_alloc; cbn [fst snd trace pointer_mode].
    2: { leaf; [scratch_steps; reflexivity | intros Hrep; right; eexists; split; eauto].
         intros ->. eapply Hrep; eassumption. }
    split_answer; cbn [fst snd trace pointer_mode].
    2: { leaf; [scratch_steps; reflexivity | intros _; right; apply failed_ga; assumption]. }
    split_answer; cbn [fst snd trace pointer_mode].
    2: { leaf; [scratch_steps; reflexivity | intros _; right; apply failed_cublas]. }
    use_loop (records_appends ctx A B C CUDA_WAIT_READ CUDA_WAIT_READ CUDA_WAIT_ALL).
    2: { leaf; [scratch_steps; reflexivity | intros _; right; eexists; eauto]. }
    leaf; [scratch_steps; reflexivity |].
    intros _. left. split; [reflexivity|]. eexists. split.
    + rewrite !vendor_calls_app. simpl.
      rewrite !(vendor_calls_flat_map _ (fun _ => [])) by reflexivity.
      rewrite !flat_map_concat_map.
      generalize (seq 0 (Z.to_nat bc)). intros l.
      assert (Hnil : concat (map (fun _ : nat => @nil vendor_call) l) = [])
        by (induction l; simpl; auto).
      rewrite Hnil. reflexivity.
    + scratch_steps. reflexivity.
Qed.














(* ================================================================== *)
(** ** Batched gemv and ger *)

(** As [scratch_steps], with the cases of two buffers being one address. *)
Ltac scratch_cases :=
  unfold scratch_released;
  repeat first [ progress cbn [app scratch_live scratch_events remove_one]
               | rewrite scratch_live_app
               | rewrite scratch_live_loop by assumption
               | rewrite Z.eqb_refl
               | match goal with
                 | |- context [?u =? ?v] => destruct (Z.eqb_spec u v); subst
                 end ];
  try reflexivity.

Lemma gemvBatch_issue_appends (p : prec) (ctx : Z) (gs ls : list Z)
    (transA : cb_transpose) (M N : Z)
    (A : array gpudata) (offA : array Z) (lda : Z)
    (x : array gpudata) (offX : array Z) (incX : Z)
    (y : array gpudata) (offY : array Z) (incY : Z)
    (bc : Z) (e : env) (st : state) :
  exists evs r,
    appends (gemvBatch_issue p ctx gs ls transA M N A offA lda x offX incX
               y offY incY bc) e st evs r /\
    scratch_released evs.
Proof.
  unfold appends, gemvBatch_issue.
  cbv [bind cuda_enter cuda_exit emit ret return_ alloc_pointer_arrays buffer_alloc
       buffer_release GpuKernel_call ga_call].
  cbn [fst snd trace pointer_mode].
  use_loop (waits_appends ctx A x y CUDA_WAIT_READ CUDA_WAIT_READ CUDA_WAIT_ALL).
  2: { path_end; scratch_cases. }
  split_alloc; cbn [fst snd trace pointer_mode]; [| path_end; scratch_cases].
  split_alloc; cbn [fst snd trace pointer_mode]; [| path_end; scratch_cases].
  split_alloc; cbn [fst snd trace pointer_mode]; [| path_end; scratch_cases].
  split_answer; cbn [fst snd trace pointer_mode]; [| path_end; scratch_cases].
  use_loop (records_appends ctx A x y CUDA_WAIT_READ CUDA_WAIT_READ CUDA_WAIT_ALL);
    path_end; scratch_cases.
Qed.

Lemma gerBatch_issue_appends (p : prec) (kern : kernel) (ctx : Z) (gs ls : list Z)
    (M N : Z) (alpha : float)
    (x : array gpudata) (offX : array Z) (incX : Z)
    (y : array gpudata) (offY : array Z) (incY : Z)
    (A : array gpudata) (offA : array Z) (lda : Z)
    (bc : Z) (e : env) (st : state) :
  exists evs r,
    appends (gerBatch_issue p kern ctx gs ls M N alpha x offX incX y offY incY
               A offA lda bc) e st evs r /\
    scratch_released evs.
Proof.
  unfold appends, gerBatch_issue.
  cbv [bind cuda_enter cuda_exit emit ret return_ alloc_pointer_arrays buffer_alloc
       buffer_release GpuKernel_call ga_call].
  cbn [fst snd trace pointer_mode].
  use_loop (waits_appends ctx A x y CUDA_WAIT_ALL CUDA_WAIT_READ CUDA_WAIT_READ).
  2: { path_end; scratch_cases. }
  split_alloc; cbn [fst snd trace pointer_mode]; [| path_end; scratch_cases].
  split_alloc; cbn [fst snd trace pointer_mode]; [| path_end; scratch_cases].
  split_alloc; cbn [fst snd trace pointer_mode]; [| path_end; scratch_cases].
  split_answer; cbn [fst snd trace pointer_mode]; [| path_end; scratch_cases].
  use_loop (records_appends ctx A x y CUDA_WAIT_READ CUDA_WAIT_READ CUDA_WAIT_ALL);
    path_end; scratch_cases.
Qed.

Lemma scratch_released_nil : scratch_released [].
Proof. reflexivity. Qed.

Lemma events_of_stop (o : outcome) (e : env) (st : state) :
  events_of (stop o) e st = [].
Proof.
  unfold events_of, call, stop. simpl.
  rewrite <- (app_nil_r (trace st)) at 2. apply skipn_app_length.
Qed.

Lemma events_of_return (c : ga_error) (e : env) (st : state) :
  events_of (return_ c) e st = [].
Proof. apply (events_of_stop (Returned c)). Qed.

(** C6.  On every path of the pointer-batched gemm and of the batched gemv
    and ger, whatever the external calls answer, each scratch buffer the
    call allocated for the operand pointers is released once before the
    call ends, and nothing is released that was not allocated. *)
Theorem scratch_released_on_every_path :
  (forall p order tA tB M N K alpha A offA lda B offB ldb beta C offC ldc bc e st,
      scratch_released
        (events_of (gemmBatch p order tA tB M N K alpha A offA lda B offB ldb beta
                      C offC ldc bc) e st)) /\
  (forall p order tA M N alpha A offA lda x offX incX beta y offY incY bc flags e st,
      scratch_released
        (events_of (gemvBatch p order tA M N alpha A offA lda x offX incX beta
                      y offY incY bc flags) e st)) /\
  (forall p kern order M N alpha x offX incX y offY incY A offA lda bc flags e st,
      scratch_released
        (events_of (gerBatch p kern order M N alpha x offX incX y offY incY
                      A offA lda bc flags) e st)).
Proof.
  split; [|split]; intros.
  - unfold gemmBatch. cbv zeta.
    destruct (gemm_sizes_large M N K lda ldb ldc);
      [rewrite events_of_return; apply scratch_released_nil|].
    destruct order.
    + destruct (gemmBatch_issue_appends p (g_ctx (A 0%nat)) tB tA N M K alpha B offB ldb
                  A offA lda beta C offC ldc bc e st) as (evs & r & H & Hs & _).
      rewrite (appends_events_of _ _ _ _ _ H). exact Hs.
    + destruct (gemmBatch_issue_appends p (g_ctx (A 0%nat)) tA tB M N K alpha A offA lda
                  B offB ldb beta C offC ldc bc e st) as (evs & r & H & Hs & _).
      rewrite (appends_events_of _ _ _ _ _ H). exact Hs.
  - unfold gemvBatch. cbv zeta.
    destruct (negb (flags =? 0));
      [rewrite events_of_return; apply scratch_released_nil|].
    destruct (negb (PrimFloat.eqb alpha 1) || negb (PrimFloat.eqb beta 1));
      [rewrite events_of_return; apply scratch_released_nil|].
    destruct (gemvBatch_shape M bc) as [[gs ls]|];
      [|rewrite events_of_stop; apply scratch_released_nil].
    destruct order;
      match goal with
      | |- context [gemvBatch_issue ?p ?c ?gs ?ls ?t ?M ?N ?A ?oA ?lda ?x ?oX ?iX ?y ?oY ?iY ?bc] =>
          destruct (gemvBatch_issue_appends p c gs ls t M N A oA lda x oX iX y oY iY bc e st)
            as (evs & r & H & Hs)
      end;
      rewrite (appends_events_of _ _ _ _ _ H); exact Hs.
  - unfold gerBatch. cbv zeta.
    destruct (negb (flags =? 0));
      [rewrite events_of_return; apply scratch_released_nil|].
    destruct (gerBatch_shape M N incX bc) as [code|[gs ls]];
      [rewrite events_of_return; apply scratch_released_nil|].
    destruct order;
      match goal with
      | |- context [gerBatch_issue ?p ?k ?c ?gs ?ls ?M ?N ?al ?x ?oX ?iX ?y ?oY ?iY ?A ?oA ?lda ?bc] =>
          destruct (gerBatch_issue_appends p k c gs ls M N al x oX iX y oY iY A oA lda bc e st)
            as (evs & r & H & Hs)
      end;
      rewrite (appends_events_of _ _ _ _ _ H); exact Hs.
Qed.

(** C1.  [sgemvBatch] with one item, when the allocation of the first
    array of operand pointers fails: the call has entered the critical
    section and returns the allocator's status without leaving it. *)
Lemma gemvBatch_alloc_failure_leaves_gate_entered :
  call (sgemvBatch cb_fortran cb_no_trans 4 4 1 (bufs 10) offs 4 (bufs 20) offs 1 1
          (bufs 30) offs 1 1 0) oom_env st0 =
    (mk_state [EvEnter 7;
               EvWait (buf 10) CUDA_WAIT_READ; EvWait (buf 20) CUDA_WAIT_READ;
               EvWait (buf 30) CUDA_WAIT_ALL;
               EvAllocFail 8] CUBLAS_POINTER_MODE_HOST,
     Returned GA_MEMORY_ERROR) /\
  gate_depth (events_of (sgemvBatch cb_fortran cb_no_trans 4 4 1 (bufs 10) offs 4
                           (bufs 20) offs 1 1 (bufs 30) offs 1 1 0) oom_env st0) = 1.
Proof. vm_compute. split; reflexivity. Qed.

(** C2.  [dgerBatch] launches [sgerBH_gen_small], the kernel compiled for
    single precision, on its buffers of doubles. *)
Lemma dgerBatch_launches_float_kernel :
  launches (events_of (dgerBatch cb_fortran 4 4 1 (bufs 10) offs 1 (bufs 20) offs 1
                         (bufs 30) offs 4 1 0) (ok_env false) st0) =
    [(sgerBH_gen_small, [1; 1; 1], [4; 4; 1])] /\
  outcome_of (dgerBatch cb_fortran 4 4 1 (bufs 10) offs 1 (bufs 20) offs 1
                (bufs 30) offs 4 1 0) (ok_env false) st0 = Returned GA_NO_ERROR /\
  kernel_elem sgerBH_gen_small = F32.
Proof. vm_compute. repeat split; reflexivity. Qed.

(** On a row-major call the block and the grid are sized from [M] and [N]
    as passed, the kernel gets them swapped: for [M] = 2 and [N] = 4 the
    block has 2 lanes in the dimension the kernel bounds by [m] = 4. *)
Lemma sgerBatch_row_major_launch :
  In (EvKernel sgerBH_gen_small [1; 1; 1] [2; 4; 1]
        [KBuf 1005; KSize 1; KBuf 1006; KSize 1; KScalar F32 1; KBuf 1004;
         KSize 4; KSize 1; KSize 4; KSize 2])
     (events_of (sgerBatch cb_c 2 4 1 (bufs 10) offs 1 (bufs 20) offs 1
                   (bufs 30) offs 4 1 0) (ok_env false) st0).
Proof. vm_compute. repeat (first [left; reflexivity | right]). Qed.

(** C3.  [sgerBatch] with one item: [A] is waited for with mode ALL and
    recorded with READ, [y] is waited for with READ and recorded with
    ALL. *)
Lemma sgerBatch_records_other_modes :
  let evs := events_of (sgerBatch cb_fortran 4 4 1 (bufs 10) offs 1 (bufs 20) offs 1
                          (bufs 30) offs 4 1 0) (ok_env false) st0 in
  outcome_of (sgerBatch cb_fortran 4 4 1 (bufs 10) offs 1 (bufs 20) offs 1
                (bufs 30) offs 4 1 0) (ok_env false) st0 = Returned GA_NO_ERROR /\
  waits evs = [(buf 30, CUDA_WAIT_ALL); (buf 10, CUDA_WAIT_READ); (buf 20, CUDA_WAIT_READ)] /\
  records evs = [(buf 30, CUDA_WAIT_READ); (buf 10, CUDA_WAIT_READ); (buf 20, CUDA_WAIT_ALL)].
Proof. vm_compute. repeat split; reflexivity. Qed.

(** C4, amended.  A batched gemv whose [flags] are 0 and whose [alpha] or
    [beta] differs from 1 returns the unsupported-parameters status with
    the state untouched: the critical section is not entered and no device
    work is issued. *)
Theorem gemvBatch_rejects_scaling (p : prec) (order : cb_order) (tA : cb_transpose)
    (M N : Z) (alpha : float) (A : array gpudata) (offA : array Z) (lda : Z)
    (x : array gpudata) (offX : array Z) (incX : Z) (beta : float)
    (y : array gpudata) (offY : array Z) (incY : Z) (bc : Z) (e : env) (st : state) :
  PrimFloat.eqb alpha 1 = false \/ PrimFloat.eqb beta 1 = false ->
  call (gemvBatch p order tA M N alpha A offA lda x offX incX beta y offY incY bc 0) e st =
    (st, Returned GA_UNSUPPORTED_ERROR).
Proof.
  intros H. unfold call, gemvBatch. cbv zeta. cbn [Z.eqb negb].
  destruct H as [-> | ->]; cbn [negb orb]; [reflexivity|].
  rewrite orb_true_r. reflexivity.
Qed.

(** [alpha] = 2 on a batched gemv. *)
Lemma gemvBatch_rejects_scaling_witness :
  call (sgemvBatch cb_fortran cb_no_trans 4 4 2 (bufs 10) offs 4 (bufs 20) offs 1 1
          (bufs 30) offs 1 1 0) (ok_env false) st0 =
    (st0, Returned GA_UNSUPPORTED_ERROR).
Proof.
  apply (gemvBatch_rejects_scaling F32 cb_fortran cb_no_trans 4 4 2 (bufs 10) offs 4
           (bufs 20) offs 1 1 (bufs 30) offs 1 1 (ok_env false) st0).
  left. vm_compute. reflexivity.
Defined.

(** C4, as stated, fails on the batched ger: with [alpha] = 2 the call is
    not rejected, it launches its kernel and returns success. *)
Lemma gerBatch_accepts_scaling :
  PrimFloat.eqb 2 1 = false /\
  outcome_of (sgerBatch cb_fortran 4 4 2 (bufs 10) offs 1 (bufs 20) offs 1
                (bufs 30) offs 4 1 0) (ok_env false) st0 <>
    Returned GA_UNSUPPORTED_ERROR /\
  outcome_of (sgerBatch cb_fortran 4 4 2 (bufs 10) offs 1 (bufs 20) offs 1
                (bufs 30) offs 4 1 0) (ok_env false) st0 = Returned GA_NO_ERROR /\
  launches (events_of (sgerBatch cb_fortran 4 4 2 (bufs 10) offs 1 (bufs 20) offs 1
                         (bufs 30) offs 4 1 0) (ok_env false) st0) =
    [(sgerBH_gen_small, [1; 1; 1], [4; 4; 1])].
Proof. vm_compute. repeat split; try reflexivity. discriminate. Qed.

(** C8.  A batched gemv of 33554432 rows and one item has 65536 row
    blocks, and its batch grid dimension is clamped to 65535 / 65536 = 0:
    the kernel is launched on a grid of 65536 by 0 blocks. *)
Lemma gemvBatch_clamps_grid_to_zero :
  gemvBatch_shape 33554432 1 = Some ([65536; 0], [512; 1]) /\
  launches (events_of (sgemvBatch cb_fortran cb_no_trans 33554432 1 1 (bufs 10) offs
                         33554432 (bufs 20) offs 1 1 (bufs 30) offs 1 1 0)
              (ok_env false) st0) =
    [(sgemvBH_N_a1_b1_small, [65536; 0], [512; 1])].
Proof. vm_compute. split; reflexivity. Qed.

(** The part of the launch shape of the batched gemv that is as stated:
    the block is 32 by min(batchCount, 16) below 512 rows and 512 by 1
    from there on. *)
Lemma gemvBatch_shape_block (M bc : Z) (gs ls : list Z) :
  gemvBatch_shape M bc = Some (gs, ls) ->
  ls = if M <? 512 then [32; Z.min bc 16] else [512; 1].
Proof.
  unfold gemvBatch_shape.
  destruct (M <? 512).
  - destruct (bc >? 16) eqn:E.
    + cbn. intros H. injection H as _ <-. apply Z.gtb_lt in E.
      rewrite Z.min_r by lia. reflexivity.
    + destruct (bc =? 0); [discriminate|]. intros H. injection H as _ <-.
      rewrite Z.gtb_ltb in E. apply Z.ltb_ge in E.
      rewrite Z.min_l by lia. reflexivity.
  - cbn. intros H. injection H as _ <-. reflexivity.
Qed.

(** The clamped batch dimension is 65535 divided by the row-block count,
    and at least 1 as long as there are at most 65535 row blocks. *)
Lemma gemvBatch_clamp_positive (gs0 : Z) :
  1 <= gs0 <= 65535 -> 1 <= 65535 / gs0.
Proof.
  intros H. apply Z.div_le_lower_bound; lia.
Qed.

(* ================================================================== *)
(** ** The collectives *)

Lemma too_small_detected (t : typecode_t) (b : gpudata) (off cnt : Z) :
  operand_in_range (b, off, cnt) -> operand_too_small t (b, off, cnt) ->
  (size_wrap (g_sz b - off) <? op_size_of cnt t) = true.
Proof.
  unfold operand_in_range, operand_too_small. intros (Hoff & Hsz & Hcnt) Hsmall.
  rewrite size_wrap_small by lia. rewrite op_size_exact by exact Hcnt.
  apply Z.ltb_lt. exact Hsmall.
Qed.

(** What [check_restrictions] can answer; it never touches the state. *)
Lemma check_restrictions_cases (src : gpudata) (offsrc : Z) (dest : option gpudata)
    (offdest count : Z) (t : typecode_t) (opc : opcode_t) (comm : gpucomm)
    (dtf opf : bool) (e : env) (st : state) :
  exists r, check_restrictions src offsrc dest offdest count t opc comm dtf opf e st = (st, r) /\
    ((r = Stop NullDeref /\ dest = None) \/
     (r = Stop AssertFailed /\
        (g_sz src < offsrc \/ exists d, dest = Some d /\ g_sz d < offdest)) \/
     (exists dt op, r = Val (GA_VALUE_ERROR, dt, op)) \/
     (exists dt op, r = Val (GA_NO_ERROR, dt, op) /\
        (size_wrap (g_sz src - offsrc) <? op_size_of count t) = false /\
        forall d, dest = Some d ->
                  (size_wrap (g_sz d - offdest) <? op_size_of count t) = false)).
Proof.
  unfold check_restrictions.
  destruct (negb (g_ctx src =? comm_ctx comm));
    [eexists; split; [reflexivity|]; right; right; left; eauto|].
  destruct (match dest with Some d => negb (g_ctx d =? comm_ctx comm) | None => false end);
    [eexists; split; [reflexivity|]; right; right; left; eauto|].
  destruct (dtf && is_NUM_TYPES _);
    [eexists; split; [reflexivity|]; right; right; left; eauto|].
  destruct (opf && is_NUM_OPS _);
    [eexists; split; [reflexivity|]; right; right; left; eauto|].
  destruct (size_wrap (g_sz src - offsrc) <? op_size_of count t) eqn:Es;
    [eexists; split; [reflexivity|]; right; right; left; eauto|].
  destruct dest as [d|].
  - destruct (size_wrap (g_sz d - offdest) <? op_size_of count t) eqn:Ed;
      [eexists; split; [reflexivity|]; right; right; left; eauto|].
    cbv [bind assert_ ret deref_unneeded is_null negb andb].
    destruct (NDEBUG e).
    + eexists; split; [reflexivity|]. right; right; right.
      do 2 eexists. split; [reflexivity|]. split; [reflexivity|].
      intros d' Hd. injection Hd as <-. exact Ed.
    + destruct (offsrc >? g_sz src) eqn:Ea.
      * eexists; split; [reflexivity|]. right; left. split; [reflexivity|].
        left. apply Z.gtb_lt in Ea. lia.
      * destruct (offdest >? g_sz d) eqn:Eb.
        -- eexists; split; [reflexivity|]. right; left. split; [reflexivity|].
           right. exists d. split; [reflexivity|]. apply Z.gtb_lt in Eb. lia.
        -- eexists; split; [reflexivity|]. right; right; right.
           do 2 eexists. split; [reflexivity|]. split; [reflexivity|].
           intros d' Hd. injection Hd as <-. exact Ed.
  - cbv [bind assert_ ret deref_unneeded is_null negb andb stop].
    destruct (NDEBUG e).
    + eexists; split; [reflexivity|]. right; right; right.
      do 2 eexists. split; [reflexivity|]. split; [reflexivity|]. discriminate.
    + destruct (offsrc >? g_sz src) eqn:Ea.
      * eexists; split; [reflexivity|]. right; left. split; [reflexivity|].
        left. apply Z.gtb_lt in Ea. lia.
      * destruct (NULL_READ_TRAPS e).
        -- eexists; split; [reflexivity|]. left. split; reflexivity.
        -- eexists; split; [reflexivity|]. right; right; right.
           do 2 eexists. split; [reflexivity|]. split; [reflexivity|]. discriminate.
Qed.

(** Take the list of validated operands apart. *)
Ltac split_operands :=
  repeat match goal with
  | H : Forall _ (_ :: _) |- _ => apply Forall_cons_iff in H; destruct H
  | H : Forall _ [] |- _ => clear H
  | H : Exists _ (_ :: _) |- _ => apply Exists_cons in H; destruct H
  | H : Exists _ [] |- _ => apply Exists_nil in H; destruct H
  end.

(** An operand in range and too small fails the size test of the code. *)
Ltac detected :=
  match goal with
  | Hr : operand_in_range (?b, ?off, ?cnt), Hs : operand_too_small ?t (?b, ?off, ?cnt) |- _ =>
      pose proof (too_small_detected t b off cnt Hr Hs)
  end.

(** A failed assertion contradicts an offset within the buffer. *)
Ltac range_clash :=
  repeat match goal with
  | H : operand_in_range (_, _, _) |- _ => unfold operand_in_range in H
  | H : Some _ = Some _ |- _ => injection H as H; subst
  | H : exists _, _ |- _ => destruct H
  | H : _ /\ _ |- _ => destruct H
  | H : _ \/ _ |- _ => destruct H
  end; try discriminate; try lia.

(** C5, amended.  For every collective operation and every operand buffer
    the operation validates (every source; the destination of all_reduce,
    reduce_scatter and all_gather; the destination of reduce on the root),
    when the offsets of the validated operands are at most the sizes of
    their buffers, the element counts are non-negative [int] values and
    the queries on the communicator succeed: if for one of these operands
    the count scaled by the element width exceeds size - offset, the call
    returns [GA_VALUE_ERROR] with the state untouched - the critical
    section is not entered, no device work is issued and no hazard is
    waited for or recorded.  A call stopped by the read of the NULL
    destination in the second assertion of [check_restrictions] is left
    out. *)
Theorem collective_rejects_too_small (c : collective) (comm : gpucomm)
    (e : env) (st : state) :
  Forall operand_in_range (validated_operands c comm) ->
  Exists (operand_too_small (typecode_of c)) (validated_operands c comm) ->
  queries_ok c comm ->
  outcome_of (run_collective c comm) e st <> NullDeref ->
  call (run_collective c comm) e st = (st, Returned GA_VALUE_ERROR).
Proof.
  intros Hrange Hsmall Hq Hnull.
  unfold outcome_of, call in *.
  destruct c; cbn [run_collective validated_operands typecode_of queries_ok] in *.
  - (* reduce *)
    unfold reduce, get_rank, rank_of in *.
    destruct (nccl_user_rank (comm_c comm)) as [res rank]. cbn [fst snd] in *. subst res.
    cbv [bind GA_CHECK is_no_error ret] in *.
    destruct (check_restrictions_cases src offsrc (if rank =? root then dest else None)
                offdest count typecode opcode comm true true e st)
      as (r & Hr & Hc).
    rewrite Hr in *.
    destruct Hc as [[-> Hn] | [[-> Ha] | [(dt & op & ->) | (dt & op & -> & Hs & Hd)]]].
    + exfalso. apply Hnull. reflexivity.
    + exfalso. destruct (rank =? root); destruct dest; split_operands; range_clash.
    + reflexivity.
    + exfalso. destruct (rank =? root); destruct dest as [d|]; split_operands;
        try detected; try congruence.
      specialize (Hd d eq_refl). congruence.
  - (* all_reduce *)
    unfold all_reduce in *. cbv [bind GA_CHECK is_no_error ret] in *.
    destruct (check_restrictions_cases src offsrc (Some dest) offdest count typecode
                opcode comm true true e st) as (r & Hr & Hc).
    rewrite Hr in *.
    destruct Hc as [[-> Hn] | [[-> Ha] | [(dt & op & ->) | (dt & op & -> & Hs & Hd)]]].
    + discriminate.
    + exfalso. split_operands; range_clash.
    + reflexivity.
    + exfalso. split_operands; detected; try congruence.
      specialize (Hd dest eq_refl). congruence.
  - (* reduce_scatter *)
    unfold reduce_scatter, get_count, ndev_of in *.
    destruct (nccl_comm_count (comm_c comm)) as [res ndev]. cbn [fst snd] in *. subst res.
    cbv [bind GA_CHECK is_no_error ret] in *.
    destruct (check_restrictions_cases src offsrc None 0 (int_wrap (count * ndev))
                typecode opcode comm true true e st) as (r & Hr & Hc).
    rewrite Hr in *.
    destruct Hc as [[-> Hn] | [[-> Ha] | [(dt & op & ->) | (dt & op & -> & Hs & Hd)]]].
    + exfalso. apply Hnull. reflexivity.
    + exfalso. split_operands; range_clash.
    + reflexivity.
    + destruct (negb (g_ctx dest =? comm_ctx comm)); [reflexivity|].
      destruct (size_wrap (g_sz dest - offdest) <? op_size_of count typecode) eqn:Ed;
        [reflexivity|].
      exfalso. split_operands; detected; try congruence.
      rewrite int_wrap_exact in Hs; [congruence|].
      match goal with H : operand_in_range (src, _, _) |- _ => apply H end.
  - (* broadcast *)
    unfold broadcast in *. cbv [bind GA_CHECK is_no_error ret] in *.
    destruct (check_restrictions_cases array_ offset None 0 count typecode
                (GA_OP_OTHER 0) comm true false e st) as (r & Hr & Hc).
    rewrite Hr in *.
    destruct Hc as [[-> Hn] | [[-> Ha] | [(dt & op & ->) | (dt & op & -> & Hs & Hd)]]].
    + exfalso. apply Hnull. reflexivity.
    + exfalso. split_operands; range_clash.
    + reflexivity.
    + exfalso. split_operands; detected; congruence.
  - (* all_gather *)
    unfold all_gather, get_count, ndev_of in *.
    destruct (nccl_comm_count (comm_c comm)) as [res ndev]. cbn [fst snd] in *. subst res.
    cbv [bind GA_CHECK is_no_error ret] in *.
    destruct (check_restrictions_cases src offsrc None 0 count
                typecode (GA_OP_OTHER 0) comm true false e st) as (r & Hr & Hc).
    rewrite Hr in *.
    destruct Hc as [[-> Hn] | [[-> Ha] | [(dt & op & ->) | (dt & op & -> & Hs & Hd)]]].
    + exfalso. apply Hnull. reflexivity.
    + exfalso. split_operands; range_clash.
    + reflexivity.
    + destruct (negb (g_ctx dest =? comm_ctx comm)); [reflexivity|].
      destruct (size_wrap (g_sz dest - offdest) <?
                op_size_of (int_wrap (ndev * count)) typecode) eqn:Ed; [reflexivity|].
      exfalso. split_operands; detected; try congruence.
      rewrite int_wrap_exact in Ed; [congruence|].
      match goal with H : operand_in_range (dest, _, _) |- _ => apply H end.
Qed.

(** all_reduce of 100 doubles into the last 96 bytes of its destination. *)
Lemma collective_rejects_too_small_witness :
  call (run_collective (AllReduce (buf 1) 0 (buf 2) 4000 100 GA_DOUBLE GA_SUM) comm1)
       (ok_env false) st0 = (st0, Returned GA_VALUE_ERROR).
Proof.
  apply collective_rejects_too_small.
  - repeat constructor; simpl; unfold INT_MAX; lia.
  - apply Exists_cons_tl, Exists_cons_hd. simpl. lia.
  - exact I.
  - vm_compute. discriminate.
Defined.

(** C5, as stated, fails where the offset is larger than the size of the
    buffer: 16 bytes are requested of a source of 16 bytes at offset 32.
    [size - offset] wraps around, the size test passes; with assertions
    the call aborts, without them it enters the critical section and
    issues the native call.  In neither build does it return
    [GA_VALUE_ERROR]. *)
Lemma all_reduce_offset_past_size :
  let src := mk_gpudata 7 0 16 in
  g_sz src - 32 < 4 * gpuarray_get_elsize GA_FLOAT /\
  (forall ndebug,
     outcome_of (all_reduce src 32 (buf 2) 0 4 GA_FLOAT GA_SUM comm1) (ok_env ndebug) st0 <>
       Returned GA_VALUE_ERROR) /\
  call (all_reduce src 32 (buf 2) 0 4 GA_FLOAT GA_SUM comm1) (ok_env false) st0 =
    (st0, AssertFailed) /\
  call (all_reduce src 32 (buf 2) 0 4 GA_FLOAT GA_SUM comm1) (ok_env true) st0 =
    (mk_state [EvEnter 7; EvWait src CUDA_WAIT_READ; EvWait (buf 2) CUDA_WAIT_WRITE;
               EvNcclAllReduce 32 8192 4 ncclFloat ncclSum;
               EvRecord src CUDA_WAIT_READ; EvRecord (buf 2) CUDA_WAIT_WRITE;
               EvExit 7] CUBLAS_POINTER_MODE_HOST,
     Returned GA_NO_ERROR).
Proof.
  cbv zeta. split; [simpl; lia|]. split.
  - intros [|]; vm_compute; discriminate.
  - vm_compute. split; reflexivity.
Qed.

Lemma check_restrictions_value_error (src : gpudata) (offsrc : Z) (d : gpudata)
    (offdest count : Z) (t : typecode_t) (opc : opcode_t) (comm : gpucomm)
    (dtf opf : bool) (e : env) (st : state) :
  g_ctx d <> comm_ctx comm \/
  (size_wrap (g_sz d - offdest) <? op_size_of count t) = true ->
  exists dt op,
    check_restrictions src offsrc (Some d) offdest count t opc comm dtf opf e st =
    (st, Val (GA_VALUE_ERROR, dt, op)).
Proof.
  intros Hbad. unfold check_restrictions.
  destruct (negb (g_ctx src =? comm_ctx comm)); [do 2 eexists; reflexivity|].
  destruct (negb (g_ctx d =? comm_ctx comm)) eqn:Ec; [do 2 eexists; reflexivity|].
  destruct (dtf && is_NUM_TYPES _); [do 2 eexists; reflexivity|].
  destruct (opf && is_NUM_OPS _); [do 2 eexists; reflexivity|].
  destruct (size_wrap (g_sz src - offsrc) <? op_size_of count t);
    [do 2 eexists; reflexivity|].
  destruct Hbad as [Hctx | Hsz].
  - apply negb_false_iff, Z.eqb_eq in Ec. contradiction.
  - rewrite Hsz. do 2 eexists; reflexivity.
Qed.

Lemma check_restrictions_outputs (src : gpudata) (offsrc : Z) (dest : option gpudata)
    (offdest count : Z) (t : typecode_t) (opc : opcode_t) (comm : gpucomm)
    (dtf opf : bool) (e : env) (st : state) (c : ga_error)
    (dt : ncclDataType_t) (op : ncclRedOp_t) (st' : state) :
  check_restrictions src offsrc dest offdest count t opc comm dtf opf e st =
    (st', Val (c, dt, op)) ->
  dt = convert_data_type (CUDA_HAS_HALF e) t /\ op = convert_reduce_op opc.
Proof.
  unfold check_restrictions.
  repeat match goal with
         | |- context [if ?b then _ else _] => destruct b
         end;
  cbv [bind assert_ ret deref_unneeded stop];
  repeat match goal with
         | |- context [if ?b then _ else _] => destruct b
         | |- context [match ?d with Some _ => _ | None => _ end] => destruct d
         end;
  intros H; inversion H; auto.
Qed.

(** In [reduce], once the communicator has reported the rank: on the
    root the destination is validated (a destination of another context,
    or too small for [count] elements past its offset, makes the call
    return [GA_VALUE_ERROR] with the state untouched) and hazard-tracked
    (a successful call has waited for the destination with mode WRITE
    before the native call and recorded it with WRITE after it); on every
    other rank the call does not depend on the destination or its offset,
    NULL included, and its trace holds no wait and no record but those of
    the source. *)
Theorem reduce_root_only (src : gpudata) (offsrc : Z) (dest : option gpudata)
    (offdest count : Z) (t : typecode_t) (opc : opcode_t) (root : Z)
    (comm : gpucomm) (rank : Z) (e : env) (st : state) :
  get_rank comm 0 = (GA_NO_ERROR, rank) ->
  let run := call (reduce src offsrc dest offdest count t opc root comm) e st in
  let evs := events_of (reduce src offsrc dest offdest count t opc root comm) e st in
  let ctx := comm_ctx comm in
  let native d :=
    EvNcclReduce (byte_addr src offsrc) d count
      (convert_data_type (CUDA_HAS_HALF e) t) (convert_reduce_op opc) root in
  if rank =? root then
    (forall d, dest = Some d ->
       g_ctx d <> comm_ctx comm \/
       (operand_in_range (d, offdest, count) /\ operand_too_small t (d, offdest, count)) ->
       run = (st, Returned GA_VALUE_ERROR)) /\
    (snd run = Returned GA_NO_ERROR ->
       exists d, dest = Some d /\
         evs = [EvEnter ctx; EvWait src CUDA_WAIT_READ; EvWait d CUDA_WAIT_WRITE;
                native (Some (byte_addr d offdest));
                EvRecord src CUDA_WAIT_READ; EvRecord d CUDA_WAIT_WRITE; EvExit ctx])
  else
    (forall dest' offdest',
       call (reduce src offsrc dest' offdest' count t opc root comm) e st = run) /\
    In evs [ [];
             [EvEnter ctx; EvWait src CUDA_WAIT_READ; EvExit ctx];
             [EvEnter ctx; EvWait src CUDA_WAIT_READ; native None; EvExit ctx];
             [EvEnter ctx; EvWait src CUDA_WAIT_READ; native None;
              EvRecord src CUDA_WAIT_READ; EvExit ctx] ].
Proof.
  intros Hrank. cbv zeta. unfold events_of, call, reduce. rewrite Hrank.
  destruct (rank =? root) eqn:Eroot.
  - split.
    + intros d -> Hbad.
      destruct (check_restrictions_value_error src offsrc d offdest count t opc comm
                  true true e st) as (dt & op & Hc).
      { destruct Hbad as [Hctx | [Hr Hs]]; [left; exact Hctx | right].
        apply too_small_detected; assumption. }
      cbv [bind GA_CHECK is_no_error ret]. rewrite Hc. reflexivity.
    + cbv [bind GA_CHECK is_no_error ret].
      destruct (check_restrictions_cases src offsrc dest offdest count t opc comm
                  true true e st) as (r & Hr & Hc).
      pose proof (check_restrictions_outputs src offsrc dest offdest count t opc comm
                    true true e st) as Hout.
      rewrite Hr in *.
      destruct Hc as [[-> Hn] | [[-> Ha] | [(dt & op & ->) | (dt & op & -> & Hs & Hd)]]];
        try (cbn; discriminate).
      destruct (Hout _ _ _ _ eq_refl) as [-> ->]. clear Hout.
      destruct dest as [d|]; cbv [deref stop]; run_prims.
      * repeat (split_answer; cbn [fst snd trace pointer_mode];
                [| intros H; not_success]).
        intros _. exists d. split; [reflexivity|].
        rewrite <- !app_assoc. apply skipn_app_length.
      * split_answer; cbn [fst snd trace pointer_mode]; intros H;
          [discriminate | not_success].
  - split.
    + intros dest' offdest'. reflexivity.
    + cbv [bind GA_CHECK is_no_error ret].
      destruct (check_restrictions_cases src offsrc None offdest count t opc comm
                  true true e st) as (r & Hr & Hc).
      pose proof (check_restrictions_outputs src offsrc None offdest count t opc comm
                    true true e st) as Hout.
      rewrite Hr in *.
      destruct Hc as [[-> Hn] | [[-> Ha] | [(dt & op & ->) | (dt & op & -> & Hs & Hd)]]];
        [ cbn [fst snd trace]; rewrite skipn_all; left; reflexivity
        | cbn [fst snd trace]; rewrite skipn_all; left; reflexivity
        | cbn [fst snd trace]; rewrite skipn_all; left; reflexivity
        | ].
      destruct (Hout _ _ _ _ eq_refl) as [-> ->]. clear Hout.
      run_prims.
      repeat (split_answer; cbn [fst snd trace pointer_mode]).
      all: rewrite <- ?app_assoc; rewrite skipn_app_length; cbn [app In]; auto.
Qed.

(** [reduce] on rank 1, with root 0 and with root 1. *)
Lemma reduce_root_only_witness :
  (* rank 1 is not the root 0 *)
  ((forall dest' offdest',
      call (reduce (buf 1) 0 dest' offdest' 4 GA_FLOAT GA_SUM 0 comm1) (ok_env true) st0 =
      call (reduce (buf 1) 0 None 0 4 GA_FLOAT GA_SUM 0 comm1) (ok_env true) st0) /\
   In (events_of (reduce (buf 1) 0 None 0 4 GA_FLOAT GA_SUM 0 comm1) (ok_env true) st0)
      [ [];
        [EvEnter 7; EvWait (buf 1) CUDA_WAIT_READ; EvExit 7];
        [EvEnter 7; EvWait (buf 1) CUDA_WAIT_READ;
         EvNcclReduce (byte_addr (buf 1) 0) None 4 ncclFloat ncclSum 0; EvExit 7];
        [EvEnter 7; EvWait (buf 1) CUDA_WAIT_READ;
         EvNcclReduce (byte_addr (buf 1) 0) None 4 ncclFloat ncclSum 0;
         EvRecord (buf 1) CUDA_WAIT_READ; EvExit 7] ]) /\
  (* rank 1 is the root 1 *)
  (exists d, Some (buf 2) = Some d /\
     events_of (reduce (buf 1) 0 (Some (buf 2)) 0 4 GA_FLOAT GA_SUM 1 comm1)
       (ok_env false) st0 =
     [EvEnter 7; EvWait (buf 1) CUDA_WAIT_READ; EvWait d CUDA_WAIT_WRITE;
      EvNcclReduce (byte_addr (buf 1) 0) (Some (byte_addr d 0)) 4 ncclFloat ncclSum 1;
      EvRecord (buf 1) CUDA_WAIT_READ; EvRecord d CUDA_WAIT_WRITE; EvExit 7]).
Proof.
  split.
  - exact (reduce_root_only (buf 1) 0 None 0 4 GA_FLOAT GA_SUM 0 comm1 1
             (ok_env true) st0 eq_refl).
  - apply (reduce_root_only (buf 1) 0 (Some (buf 2)) 0 4 GA_FLOAT GA_SUM 1 comm1 1
             (ok_env false) st0 eq_refl).
    vm_compute. reflexivity.
Defined.

(** C9.  [reduce] on rank 1 with root 0 and a NULL destination, every
    other argument valid.  In the build with assertions that makes the
    read, the call stops in [check_restrictions], before the critical
    section, at the read of [dest->sz] through the NULL destination that
    the bitwise [&] of the second assertion asks for.  Without
    assertions, and with assertions in a build that drops the read, the
    same call waits for the source, runs the native reduce with no
    receive buffer, records the source and returns success. *)
Lemma reduce_off_root_reads_null_destination :
  call (reduce (buf 1) 0 None 0 4 GA_FLOAT GA_SUM 0 comm1) (ok_env false) st0 =
    (st0, NullDeref) /\
  call (reduce (buf 1) 0 None 0 4 GA_FLOAT GA_SUM 0 comm1) (ok_env true) st0 =
    (mk_state [EvEnter 7; EvWait (buf 1) CUDA_WAIT_READ;
               EvNcclReduce 4096 None 4 ncclFloat ncclSum 0;
               EvRecord (buf 1) CUDA_WAIT_READ; EvExit 7]
              CUBLAS_POINTER_MODE_HOST,
     Returned GA_NO_ERROR) /\
  call (reduce (buf 1) 0 None 0 4 GA_FLOAT GA_SUM 0 comm1) optimised_env st0 =
    (mk_state [EvEnter 7; EvWait (buf 1) CUDA_WAIT_READ;
               EvNcclReduce 4096 None 4 ncclFloat ncclSum 0;
               EvRecord (buf 1) CUDA_WAIT_READ; EvExit 7]
              CUBLAS_POINTER_MODE_HOST,
     Returned GA_NO_ERROR).
Proof. repeat split; vm_compute; reflexivity. Qed.

(* ================================================================== *)
(** * Further properties of the entry points *)

(** ** gemm, dot and ger *)

Lemma gate_depth_app (a b : list event) :
  gate_depth (a ++ b) = gate_depth a + gate_depth b.
Proof.
  induction a as [|ev a IH]; simpl; [reflexivity|].
  destruct ev; rewrite ?IH; lia.
Qed.

Lemma waits_app (a b : list event) : waits (a ++ b) = waits a ++ waits b.
Proof.
  induction a as [|ev a IH]; simpl; [reflexivity|].
  destruct ev; simpl; rewrite ?IH; reflexivity.
Qed.

Lemma records_app (a b : list event) : records (a ++ b) = records a ++ records b.
Proof.
  induction a as [|ev a IH]; simpl; [reflexivity|].
  destruct ev; simpl; rewrite ?IH; reflexivity.
Qed.

(** [sgemm] and [dgemm] leave the critical section on every path, and a
    successful call is, in this order: the critical section entered, the
    three operands waited for, READ for the two sources and ALL for [C],
    one vendor gemm writing [C], the three operands recorded with the
    modes they were waited for, the critical section left. *)
Theorem gemm_closes_gate_and_records_symmetrically (p : prec) (order : cb_order)
    (tA tB : cb_transpose) (M N K : Z) (alpha : float) (A : gpudata) (offA lda : Z)
    (B : gpudata) (offB ldb : Z) (beta : float) (C : gpudata) (offC ldc : Z)
    (e : env) (st : state) :
  let evs := events_of (gemm p order tA tB M N K alpha A offA lda B offB ldb beta
                          C offC ldc) e st in
  gate_depth evs = 0 /\
  (outcome_of (gemm p order tA tB M N K alpha A offA lda B offB ldb beta C offC ldc) e st =
     Returned GA_NO_ERROR ->
   records evs = waits evs /\
   exists A' B' native,
     waits evs = [(A', CUDA_WAIT_READ); (B', CUDA_WAIT_READ); (C, CUDA_WAIT_ALL)] /\
     (A', B') = swapped order A B /\
     evs = tracked (g_ctx A)
             [(A', CUDA_WAIT_READ); (B', CUDA_WAIT_READ); (C, CUDA_WAIT_ALL)] native /\
     vendor_calls [native] = [PerItem (elem_addr p C offC)]).
Proof.
  cbv zeta. unfold outcome_of, events_of, call, gemm.
  destruct (gemm_sizes_large M N K lda ldb ldc).
  - cbv [return_]. cbn [fst snd]. rewrite skipn_all. split; [reflexivity|discriminate].
  - destruct order; unfold gemm_issue; run_prims;
      repeat (split_answer; cbn [fst snd trace pointer_mode]);
      rewrite <- ?app_assoc in *; rewrite skipn_app_length;
      (split; [reflexivity | intros H; first [ not_success | idtac ] ]);
      (split; [reflexivity |
               do 3 eexists; split; [reflexivity|]; split; [reflexivity|];
               split; reflexivity]).
Qed.

(** The witness of the theorem above: a 2 by 2 by 2 product in row-major
    order. *)
Lemma gemm_closes_gate_and_records_symmetrically_witness :
  exists native,
    events_of (sgemm cb_c cb_no_trans cb_no_trans 2 2 2 1 (buf 1) 0 2 (buf 2) 0 2 0
                 (buf 3) 0 2) (ok_env false) st0 =
    [EvEnter 7;
     EvWait (buf 2) CUDA_WAIT_READ; EvWait (buf 1) CUDA_WAIT_READ;
     EvWait (buf 3) CUDA_WAIT_ALL;
     native;
     EvRecord (buf 2) CUDA_WAIT_READ; EvRecord (buf 1) CUDA_WAIT_READ;
     EvRecord (buf 3) CUDA_WAIT_ALL;
     EvExit 7] /\
    vendor_calls [native] = [PerItem 12288].
Proof.
  destruct (gemm_closes_gate_and_records_symmetrically F32 cb_c cb_no_trans cb_no_trans
              2 2 2 1 (buf 1) 0 2 (buf 2) 0 2 0 (buf 3) 0 2 (ok_env false) st0)
    as [_ H].
  destruct (H eq_refl) as [_ (A' & B' & native & _ & Hs & Ht & Hv)].
  injection Hs as -> ->.
  exists native. split; [exact Ht | exact Hv].
Defined.

Lemma LARGE_VAL_true (v : Z) : LARGE_VAL v = true <-> INT_MAX <= v.
Proof. unfold LARGE_VAL. apply Z.leb_le. Qed.

(** The overflow test of the gemm entry points, read on the integers: it
    fires exactly when a dimension, a leading dimension or one of the
    products M*N, M*K, K*N reaches [INT_MAX]. *)
Lemma gemm_sizes_large_iff (M N K lda ldb ldc : Z) :
  0 <= M -> 0 <= N -> 0 <= K ->
  (gemm_sizes_large M N K lda ldb ldc = true <->
   INT_MAX <= M \/ INT_MAX <= N \/ INT_MAX <= K \/
   INT_MAX <= lda \/ INT_MAX <= ldb \/ INT_MAX <= ldc \/
   INT_MAX <= M * N \/ INT_MAX <= M * K \/ INT_MAX <= K * N).
Proof.
  intros HM HN HK. unfold gemm_sizes_large.
  rewrite !orb_true_iff, !LARGE_VAL_true.
  destruct (Z_lt_le_dec M INT_MAX) as [HM'|HM']; [|tauto].
  destruct (Z_lt_le_dec N INT_MAX) as [HN'|HN']; [|tauto].
  destruct (Z_lt_le_dec K INT_MAX) as [HK'|HK']; [|tauto].
  unfold INT_MAX in *.
  rewrite (size_wrap_small (M * N)) by nia.
  rewrite (size_wrap_small (M * K)) by nia.
  rewrite (size_wrap_small (K * N)) by nia.
  tauto.
Qed.

(** [sgemm], [dgemm], [sgemmBatch] and [dgemmBatch] return the overflow
    status, with the state untouched, as soon as a dimension, a leading
    dimension or one of the products M*N, M*K, K*N reaches [INT_MAX]. *)
Theorem gemm_rejects_overflow (p : prec) (order : cb_order)
    (tA tB : cb_transpose) (M N K : Z) (alpha beta : float) (lda ldb ldc : Z)
    (e : env) (st : state) :
  0 <= M -> 0 <= N -> 0 <= K ->
  INT_MAX <= M \/ INT_MAX <= N \/ INT_MAX <= K \/
  INT_MAX <= lda \/ INT_MAX <= ldb \/ INT_MAX <= ldc \/
  INT_MAX <= M * N \/ INT_MAX <= M * K \/ INT_MAX <= K * N ->
  (forall A offA B offB C offC,
     call (gemm p order tA tB M N K alpha A offA lda B offB ldb beta C offC ldc) e st =
       (st, Returned GA_XLARGE_ERROR)) /\
  (forall A offA B offB C offC bc,
     call (gemmBatch p order tA tB M N K alpha A offA lda B offB ldb beta C offC ldc bc)
       e st = (st, Returned GA_XLARGE_ERROR)).
Proof.
  intros HM HN HK Hbig.
  apply (gemm_sizes_large_iff M N K lda ldb ldc HM HN HK) in Hbig.
  split; intros; unfold call, gemm, gemmBatch; cbv zeta; rewrite Hbig; reflexivity.
Qed.

Lemma gemm_rejects_overflow_witness :
  call (sgemm cb_fortran cb_no_trans cb_no_trans 65536 65536 1 1 (buf 1) 0 65536
          (buf 2) 0 1 0 (buf 3) 0 65536) (ok_env false) st0 =
    (st0, Returned GA_XLARGE_ERROR).
Proof.
  apply (gemm_rejects_overflow F32 cb_fortran cb_no_trans cb_no_trans 65536 65536 1
           1 0 65536 1 65536 (ok_env false) st0); unfold INT_MAX; lia.
Defined.

Lemma gemm_sizes_large_swap (M N K lda ldb ldc : Z) :
  gemm_sizes_large N M K ldb lda ldc = gemm_sizes_large M N K lda ldb ldc.
Proof.
  unfold gemm_sizes_large.
  rewrite (Z.mul_comm N M), (Z.mul_comm N K), (Z.mul_comm K M).
  destruct (LARGE_VAL M), (LARGE_VAL N), (LARGE_VAL K), (LARGE_VAL lda),
    (LARGE_VAL ldb), (LARGE_VAL ldc), (LARGE_VAL (size_wrap (M * N))),
    (LARGE_VAL (size_wrap (M * K))), (LARGE_VAL (size_wrap (K * N))); reflexivity.
Qed.

(** A row-major gemm is the column-major gemm of the swapped operands: on
    buffers of one context, [sgemm]/[dgemm] with [cb_c] runs as the call
    with [cb_fortran] on B and A, N and M, ldb and lda, transB and transA,
    offB and offA. *)
Theorem gemm_row_major_is_swapped_column_major (p : prec) (tA tB : cb_transpose)
    (M N K : Z) (alpha : float) (A : gpudata) (offA lda : Z)
    (B : gpudata) (offB ldb : Z) (beta : float) (C : gpudata) (offC ldc : Z)
    (e : env) (st : state) :
  g_ctx A = g_ctx B ->
  call (gemm p cb_c tA tB M N K alpha A offA lda B offB ldb beta C offC ldc) e st =
  call (gemm p cb_fortran tB tA N M K alpha B offB ldb A offA lda beta C offC ldc) e st.
Proof.
  intros Hctx. unfold call, gemm. cbv zeta.
  rewrite gemm_sizes_large_swap, Hctx. reflexivity.
Qed.

Lemma gemm_row_major_is_swapped_column_major_witness :
  call (sgemm cb_c cb_trans cb_no_trans 2 3 4 1 (buf 1) 0 4 (buf 2) 0 3 0 (buf 3) 0 3)
       (ok_env false) st0 =
  call (sgemm cb_fortran cb_no_trans cb_trans 3 2 4 1 (buf 2) 0 3 (buf 1) 0 4 0 (buf 3) 0 3)
       (ok_env false) st0.
Proof.
  apply (gemm_row_major_is_swapped_column_major F32 cb_trans cb_no_trans 2 3 4 1
           (buf 1) 0 4 (buf 2) 0 3 0 (buf 3) 0 3 (ok_env false) st0).
  reflexivity.
Defined.

(** When the dot call itself fails, [sdot]/[ddot] leaves the critical
    section and returns the cuBLAS status, but the handle stays in the
    device pointer mode: the saved mode is not set again on that path. *)
Theorem dot_failure_keeps_device_mode (p : prec) (N : Z) (X : gpudata) (offX incX : Z)
    (Y : gpudata) (offY incY : Z) (Zb : gpudata) (offZ : Z) (e : env) (st : state) :
  let n := length (trace st) in
  LARGE_VAL N = false ->
  ga_answer e (n + 1)%nat = GA_NO_ERROR ->
  ga_answer e (n + 2)%nat = GA_NO_ERROR ->
  ga_answer e (n + 3)%nat = GA_NO_ERROR ->
  cublas_answer e (n + 4)%nat = CUBLAS_STATUS_SUCCESS ->
  cublas_answer e (n + 5)%nat = CUBLAS_STATUS_SUCCESS ->
  cublas_ok (cublas_answer e (n + 6)%nat) = false ->
  call (dot p N X offX incX Y offY incY Zb offZ) e st =
    (mk_state (trace st ++
               [EvEnter (g_ctx X);
                EvWait X CUDA_WAIT_READ; EvWait Y CUDA_WAIT_READ;
                EvWait Zb CUDA_WAIT_WRITE;
                EvGetPointerMode;
                EvSetPointerMode CUBLAS_POINTER_MODE_DEVICE;
                EvDot p N (elem_addr p X offX) (int_wrap incX)
                  (elem_addr p Y offY) (int_wrap incY) (elem_addr p Zb offZ);
                EvExit (g_ctx X)])
              CUBLAS_POINTER_MODE_DEVICE,
     Returned (error_cublas (cublas_answer e (n + 6)%nat))).
Proof.
  cbv zeta. intros HN H1 H2 H3 H4 H5 H6.
  unfold call, dot. rewrite HN. run_prims.
  repeat (rewrite ?length_app; cbn [length]; rewrite <- ?Nat.add_assoc; cbn [Nat.add];
          first [ rewrite H1 | rewrite H2 | rewrite H3 | rewrite H4 | rewrite H5
                | rewrite H6 ];
          cbn [fst snd trace pointer_mode is_no_error cublas_ok]).
  rewrite <- !app_assoc. reflexivity.
Qed.

(** [sdot] with the strides 2^32 + 1 and 1, the dot call failing. *)
Lemma dot_failure_keeps_device_mode_witness :
  call (sdot 4 (buf 1) 0 4294967297 (buf 2) 0 1 (buf 3) 0) (cublas_fail_env 6) st0 =
    (mk_state [EvEnter 7;
               EvWait (buf 1) CUDA_WAIT_READ; EvWait (buf 2) CUDA_WAIT_READ;
               EvWait (buf 3) CUDA_WAIT_WRITE;
               EvGetPointerMode;
               EvSetPointerMode CUBLAS_POINTER_MODE_DEVICE;
               EvDot F32 4 4096 1 8192 1 12288;
               EvExit 7]
              CUBLAS_POINTER_MODE_DEVICE,
     Returned GA_BLAS_ERROR).
Proof.
  apply (dot_failure_keeps_device_mode F32 4 (buf 1) 0 4294967297 (buf 2) 0 1 (buf 3) 0
           (cublas_fail_env 6) st0); reflexivity.
Defined.

(* ================================================================== *)
(** ** The batched entry points: the critical section and the hazards *)

Lemma has_alloc_fail_app (a b : list event) :
  has_alloc_fail (a ++ b) = has_alloc_fail a || has_alloc_fail b.
Proof.
  induction a as [|ev a IH]; simpl; [reflexivity|].
  destruct ev; simpl; rewrite ?IH; reflexivity.
Qed.

Lemma has_alloc_fail_loop (evs : list event) :
  Forall loop_event evs -> has_alloc_fail evs = false.
Proof.
  induction 1 as [|ev evs Hev _ IH]; simpl; [reflexivity|].
  destruct ev; simpl in Hev; try contradiction; exact IH.
Qed.

Lemma gate_depth_flat_map (bev : nat -> list event) (l : list nat) :
  (forall i, gate_depth (bev i) = 0) -> gate_depth (flat_map bev l) = 0.
Proof.
  intros H. induction l as [|i l IH]; simpl; [reflexivity|].
  rewrite gate_depth_app, H, IH. reflexivity.
Qed.

Lemma waits_flat_map (bev : nat -> list event) (f : nat -> list (gpudata * wait_mode))
    (l : list nat) :
  (forall i, waits (bev i) = f i) -> waits (flat_map bev l) = flat_map f l.
Proof.
  intros H. induction l as [|i l IH]; simpl; [reflexivity|].
  rewrite waits_app, H, IH. reflexivity.
Qed.

Lemma records_flat_map (bev : nat -> list event) (f : nat -> list (gpudata * wait_mode))
    (l : list nat) :
  (forall i, records (bev i) = f i) -> records (flat_map bev l) = flat_map f l.
Proof.
  intros H. induction l as [|i l IH]; simpl; [reflexivity|].
  rewrite records_app, H, IH. reflexivity.
Qed.

Lemma flat_map_nil {A B : Type} (l : list A) :
  flat_map (fun _ : A => @nil B) l = [].
Proof. induction l; simpl; auto. Qed.

(** The loop rule with the critical section: an iteration that runs to
    its end keeps the depth, one that returns an error has left the
    critical section once. *)
Lemma for_loop_gate (body : nat -> comp unit) (bev : nat -> list event) :
  (forall i e st, exists evs r,
      appends (body i) e st evs r /\ Forall loop_event evs /\
      ((r = Val tt /\ evs = bev i) \/ (failed r /\ gate_depth evs = -1))) ->
  (forall i, gate_depth (bev i) = 0) ->
  forall n i e st, exists evs r,
      appends (for_loop i n body) e st evs r /\ Forall loop_event evs /\
      ((r = Val tt /\ evs = flat_map bev (seq i n)) \/ (failed r /\ gate_depth evs = -1)).
Proof.
  intros Hbody Hgate. induction n as [|n IH]; intros i e st.
  - exists [], (Val tt). unfold appends. simpl. unfold ret.
    rewrite app_nil_r. destruct st; simpl. auto.
  - destruct (Hbody i e st) as (evs1 & r1 & H1 & F1 & [[-> ->] | [Hf Hg]]).
    + destruct (IH (S i) e (mk_state (trace st ++ bev i) (pointer_mode st)))
        as (evs2 & r2 & H2 & F2 & Hr2).
      exists (bev i ++ evs2), r2.
      split; [|split].
      * unfold appends in *. simpl. unfold bind. rewrite H1, H2. simpl.
        rewrite app_assoc. reflexivity.
      * apply Forall_app. auto.
      * destruct Hr2 as [[-> ->] | [Hf Hg]]; [left; auto | right].
        split; [exact Hf|]. rewrite gate_depth_app, Hgate, Hg. reflexivity.
    + exists evs1, r1. destruct Hf as (c & -> & Hc).
      split; [|split]; auto.
      * unfold appends in *. simpl. unfold bind. rewrite H1. reflexivity.
      * right. split; [exists c; auto | exact Hg].
Qed.

(** One path of a loop body, with the depth of its error branch. *)
Ltac finish_gate_body :=
  rewrite <- ?app_assoc in *;
  do 2 eexists;
  split; [ cbn [trace pointer_mode]; reflexivity
         | split; [ loop_events I
                  | first [ left; split; reflexivity
                          | right; split;
                            [ first [ apply failed_ga; assumption | apply failed_cublas ]
                            | reflexivity ] ] ] ].

Lemma waits_gate (ctx : Z) (a b c : array gpudata) (ma mb mc : wait_mode) :
  forall i e st, exists evs r,
    appends (GA_CUDA_EXIT_ON_ERROR ctx (cuda_wait (a i) ma) ;;
             GA_CUDA_EXIT_ON_ERROR ctx (cuda_wait (b i) mb) ;;
             GA_CUDA_EXIT_ON_ERROR ctx (cuda_wait (c i) mc)) e st evs r /\
    Forall loop_event evs /\
    ((r = Val tt /\ evs = [EvWait (a i) ma; EvWait (b i) mb; EvWait (c i) mc])
     \/ (failed r /\ gate_depth evs = -1)).
Proof.
  intros i e st. unfold appends. run_prims.
  repeat (split_answer; cbn [fst snd trace pointer_mode]).
  all: finish_gate_body.
Qed.

Lemma records_gate (ctx : Z) (a b c : array gpudata) (ma mb mc : wait_mode) :
  forall i e st, exists evs r,
    appends (GA_CUDA_EXIT_ON_ERROR ctx (cuda_record (a i) ma) ;;
             GA_CUDA_EXIT_ON_ERROR ctx (cuda_record (b i) mb) ;;
             GA_CUDA_EXIT_ON_ERROR ctx (cuda_record (c i) mc)) e st evs r /\
    Forall loop_event evs /\
    ((r = Val tt /\ evs = [EvRecord (a i) ma; EvRecord (b i) mb; EvRecord (c i) mc])
     \/ (failed r /\ gate_depth evs = -1)).
Proof.
  intros i e st. unfold appends. run_prims.
  repeat (split_answer; cbn [fst snd trace pointer_mode]).
  all: finish_gate_body.
Qed.

Lemma per_item_gate (p : prec) (ctx : Z) (ta tb : cublasOperation_t) (M N K : Z)
    (alpha : float) (A : array gpudata) (offA : array Z) (lda : Z)
    (B : array gpudata) (offB : array Z) (ldb : Z) (beta : float)
    (C : array gpudata) (offC : array Z) (ldc : Z) :
  forall i e st, exists evs r,
    appends (GA_CUDA_EXIT_ON_ERROR ctx (cuda_wait (A i) CUDA_WAIT_READ) ;;
             GA_CUDA_EXIT_ON_ERROR ctx (cuda_wait (B i) CUDA_WAIT_READ) ;;
             GA_CUDA_EXIT_ON_ERROR ctx (cuda_wait (C i) CUDA_WAIT_ALL) ;;
             CUBLAS_EXIT_ON_ERROR ctx
               (cublas_call (EvGemm p ta tb M N K alpha
                               (elem_addr p (A i) (offA i)) lda
                               (elem_addr p (B i) (offB i)) ldb beta
                               (elem_addr p (C i) (offC i)) ldc)) ;;
             GA_CUDA_EXIT_ON_ERROR ctx (cuda_record (A i) CUDA_WAIT_READ) ;;
             GA_CUDA_EXIT_ON_ERROR ctx (cuda_record (B i) CUDA_WAIT_READ) ;;
             GA_CUDA_EXIT_ON_ERROR ctx (cuda_record (C i) CUDA_WAIT_ALL)) e st evs r /\
    Forall loop_event evs /\
    ((r = Val tt /\
      evs = [EvWait (A i) CUDA_WAIT_READ; EvWait (B i) CUDA_WAIT_READ;
             EvWait (C i) CUDA_WAIT_ALL;
             EvGemm p ta tb M N K alpha (elem_addr p (A i) (offA i)) lda
               (elem_addr p (B i) (offB i)) ldb beta (elem_addr p (C i) (offC i)) ldc;
             EvRecord (A i) CUDA_WAIT_READ; EvRecord (B i) CUDA_WAIT_READ;
             EvRecord (C i) CUDA_WAIT_ALL])
     \/ (failed r /\ gate_depth evs = -1)).
Proof.
  intros i e st. unfold appends. run_prims.
  repeat (split_answer; cbn [fst snd trace pointer_mode]).
  all: finish_gate_body.
Qed.

(** Run the next loop of the goal by the loop rule with the depth. *)
Ltac use_gate_loop lemma :=
  match goal with
  | |- context [for_loop 0 ?n ?body ?e ?st] =>
      let evs := fresh "evs" in let r := fresh "r" in
      let H := fresh "Hloop" in let F := fresh "Floop" in let R := fresh "Rloop" in
      let G := fresh "Gloop" in
      destruct (for_loop_gate body _ lemma ltac:(intros; reflexivity) n 0%nat e st)
        as (evs & r & H & F & R);
      unfold appends in H; cbn [trace pointer_mode] in H; rewrite H; clear H;
      destruct R as [[-> ->] | [(? & -> & ?) G]]; cbn [fst snd trace pointer_mode]
  end.

(** The depth, the failed allocations, the waits and the records of a
    trace with loops in it. *)
Ltac measure :=
  repeat first
    [ rewrite gate_depth_app | rewrite has_alloc_fail_app
    | rewrite waits_app | rewrite records_app
    | rewrite gate_depth_flat_map by (intros; reflexivity)
    | rewrite has_alloc_fail_loop by assumption
    | match goal with G : gate_depth ?evs = _ |- context [gate_depth ?evs] => rewrite G end
    | progress cbn [gate_depth has_alloc_fail waits records app orb] ].

(** The hazards of a trace made of loop bodies. *)
Ltac hazards_of_loops :=
  measure;
  repeat first
    [ erewrite waits_flat_map by (intros; cbn [waits]; reflexivity)
    | erewrite records_flat_map by (intros; cbn [records]; reflexivity) ];
  rewrite ?flat_map_nil, ?app_nil_r; cbn [app]; rewrite ?app_nil_r.

Lemma gemmBatch_issue_gate_hazards (p : prec) (ctx : Z) (tA tB : cb_transpose)
    (M N K : Z) (alpha : float) (A : array gpudata) (offA : array Z) (lda : Z)
    (B : array gpudata) (offB : array Z) (ldb : Z) (beta : float)
    (C : array gpudata) (offC : array Z) (ldc : Z) (bc : Z) (e : env) (st : state) :
  exists evs r,
    appends (gemmBatch_issue p ctx tA tB M N K alpha A offA lda B offB ldb beta
               C offC ldc bc) e st evs r /\
    gate_depth evs = 0 /\
    (allocator_reports e ->
     (r = Val GA_NO_ERROR /\
      waits evs = flat_map (fun i => [(A i, CUDA_WAIT_READ); (B i, CUDA_WAIT_READ);
                                      (C i, CUDA_WAIT_ALL)]) (seq 0 (Z.to_nat bc)) /\
      records evs = waits evs)
     \/ failed r).
Proof.
  unfold appends, gemmBatch_issue.
  cbv [bind cuda_enter cuda_exit emit ret return_ buffer_alloc buffer_release
       gpudata_write ga_call cublas_call].
  cbn [fst snd trace pointer_mode].
  destruct (gemmBatch_large M N K).
  - use_gate_loop (per_item_gate p ctx (convT tA) (convT tB) M N K alpha A offA lda
                     B offB ldb beta C offC ldc).
    + path_end. split; [measure; reflexivity|].
      intros _. left. split; [reflexivity|].
      assert (Hw : forall l,
                 waits ([EvEnter ctx] ++
                   flat_map (fun i => [EvWait (A i) CUDA_WAIT_READ;
                     EvWait (B i) CUDA_WAIT_READ; EvWait (C i) CUDA_WAIT_ALL;
                     EvGemm p (convT tA) (convT tB) M N K alpha
                       (elem_addr p (A i) (offA i)) lda (elem_addr p (B i) (offB i))
                       ldb beta (elem_addr p (C i) (offC i)) ldc;
                     EvRecord (A i) CUDA_WAIT_READ; EvRecord (B i) CUDA_WAIT_READ;
                     EvRecord (C i) CUDA_WAIT_ALL]) l ++ [EvExit ctx]) =
                 flat_map (fun i => [(A i, CUDA_WAIT_READ); (B i, CUDA_WAIT_READ);
                                     (C i, CUDA_WAIT_ALL)]) l).
      { intros l. hazards_of_loops. reflexivity. }
      split; [apply Hw|]. rewrite Hw. hazards_of_loops. reflexivity.
    + path_end. split; [measure; reflexivity | intros _; right; eexists; eauto].
  - use_gate_loop (waits_gate ctx A B C CUDA_WAIT_READ CUDA_WAIT_READ CUDA_WAIT_ALL).
    2: { path_end. split; [measure; reflexivity | intros _; right; eexists; eauto]. }
    split_alloc; cbn [fst snd trace pointer_mode].
    2: { path_end. split; [measure; reflexivity|].
         intros Hrep; right; eexists; split; eauto.
         intros ->. eapply Hrep; eassumption. }
    split_answer; cbn [fst snd trace pointer_mode].
    2: { path_end. split; [measure; reflexivity|].
         intros _; right; apply failed_ga; assumption. }
    split_answer; cbn [fst snd trace pointer_mode].
    2: { path_end. split; [measure; reflexivity|].
         intros _; right; apply failed_cublas. }
    use_gate_loop (records_gate ctx A B C CUDA_WAIT_READ CUDA_WAIT_READ CUDA_WAIT_ALL).
    2: { path_end. split; [measure; reflexivity | intros _; right; eexists; eauto]. }
    path_end. split; [measure; reflexivity|].
    intros _. left. split; [reflexivity|].
    split; hazards_of_loops; reflexivity.
Qed.

Lemma gemvBatch_issue_gate_hazards (p : prec) (ctx : Z) (gs ls : list Z)
    (transA : cb_transpose) (M N : Z)
    (A : array gpudata) (offA : array Z) (lda : Z)
    (x : array gpudata) (offX : array Z) (incX : Z)
    (y : array gpudata) (offY : array Z) (incY : Z)
    (bc : Z) (e : env) (st : state) :
  exists evs r,
    appends (gemvBatch_issue p ctx gs ls transA M N A offA lda x offX incX
               y offY incY bc) e st evs r /\
    gate_depth evs = (if has_alloc_fail evs then 1 else 0) /\
    (allocator_reports e ->
     (r = Val GA_NO_ERROR /\
      waits evs = flat_map (fun i => [(A i, CUDA_WAIT_READ); (x i, CUDA_WAIT_READ);
                                      (y i, CUDA_WAIT_ALL)]) (seq 0 (Z.to_nat bc)) /\
      records evs = waits evs)
     \/ failed r).
Proof.
  unfold appends, gemvBatch_issue.
  cbv [bind cuda_enter cuda_exit emit ret return_ alloc_pointer_arrays buffer_alloc
       buffer_release GpuKernel_call ga_call].
  cbn [fst snd trace pointer_mode].
  use_gate_loop (waits_gate ctx A x y CUDA_WAIT_READ CUDA_WAIT_READ CUDA_WAIT_ALL).
  2: { path_end. split; [measure; reflexivity | intros _; right; eexists; eauto]. }
  split_alloc; cbn [fst snd trace pointer_mode].
  2: { path_end. split; [measure; reflexivity|].
       intros Hrep; right; eexists; split; eauto. intros ->. eapply Hrep; eassumption. }
  split_alloc; cbn [fst snd trace pointer_mode].
  2: { path_end. split; [measure; reflexivity|].
       intros Hrep; right; eexists; split; eauto. intros ->. eapply Hrep; eassumption. }
  split_alloc; cbn [fst snd trace pointer_mode].
  2: { path_end. split; [measure; reflexivity|].
       intros Hrep; right; eexists; split; eauto. intros ->. eapply Hrep; eassumption. }
  split_answer; cbn [fst snd trace pointer_mode].
  2: { path_end. split; [measure; reflexivity|].
       intros _; right; apply failed_ga; assumption. }
  use_gate_loop (records_gate ctx A x y CUDA_WAIT_READ CUDA_WAIT_READ CUDA_WAIT_ALL).
  2: { path_end. split; [measure; reflexivity | intros _; right; eexists; eauto]. }
  path_end. split; [measure; reflexivity|].
  intros _. left. split; [reflexivity|].
  split; hazards_of_loops; reflexivity.
Qed.

Lemma gerBatch_issue_gate_hazards (p : prec) (kern : kernel) (ctx : Z) (gs ls : list Z)
    (M N : Z) (alpha : float)
    (x : array gpudata) (offX : array Z) (incX : Z)
    (y : array gpudata) (offY : array Z) (incY : Z)
    (A : array gpudata) (offA : array Z) (lda : Z)
    (bc : Z) (e : env) (st : state) :
  exists evs r,
    appends (gerBatch_issue p kern ctx gs ls M N alpha x offX incX y offY incY
               A offA lda bc) e st evs r /\
    gate_depth evs = (if has_alloc_fail evs then 1 else 0) /\
    (allocator_reports e ->
     (r = Val GA_NO_ERROR /\
      waits evs = flat_map (fun i => [(A i, CUDA_WAIT_ALL); (x i, CUDA_WAIT_READ);
                                      (y i, CUDA_WAIT_READ)]) (seq 0 (Z.to_nat bc)) /\
      records evs = flat_map (fun i => [(A i, CUDA_WAIT_READ); (x i, CUDA_WAIT_READ);
                                        (y i, CUDA_WAIT_ALL)]) (seq 0 (Z.to_nat bc)))
     \/ failed r).
Proof.
  unfold appends, gerBatch_issue.
  cbv [bind cuda_enter cuda_exit emit ret return_ alloc_pointer_arrays buffer_alloc
       buffer_release GpuKernel_call ga_call].
  cbn [fst snd trace pointer_mode].
  use_gate_loop (waits_gate ctx A x y CUDA_WAIT_ALL CUDA_WAIT_READ CUDA_WAIT_READ).
  2: { path_end. split; [measure; reflexivity | intros _; right; eexists; eauto]. }
  split_alloc; cbn [fst snd trace pointer_mode].
  2: { path_end. split; [measure; reflexivity|].
       intros Hrep; right; eexists; split; eauto. intros ->. eapply Hrep; eassumption. }
  split_alloc; cbn [fst snd trace pointer_mode].
  2: { path_end. split; [measure; reflexivity|].
       intros Hrep; right; eexists; split; eauto. intros ->. eapply Hrep; eassumption. }
  split_alloc; cbn [fst snd trace pointer_mode].
  2: { path_end. split; [measure; reflexivity|].
       intros Hrep; right; eexists; split; eauto. intros ->. eapply Hrep; eassumption. }
  split_answer; cbn [fst snd trace pointer_mode].
  2: { path_end. split; [measure; reflexivity|].
       intros _; right; apply failed_ga; assumption. }
  use_gate_loop (records_gate ctx A x y CUDA_WAIT_READ CUDA_WAIT_READ CUDA_WAIT_ALL).
  2: { path_end. split; [measure; reflexivity | intros _; right; eexists; eauto]. }
  path_end. split; [measure; reflexivity|].
  intros _. left. split; [reflexivity|].
  split; hazards_of_loops; reflexivity.
Qed.

(** [sgemmBatch] and [dgemmBatch] leave the critical section on every
    path, whatever the external calls answer. *)
Theorem gemmBatch_closes_gate (p : prec) (order : cb_order) (tA tB : cb_transpose)
    (M N K : Z) (alpha : float) (A : array gpudata) (offA : array Z) (lda : Z)
    (B : array gpudata) (offB : array Z) (ldb : Z) (beta : float)
    (C : array gpudata) (offC : array Z) (ldc : Z) (bc : Z) (e : env) (st : state) :
  gate_depth (events_of (gemmBatch p order tA tB M N K alpha A offA lda B offB ldb
                           beta C offC ldc bc) e st) = 0.
Proof.
  unfold gemmBatch. cbv zeta.
  destruct (gemm_sizes_large M N K lda ldb ldc);
    [rewrite events_of_return; reflexivity|].
  destruct order;
    match goal with
    | |- context [gemmBatch_issue ?p ?c ?ta ?tb ?M ?N ?K ?al ?A ?oA ?lda ?B ?oB ?ldb ?be
                    ?C ?oC ?ldc ?bc] =>
        destruct (gemmBatch_issue_gate_hazards p c ta tb M N K al A oA lda B oB ldb be
                    C oC ldc bc e st) as (evs & r & H & Hg & _)
    end;
    rewrite (appends_events_of _ _ _ _ _ H); exact Hg.
Qed.

(** The batched gemv and ger return with the critical section entered
    exactly when an allocation of the arrays of operand pointers failed;
    on every other path they have left it. *)
Theorem batched_vector_gate :
  (forall p order tA M N alpha A offA lda x offX incX beta y offY incY bc flags e st,
     let evs := events_of (gemvBatch p order tA M N alpha A offA lda x offX incX beta
                             y offY incY bc flags) e st in
     gate_depth evs = if has_alloc_fail evs then 1 else 0) /\
  (forall p kern order M N alpha x offX incX y offY incY A offA lda bc flags e st,
     let evs := events_of (gerBatch p kern order M N alpha x offX incX y offY incY
                             A offA lda bc flags) e st in
     gate_depth evs = if has_alloc_fail evs then 1 else 0).
Proof.
  split; intros; subst evs.
  - unfold gemvBatch. cbv zeta.
    destruct (negb (flags =? 0)); [rewrite events_of_return; reflexivity|].
    destruct (negb (PrimFloat.eqb alpha 1) || negb (PrimFloat.eqb beta 1));
      [rewrite events_of_return; reflexivity|].
    destruct (gemvBatch_shape M bc) as [[gs ls]|];
      [|rewrite events_of_stop; reflexivity].
    destruct order;
      match goal with
      | |- context [gemvBatch_issue ?p ?c ?gs ?ls ?t ?M ?N ?A ?oA ?lda ?x ?oX ?iX ?y ?oY ?iY ?bc] =>
          destruct (gemvBatch_issue_gate_hazards p c gs ls t M N A oA lda x oX iX y oY iY
                      bc e st) as (evs & r & H & Hg & _)
      end;
      rewrite (appends_events_of _ _ _ _ _ H); exact Hg.
  - unfold gerBatch. cbv zeta.
    destruct (negb (flags =? 0)); [rewrite events_of_return; reflexivity|].
    destruct (gerBatch_shape M N incX bc) as [code|[gs ls]];
      [rewrite events_of_return; reflexivity|].
    destruct order;
      match goal with
      | |- context [gerBatch_issue ?p ?k ?c ?gs ?ls ?M ?N ?al ?x ?oX ?iX ?y ?oY ?iY ?A ?oA ?lda ?bc] =>
          destruct (gerBatch_issue_gate_hazards p k c gs ls M N al x oX iX y oY iY A oA
                      lda bc e st) as (evs & r & H & Hg & _)
      end;
      rewrite (appends_events_of _ _ _ _ _ H); exact Hg.
Qed.

Lemma succeeded_not_failed (body : comp ga_error) (e : env) (st : state)
    (evs : list event) (r : res ga_error) :
  appends body e st evs r ->
  outcome_of body e st = Returned GA_NO_ERROR ->
  failed r -> False.
Proof.
  intros H Hout (c & -> & Hc).
  rewrite (appends_outcome_of _ _ _ _ _ H) in Hout. congruence.
Qed.

(** A successful [sgemmBatch]/[dgemmBatch] has waited for every item's
    operands, READ for the two sources and ALL for [C], and has recorded
    each of them with the mode it waited for, in the order of the items. *)
Theorem gemmBatch_hazards (p : prec) (order : cb_order) (tA tB : cb_transpose)
    (M N K : Z) (alpha : float) (A : array gpudata) (offA : array Z) (lda : Z)
    (B : array gpudata) (offB : array Z) (ldb : Z) (beta : float)
    (C : array gpudata) (offC : array Z) (ldc : Z) (bc : Z) (e : env) (st : state) :
  allocator_reports e ->
  outcome_of (gemmBatch p order tA tB M N K alpha A offA lda B offB ldb beta
                C offC ldc bc) e st = Returned GA_NO_ERROR ->
  let evs := events_of (gemmBatch p order tA tB M N K alpha A offA lda B offB ldb
                          beta C offC ldc bc) e st in
  let '(A', B') := swapped order A B in
  waits evs = flat_map (fun i => [(A' i, CUDA_WAIT_READ); (B' i, CUDA_WAIT_READ);
                                  (C i, CUDA_WAIT_ALL)]) (seq 0 (Z.to_nat bc)) /\
  records evs = waits evs.
Proof.
  intros Hrep. unfold gemmBatch. cbv zeta.
  destruct (gemm_sizes_large M N K lda ldb ldc);
    [unfold outcome_of, call, return_; simpl; discriminate|].
  destruct order; cbn [swapped]; intros Hout;
    match goal with
    | |- context [gemmBatch_issue ?p ?c ?ta ?tb ?M ?N ?K ?al ?A ?oA ?lda ?B ?oB ?ldb ?be
                    ?C ?oC ?ldc ?bc] =>
        destruct (gemmBatch_issue_gate_hazards p c ta tb M N K al A oA lda B oB ldb be
                    C oC ldc bc e st) as (evs & r & H & _ & Hr)
    end;
    rewrite (appends_events_of _ _ _ _ _ H);
    (destruct (Hr Hrep) as [(_ & Hw & Hrec) | Hf];
     [auto | exfalso; eapply succeeded_not_failed; eassumption]).
Qed.

Lemma gemmBatch_hazards_witness :
  records (events_of (sgemmBatch cb_c cb_no_trans cb_no_trans 2 2 2 1
                        (bufs 10) offs 2 (bufs 20) offs 2 0 (bufs 30) offs 2 2)
             (ok_env false) st0) =
  [(buf 20, CUDA_WAIT_READ); (buf 10, CUDA_WAIT_READ); (buf 30, CUDA_WAIT_ALL);
   (buf 21, CUDA_WAIT_READ); (buf 11, CUDA_WAIT_READ); (buf 31, CUDA_WAIT_ALL)].
Proof.
  destruct (gemmBatch_hazards F32 cb_c cb_no_trans cb_no_trans 2 2 2 1
              (bufs 10) offs 2 (bufs 20) offs 2 0 (bufs 30) offs 2 2 (ok_env false) st0)
    as [Hw Hr].
  - intros n. simpl. discriminate.
  - vm_compute. reflexivity.
  - unfold sgemmBatch. rewrite Hr, Hw. reflexivity.
Defined.

(** A successful [sgemvBatch]/[dgemvBatch] has waited for every item's
    operands, READ for [A] and [x] and ALL for [y], and has recorded each
    of them with the mode it waited for. *)
Theorem gemvBatch_hazards (p : prec) (order : cb_order) (tA : cb_transpose)
    (M N : Z) (alpha : float) (A : array gpudata) (offA : array Z) (lda : Z)
    (x : array gpudata) (offX : array Z) (incX : Z) (beta : float)
    (y : array gpudata) (offY : array Z) (incY : Z) (bc flags : Z)
    (e : env) (st : state) :
  allocator_reports e ->
  outcome_of (gemvBatch p order tA M N alpha A offA lda x offX incX beta
                y offY incY bc flags) e st = Returned GA_NO_ERROR ->
  let evs := events_of (gemvBatch p order tA M N alpha A offA lda x offX incX beta
                          y offY incY bc flags) e st in
  waits evs = flat_map (fun i => [(A i, CUDA_WAIT_READ); (x i, CUDA_WAIT_READ);
                                  (y i, CUDA_WAIT_ALL)]) (seq 0 (Z.to_nat bc)) /\
  records evs = waits evs.
Proof.
  intros Hrep. unfold gemvBatch. cbv zeta.
  destruct (negb (flags =? 0));
    [unfold outcome_of, call, return_; simpl; discriminate|].
  destruct (negb (PrimFloat.eqb alpha 1) || negb (PrimFloat.eqb beta 1));
    [unfold outcome_of, call, return_; simpl; discriminate|].
  destruct (gemvBatch_shape M bc) as [[gs ls]|];
    [|unfold outcome_of, call, stop; simpl; discriminate].
  destruct order; intros Hout;
    match goal with
    | |- context [gemvBatch_issue ?p ?c ?gs ?ls ?t ?M ?N ?A ?oA ?lda ?x ?oX ?iX ?y ?oY ?iY ?bc] =>
        destruct (gemvBatch_issue_gate_hazards p c gs ls t M N A oA lda x oX iX y oY iY
                    bc e st) as (evs & r & H & _ & Hr)
    end;
    rewrite (appends_events_of _ _ _ _ _ H);
    (destruct (Hr Hrep) as [(_ & Hw & Hrec) | Hf];
     [auto | exfalso; eapply succeeded_not_failed; eassumption]).
Qed.

Lemma gemvBatch_hazards_witness :
  records (events_of (sgemvBatch cb_fortran cb_no_trans 4 4 1 (bufs 10) offs 4
                        (bufs 20) offs 1 1 (bufs 30) offs 1 2 0) (ok_env false) st0) =
  [(buf 10, CUDA_WAIT_READ); (buf 20, CUDA_WAIT_READ); (buf 30, CUDA_WAIT_ALL);
   (buf 11, CUDA_WAIT_READ); (buf 21, CUDA_WAIT_READ); (buf 31, CUDA_WAIT_ALL)].
Proof.
  destruct (gemvBatch_hazards F32 cb_fortran cb_no_trans 4 4 1 (bufs 10) offs 4
              (bufs 20) offs 1 1 (bufs 30) offs 1 2 0 (ok_env false) st0) as [Hw Hr].
  - intros n. simpl. discriminate.
  - vm_compute. reflexivity.
  - unfold sgemvBatch. rewrite Hr, Hw. reflexivity.
Defined.

Lemma gerBatch_shape_error (M N incX bc : Z) (code : ga_error) :
  gerBatch_shape M N incX bc = inl code -> code = GA_VALUE_ERROR.
Proof.
  unfold gerBatch_shape.
  repeat match goal with
         | |- context [if ?b then _ else _] => destruct b
         end;
  intros H; inversion H; reflexivity.
Qed.

(** A successful [sgerBatch]/[dgerBatch] has waited for every item's [A]
    with ALL and for its two vectors with READ, and has recorded [A] with
    READ, the first vector with READ and the second vector with ALL. *)
Theorem gerBatch_hazards (p : prec) (kern : kernel) (order : cb_order)
    (M N : Z) (alpha : float)
    (x : array gpudata) (offX : array Z) (incX : Z)
    (y : array gpudata) (offY : array Z) (incY : Z)
    (A : array gpudata) (offA : array Z) (lda : Z) (bc flags : Z)
    (e : env) (st : state) :
  allocator_reports e ->
  outcome_of (gerBatch p kern order M N alpha x offX incX y offY incY A offA lda
                bc flags) e st = Returned GA_NO_ERROR ->
  let evs := events_of (gerBatch p kern order M N alpha x offX incX y offY incY
                          A offA lda bc flags) e st in
  let '(x', y') := swapped order x y in
  waits evs = flat_map (fun i => [(A i, CUDA_WAIT_ALL); (x' i, CUDA_WAIT_READ);
                                  (y' i, CUDA_WAIT_READ)]) (seq 0 (Z.to_nat bc)) /\
  records evs = flat_map (fun i => [(A i, CUDA_WAIT_READ); (x' i, CUDA_WAIT_READ);
                                    (y' i, CUDA_WAIT_ALL)]) (seq 0 (Z.to_nat bc)).
Proof.
  intros Hrep. unfold gerBatch. cbv zeta.
  destruct (negb (flags =? 0));
    [unfold outcome_of, call, return_; simpl; discriminate|].
  destruct (gerBatch_shape M N incX bc) as [code|[gs ls]] eqn:Hshape.
  { apply gerBatch_shape_error in Hshape. subst code.
    unfold outcome_of, call, return_. simpl. discriminate. }
  destruct order; cbn [swapped]; intros Hout;
    match goal with
    | |- context [gerBatch_issue ?p ?k ?c ?gs ?ls ?M ?N ?al ?x ?oX ?iX ?y ?oY ?iY ?A ?oA ?lda ?bc] =>
        destruct (gerBatch_issue_gate_hazards p k c gs ls M N al x oX iX y oY iY A oA
                    lda bc e st) as (evs & r & H & _ & Hr)
    end;
    rewrite (appends_events_of _ _ _ _ _ H);
    (destruct (Hr Hrep) as [(_ & Hw & Hrec) | Hf];
     [auto | exfalso; eapply succeeded_not_failed; eassumption]).
Qed.

Lemma gerBatch_hazards_witness :
  waits (events_of (sgerBatch cb_c 2 4 1 (bufs 10) offs 1 (bufs 20) offs 1
                      (bufs 30) offs 4 1 0) (ok_env false) st0) =
    [(buf 30, CUDA_WAIT_ALL); (buf 20, CUDA_WAIT_READ); (buf 10, CUDA_WAIT_READ)] /\
  records (events_of (sgerBatch cb_c 2 4 1 (bufs 10) offs 1 (bufs 20) offs 1
                        (bufs 30) offs 4 1 0) (ok_env false) st0) =
    [(buf 30, CUDA_WAIT_READ); (buf 20, CUDA_WAIT_READ); (buf 10, CUDA_WAIT_ALL)].
Proof.
  apply (gerBatch_hazards F32 sgerBH_gen_small cb_c 2 4 1 (bufs 10) offs 1 (bufs 20) offs 1
           (bufs 30) offs 4 1 0 (ok_env false) st0).
  - intros n. simpl. discriminate.
  - vm_compute. reflexivity.
Defined.

(* ================================================================== *)
(** ** The launch shapes of the batched kernels *)

Lemma ceil_div_bounds (a d : Z) :
  0 < d -> 0 <= a -> a <= (a + (d - 1)) / d * d /\ (a + (d - 1)) / d * d < a + d.
Proof.
  intros Hd Ha.
  pose proof (Z.div_mod (a + (d - 1)) d ltac:(lia)) as Hdm.
  pose proof (Z.mod_pos_bound (a + (d - 1)) d Hd) as Hm.
  rewrite (Z.mul_comm _ d). lia.
Qed.

Lemma mul_le_mono4 (a b A B : Z) :
  0 <= a <= A -> 0 <= b <= B -> 0 <= a * b <= A * B.
Proof. intros Ha Hb. split; [nia|]. apply Z.mul_le_mono_nonneg; lia. Qed.

(** The blocks of [w] lanes that cover a dimension of [n] elements. *)
Lemma split_dim_bounds (n w : Z) :
  1 < w < 1000 -> 1 <= n -> n < 2 ^ 63 ->
  1 <= size_wrap (n + (w - 1)) / w <= n /\
  n <= size_wrap (n + (w - 1)) / w * w.
Proof.
  intros Hw Hn Hn'.
  rewrite size_wrap_small by lia.
  destruct (ceil_div_bounds n w ltac:(lia) ltac:(lia)) as [H1 H2].
  split; [|exact H1]. split; nia.
Qed.

(** The last step of the shape: the grids of the batch axis. *)
Lemma batch_axis_bounds (g bc : Z) :
  1 <= g -> 1 <= bc -> g * bc < 2 ^ 63 ->
  if size_wrap (size_wrap g * bc) >? 65535 then
    if size_wrap g >? 65535 then 65535 < g
    else 1 <= 65535 / size_wrap g <= bc /\ g * (65535 / size_wrap g) <= 65535
  else g * bc <= 65535.
Proof.
  intros Hg Hbc Hp.
  rewrite (size_wrap_small g) by nia.
  rewrite size_wrap_small by nia.
  destruct (g * bc >? 65535) eqn:E1.
  - destruct (g >? 65535) eqn:E2.
    + apply Z.gtb_lt in E2. lia.
    + apply Z.gtb_lt in E1. rewrite Z.gtb_ltb in E2. apply Z.ltb_ge in E2.
      pose proof (gemvBatch_clamp_positive g ltac:(lia)) as Hc.
      pose proof (Z.mul_div_le 65535 g ltac:(lia)) as Hm.
      split; [split; [exact Hc|]|exact Hm].
      apply Z.div_le_upper_bound; [lia|]. nia.
  - rewrite Z.gtb_ltb in E1. apply Z.ltb_ge in E1. exact E1.
Qed.

(** The launch shape of the batched rank-1 update.  For a batch of
    at least one item with matrices of at least one row and column, and
    fewer than 2^63 elements in all: either the shape is refused with
    [GA_VALUE_ERROR], and then the matrix has more than 65535 elements;
    or a block has at most 512 threads, the blocks of the first two grid
    axes cover the rows and the columns of the matrix, the third axis has
    between 1 and [batchCount] grids, and the grid has at most 65535
    blocks in all. *)
Theorem gerBatch_shape_sound (M N incX bc : Z) :
  1 <= M -> 1 <= N -> 1 <= bc -> M * N * bc < 2 ^ 63 ->
  match gerBatch_shape M N incX bc with
  | inl code => code = GA_VALUE_ERROR /\ 65535 < M * N
  | inr (gs, ls) =>
      exists g0 g1 g2 l0 l1,
        gs = [g0; g1; g2] /\ ls = [l0; l1; 1] /\
        1 <= l0 /\ 1 <= l1 /\ l0 * l1 <= 512 /\
        M <= g0 * l0 /\ N <= g1 * l1 /\
        1 <= g0 /\ 1 <= g1 /\ 1 <= g2 <= bc /\
        g0 * g1 * g2 <= 65535
  end.
Proof.
  intros HM HN Hbc Hp.
  assert (HMN : M * N < 2 ^ 63) by nia.
  assert (HM' : M < 2 ^ 63) by nia.
  assert (HN' : N < 2 ^ 63) by nia.
  pose proof (split_dim_bounds M 32 ltac:(lia) HM HM') as [HgM32 HcM32].
  pose proof (split_dim_bounds M 16 ltac:(lia) HM HM') as [HgM16 HcM16].
  pose proof (split_dim_bounds N 32 ltac:(lia) HN HN') as [HgN32 HcN32].
  pose proof (split_dim_bounds N 16 ltac:(lia) HN HN') as [HgN16 HcN16].
  cbn [Z.sub Z.add Z.opp Pos.pred_double Z.pos_sub Pos.add Pos.succ] in *.
  unfold gerBatch_shape.
  set (gM32 := size_wrap (M + 31) / 32) in *.
  set (gM16 := size_wrap (M + 15) / 16) in *.
  set (gN32 := size_wrap (N + 31) / 32) in *.
  set (gN16 := size_wrap (N + 15) / 16) in *.
  assert (Hfin : forall g0 g1 l0 l1,
    1 <= g0 <= M -> 1 <= g1 <= N -> 1 <= l0 -> 1 <= l1 -> l0 * l1 <= 512 ->
    M <= g0 * l0 -> N <= g1 * l1 ->
    match
      (if size_wrap (size_wrap (g0 * g1) * bc) >? 65535 then
         if size_wrap (g0 * g1) >? 65535 then inl GA_VALUE_ERROR
         else inr ([g0; g1; 65535 / size_wrap (g0 * g1)], [l0; l1; 1])
       else inr ([g0; g1; bc], [l0; l1; 1]))
    with
    | inl code => code = GA_VALUE_ERROR /\ 65535 < M * N
    | inr (gs, ls) =>
        exists g0 g1 g2 l0 l1,
          gs = [g0; g1; g2] /\ ls = [l0; l1; 1] /\
          1 <= l0 /\ 1 <= l1 /\ l0 * l1 <= 512 /\
          M <= g0 * l0 /\ N <= g1 * l1 /\
          1 <= g0 /\ 1 <= g1 /\ 1 <= g2 <= bc /\
          g0 * g1 * g2 <= 65535
    end).
  { intros g0 g1 l0 l1 Hg0 Hg1 Hl0 Hl1 Hl Hc0 Hc1.
    pose proof (mul_le_mono4 g0 g1 M N ltac:(lia) ltac:(lia)) as Hg.
    assert (Hgb : g0 * g1 * bc < 2 ^ 63).
    { apply Z.le_lt_trans with (M * N * bc); [|exact Hp].
      apply Z.mul_le_mono_nonneg_r; lia. }
    pose proof (batch_axis_bounds (g0 * g1) bc ltac:(nia) Hbc Hgb) as Hb.
    destruct (size_wrap (size_wrap (g0 * g1) * bc) >? 65535).
    - destruct (size_wrap (g0 * g1) >? 65535).
      + split; [reflexivity|lia].
      + exists g0, g1, (65535 / size_wrap (g0 * g1)), l0, l1.
        repeat split; try lia; tauto.
    - exists g0, g1, bc, l0, l1. repeat split; lia. }
  destruct (incX =? 1).
  - destruct (M >? 32) eqn:E1.
    + apply Z.gtb_lt in E1.
      rewrite (size_wrap_small (32 * N)) by lia.
      destruct (32 * N >? 512) eqn:E2.
      * apply Hfin; lia.
      * rewrite Z.gtb_ltb in E2. apply Z.ltb_ge in E2. apply Hfin; lia.
    + rewrite Z.gtb_ltb in E1. apply Z.ltb_ge in E1.
      rewrite (size_wrap_small (M * N)) by nia.
      destruct (M * N >? 512) eqn:E2.
      * apply Hfin; lia.
      * rewrite Z.gtb_ltb in E2. apply Z.ltb_ge in E2. apply Hfin; lia.
  - destruct (N >? 32) eqn:E1.
    + apply Z.gtb_lt in E1.
      rewrite (size_wrap_small (M * 32)) by lia.
      destruct (M * 32 >? 512) eqn:E2.
      * apply Hfin; lia.
      * rewrite Z.gtb_ltb in E2. apply Z.ltb_ge in E2. apply Hfin; lia.
    + rewrite Z.gtb_ltb in E1. apply Z.ltb_ge in E1.
      rewrite (size_wrap_small (M * N)) by nia.
      destruct (M * N >? 512) eqn:E2.
      * apply Hfin; lia.
      * rewrite Z.gtb_ltb in E2. apply Z.ltb_ge in E2. apply Hfin; lia.
Qed.

Lemma gerBatch_shape_sound_witness :
  match gerBatch_shape 100 40 1 3 with
  | inl code => code = GA_VALUE_ERROR /\ 65535 < 100 * 40
  | inr (gs, ls) =>
      exists g0 g1 g2 l0 l1,
        gs = [g0; g1; g2] /\ ls = [l0; l1; 1] /\
        1 <= l0 /\ 1 <= l1 /\ l0 * l1 <= 512 /\
        100 <= g0 * l0 /\ 40 <= g1 * l1 /\
        1 <= g0 /\ 1 <= g1 /\ 1 <= g2 <= 3 /\
        g0 * g1 * g2 <= 65535
  end.
Proof. apply (gerBatch_shape_sound 100 40 1 3); lia. Defined.

Lemma clamp_bounds (g0 g1 : Z) :
  1 <= g0 <= 65535 -> 1 <= g1 -> g0 * g1 < 2 ^ 64 ->
  let g1' := if size_wrap (g0 * g1) / 65535 =? 0 then g1 else 65535 / g0 in
  1 <= g1' <= g1 /\ g0 * g1' <= 65535.
Proof.
  intros Hg0 Hg1 Hp. cbv zeta.
  rewrite size_wrap_small by nia.
  destruct (g0 * g1 / 65535 =? 0) eqn:E.
  - apply Z.eqb_eq in E.
    apply Z.div_small_iff in E; [|lia]. lia.
  - apply Z.eqb_neq in E.
    assert (Hge : 65535 <= g0 * g1).
    { destruct (Z_lt_le_dec (g0 * g1) 65535) as [Hlt|Hle]; [|exact Hle].
      exfalso. apply E. apply Z.div_small. nia. }
    pose proof (gemvBatch_clamp_positive g0 Hg0) as Hc.
    pose proof (Z.mul_div_le 65535 g0 ltac:(lia)) as Hm.
    split; [split; [exact Hc|]|exact Hm].
    apply Z.div_le_upper_bound; [lia|]. lia.
Qed.

(** The launch shape of the batched matrix-vector product.  For
    matrices of 1 to 65535 * 512 rows and a batch of 1 to 2^32 - 1
    items a shape is produced: a block has at most 512 threads, the
    blocks of the first grid axis cover the rows, the second axis has at
    least one grid and no more than the batch needs, and the grid has at
    most 65535 blocks in all. *)
Theorem gemvBatch_shape_sound (M bc : Z) :
  1 <= M <= 65535 * 512 -> 1 <= bc < 2 ^ 32 ->
  exists g0 g1 l0 l1,
    gemvBatch_shape M bc = Some ([g0; g1], [l0; l1]) /\
    1 <= l0 /\ 1 <= l1 <= bc /\ l0 * l1 <= 512 /\
    M <= g0 * l0 /\ 1 <= g0 /\
    1 <= g1 /\ g1 * l1 < bc + l1 /\
    g0 * g1 <= 65535.
Proof.
  intros HM Hbc.
  unfold gemvBatch_shape.
  destruct (M <? 512) eqn:EM.
  - apply Z.ltb_lt in EM.
    replace (M + 32 - 1) with (M + (32 - 1)) by lia.
    pose proof (split_dim_bounds M 32 ltac:(lia) ltac:(lia) ltac:(lia)) as [Hg Hc].
    assert (Hg0 : size_wrap (M + (32 - 1)) / 32 <= 65535).
    { rewrite size_wrap_small by lia.
      apply Z.div_le_upper_bound; lia. }
    set (g0 := size_wrap (M + (32 - 1)) / 32) in *.
    destruct (bc >? 16) eqn:E.
    + apply Z.gtb_lt in E. cbn [Z.eqb].
      replace (bc + 16 - 1) with (bc + (16 - 1)) by lia.
      pose proof (split_dim_bounds bc 16 ltac:(lia) ltac:(lia) ltac:(lia))
        as [Hg1 Hc1].
      assert (Hu : size_wrap (bc + (16 - 1)) / 16 * 16 < bc + 16).
      { rewrite size_wrap_small by lia.
        apply (ceil_div_bounds bc 16); lia. }
      set (g1 := size_wrap (bc + (16 - 1)) / 16) in *.
      pose proof (clamp_bounds g0 g1 ltac:(lia) ltac:(lia) ltac:(nia)) as Hk.
      cbv zeta in Hk.
      eexists _, _, _, _. split; [reflexivity|].
      repeat split; lia.
    + rewrite Z.gtb_ltb in E. apply Z.ltb_ge in E.
      destruct (bc =? 0) eqn:E0; [apply Z.eqb_eq in E0; lia|].
      assert (H1 : size_wrap (bc + bc - 1) / bc = 1).
      { rewrite size_wrap_small by lia.
        symmetry. apply (Z.div_unique _ _ _ (bc - 1)); lia. }
      rewrite H1.
      pose proof (clamp_bounds g0 1 ltac:(lia) ltac:(lia) ltac:(lia)) as Hk.
      cbv zeta in Hk.
      eexists _, _, _, _. split; [reflexivity|].
      set (g1 := if size_wrap (g0 * 1) / 65535 =? 0 then 1 else 65535 / g0) in *.
      repeat split; try lia. nia.
  - apply Z.ltb_ge in EM. cbn [Z.eqb].
    replace (M + 512 - 1) with (M + (512 - 1)) by lia.
    pose proof (split_dim_bounds M 512 ltac:(lia) ltac:(lia) ltac:(lia)) as [Hg Hc].
    assert (Hg0 : size_wrap (M + (512 - 1)) / 512 <= 65535).
    { rewrite size_wrap_small by lia.
      apply Z.lt_succ_r. apply Z.div_lt_upper_bound; lia. }
    set (g0 := size_wrap (M + (512 - 1)) / 512) in *.
    replace (bc + 1 - 1) with bc by lia.
    rewrite (size_wrap_small bc) by lia.
    rewrite Z.div_1_r.
    pose proof (clamp_bounds g0 bc ltac:(lia) ltac:(lia) ltac:(nia)) as Hk.
    cbv zeta in Hk.
    eexists _, _, _, _. split; [reflexivity|].
    repeat split; lia.
Qed.

Lemma gemvBatch_shape_sound_witness :
  exists g0 g1 l0 l1,
    gemvBatch_shape 1000 40 = Some ([g0; g1], [l0; l1]) /\
    1 <= l0 /\ 1 <= l1 <= 40 /\ l0 * l1 <= 512 /\
    1000 <= g0 * l0 /\ 1 <= g0 /\
    1 <= g1 /\ g1 * l1 < 40 + l1 /\
    g0 * g1 <= 65535.
Proof. apply (gemvBatch_shape_sound 1000 40); lia. Defined.

(* ================================================================== *)
(** ** Further properties of the collectives *)

(** The outcome of a path once its trace is known. *)
Ltac settle_path :=
  cbn [fst snd trace pointer_mode];
  rewrite <- ?app_assoc in *;
  first [rewrite skipn_app_length | rewrite skipn_all];
  let code := fresh "code" in
  let H := fresh "H" in
  intros code H;
  first
    [ discriminate H
    | split;
      [ reflexivity
      | intros ->;
        first [ not_success
              | discriminate H
              | split; [reflexivity|]; split; [reflexivity|];
                eexists; split; reflexivity ] ] ].

(** Every path from [cuda_enter] on. *)
Ltac walk_paths :=
  run_prims;
  repeat (split_answer; cbn [fst snd trace pointer_mode]);
  settle_path.

(** A collective that returns has left the critical section, and one that
    returns [GA_NO_ERROR] is, in this order: the critical section entered,
    the hazards of its operands waited for, one call into NCCL, the same
    hazards recorded, the critical section left.  The hazards are the
    source with READ and the destination with WRITE (for [reduce], on the
    root only); the buffer of [broadcast] with READ on every rank. *)
Theorem collective_gate_and_hazards (c : collective) (comm : gpucomm)
    (e : env) (st : state) :
  let evs := events_of (run_collective c comm) e st in
  forall code,
    outcome_of (run_collective c comm) e st = Returned code ->
    gate_depth evs = 0 /\
    (code = GA_NO_ERROR ->
     waits evs = hazard_operands c comm /\ records evs = waits evs /\
     exists native,
       evs = tracked (comm_ctx comm) (hazard_operands c comm) native /\
       is_nccl_call native = true).
Proof.
  cbv zeta. unfold outcome_of, events_of, call.
  destruct c; cbn [run_collective hazard_operands].
  - (* reduce *)
    unfold reduce, get_rank, rank_of.
    destruct (nccl_user_rank (comm_c comm)) as [[|k] rank]; cbn [fst snd];
      cbv [bind GA_CHECK is_no_error ret return_]; [|settle_path].
    destruct (check_restrictions_cases src offsrc (if rank =? root then dest else None)
                offdest count typecode opcode comm true true e st)
      as (r & Hr & Hc).
    rewrite Hr.
    destruct Hc as [[-> Hn] | [[-> Ha] | [(dt & op & ->) | (dt & op & -> & Hs & Hd)]]];
      [settle_path | settle_path | settle_path |].
    destruct (rank =? root); destruct dest as [d|]; cbv [deref]; walk_paths.
  - (* all_reduce *)
    unfold all_reduce. cbv [bind GA_CHECK is_no_error ret return_].
    destruct (check_restrictions_cases src offsrc (Some dest) offdest count typecode
                opcode comm true true e st) as (r & Hr & Hc).
    rewrite Hr.
    destruct Hc as [[-> Hn] | [[-> Ha] | [(dt & op & ->) | (dt & op & -> & Hs & Hd)]]];
      [settle_path | settle_path | settle_path |].
    walk_paths.
  - (* reduce_scatter *)
    unfold reduce_scatter, get_count.
    destruct (nccl_comm_count (comm_c comm)) as [[|k] ndev]; cbn [fst snd];
      cbv [bind GA_CHECK is_no_error ret return_]; [|settle_path].
    destruct (check_restrictions_cases src offsrc None 0 (int_wrap (count * ndev))
                typecode opcode comm true true e st) as (r & Hr & Hc).
    rewrite Hr.
    destruct Hc as [[-> Hn] | [[-> Ha] | [(dt & op & ->) | (dt & op & -> & Hs & Hd)]]];
      [settle_path | settle_path | settle_path |].
    destruct (negb (g_ctx dest =? comm_ctx comm)); [settle_path|].
    destruct (size_wrap (g_sz dest - offdest) <? op_size_of count typecode);
      [settle_path|].
    cbv [assert_ bind ret]. destruct (NDEBUG e); [walk_paths|].
    destruct (negb (offdest >? g_sz dest)); [walk_paths | settle_path].
  - (* broadcast *)
    unfold broadcast. cbv [bind GA_CHECK is_no_error ret return_].
    destruct (check_restrictions_cases array_ offset None 0 count typecode
                (GA_OP_OTHER 0) comm true false e st) as (r & Hr & Hc).
    rewrite Hr.
    destruct Hc as [[-> Hn] | [[-> Ha] | [(dt & op & ->) | (dt & op & -> & Hs & Hd)]]];
      [settle_path | settle_path | settle_path |].
    walk_paths.
  - (* all_gather *)
    unfold all_gather, get_count. cbv [bind GA_CHECK is_no_error ret return_].
    destruct (check_restrictions_cases src offsrc None 0 count
                typecode (GA_OP_OTHER 0) comm true false e st) as (r & Hr & Hc).
    rewrite Hr.
    destruct Hc as [[-> Hn] | [[-> Ha] | [(dt & op & ->) | (dt & op & -> & Hs & Hd)]]];
      [settle_path | settle_path | settle_path |].
    destruct (negb (g_ctx dest =? comm_ctx comm)); [settle_path|].
    destruct (nccl_comm_count (comm_c comm)) as [[|k] ndev]; cbn [fst snd];
      [|settle_path].
    destruct (size_wrap (g_sz dest - offdest) <?
              op_size_of (int_wrap (ndev * count)) typecode); [settle_path|].
    cbv [assert_ bind ret]. destruct (NDEBUG e); [walk_paths|].
    destruct (negb (offdest >? g_sz dest)); [walk_paths | settle_path].
Qed.

(** all_reduce of 4 floats on rank 1 of 2. *)
Lemma collective_gate_and_hazards_witness :
  exists native,
    events_of (run_collective (AllReduce (buf 1) 0 (buf 2) 0 4 GA_FLOAT GA_SUM) comm1)
      (ok_env false) st0 =
    [EvEnter 7;
     EvWait (buf 1) CUDA_WAIT_READ; EvWait (buf 2) CUDA_WAIT_WRITE;
     native;
     EvRecord (buf 1) CUDA_WAIT_READ; EvRecord (buf 2) CUDA_WAIT_WRITE;
     EvExit 7] /\
    is_nccl_call native = true.
Proof.
  destruct (collective_gate_and_hazards
              (AllReduce (buf 1) 0 (buf 2) 0 4 GA_FLOAT GA_SUM) comm1 (ok_env false) st0
              GA_NO_ERROR) as [_ Hh].
  - vm_compute. reflexivity.
  - destruct (Hh eq_refl) as (_ & _ & native & Ht & Hn).
    exists native. split; [exact Ht | exact Hn].
Defined.

(** What [check_restrictions] answers to a refused code. *)
Lemma check_restrictions_refuses (src : gpudata) (offsrc : Z) (dest : option gpudata)
    (offdest count : Z) (t : typecode_t) (opc : opcode_t) (comm : gpucomm)
    (opf : bool) (e : env) (st : state) :
  g_ctx src <> comm_ctx comm \/
  convert_data_type (CUDA_HAS_HALF e) t = nccl_NUM_TYPES \/
  (opf = true /\ convert_reduce_op opc = nccl_NUM_OPS) ->
  exists dt op,
    check_restrictions src offsrc dest offdest count t opc comm true opf e st =
    (st, Val (GA_VALUE_ERROR, dt, op)).
Proof.
  intros Hbad. unfold check_restrictions.
  destruct (negb (g_ctx src =? comm_ctx comm)) eqn:Ec; [do 2 eexists; reflexivity|].
  destruct (match dest with Some d => negb (g_ctx d =? comm_ctx comm) | None => false end);
    [do 2 eexists; reflexivity|].
  destruct (true && is_NUM_TYPES _) eqn:Et; [do 2 eexists; reflexivity|].
  destruct (opf && is_NUM_OPS _) eqn:Eo; [do 2 eexists; reflexivity|].
  exfalso. destruct Hbad as [Hctx | [Hty | [-> Hop]]].
  - apply negb_false_iff, Z.eqb_eq in Ec. contradiction.
  - rewrite Hty in Et. discriminate.
  - rewrite Hop in Eo. discriminate.
Qed.

(** A collective whose queries on the communicator succeed refuses, with
    [GA_VALUE_ERROR] and the state untouched, a source of another context,
    an element type without a name in NCCL - [GA_HALF] among them in a
    build without [CUDA_HAS_HALF] - and a reduction without a name in
    NCCL. *)
Theorem collective_refuses_codes (c : collective) (comm : gpucomm)
    (e : env) (st : state) :
  queries_ok c comm ->
  refused_codes c comm e ->
  call (run_collective c comm) e st = (st, Returned GA_VALUE_ERROR).
Proof.
  intros Hq Hbad. unfold call.
  assert (Hchk : forall dest offdest count opc (opf : bool),
            opcode_of c = (if opf then Some opc else None) ->
            exists dt op,
              check_restrictions (source_of c) (offset_of c) dest offdest count
                (typecode_of c) opc comm true opf e st =
              (st, Val (GA_VALUE_ERROR, dt, op))).
  { intros dest offdest count opc opf Hopc.
    apply check_restrictions_refuses.
    destruct Hbad as [H | [H | (o & Ho & H)]]; [left; exact H | right; left; exact H |].
    destruct opf.
    - right; right. split; [reflexivity|].
      rewrite Hopc in Ho. injection Ho as ->. exact H.
    - rewrite Hopc in Ho. discriminate Ho. }
  destruct c; cbn [run_collective queries_ok source_of offset_of typecode_of opcode_of] in *.
  - (* reduce *)
    unfold reduce, get_rank.
    destruct (nccl_user_rank (comm_c comm)) as [res rank]. cbn [fst] in Hq. subst res.
    cbv [bind GA_CHECK is_no_error ret].
    destruct (Hchk (if rank =? root then dest else None) offdest count opcode true
                ltac:(reflexivity)) as (dt & op & ->).
    reflexivity.
  - (* all_reduce *)
    unfold all_reduce. cbv [bind GA_CHECK is_no_error ret].
    destruct (Hchk (Some dest) offdest count opcode true ltac:(reflexivity))
      as (dt & op & ->).
    reflexivity.
  - (* reduce_scatter *)
    unfold reduce_scatter, get_count.
    destruct (nccl_comm_count (comm_c comm)) as [res ndev]. cbn [fst] in Hq. subst res.
    cbv [bind GA_CHECK is_no_error ret].
    destruct (Hchk None 0 (int_wrap (count * ndev)) opcode true ltac:(reflexivity))
      as (dt & op & ->).
    reflexivity.
  - (* broadcast *)
    unfold broadcast. cbv [bind GA_CHECK is_no_error ret].
    destruct (Hchk None 0 count (GA_OP_OTHER 0) false ltac:(reflexivity))
      as (dt & op & ->).
    reflexivity.
  - (* all_gather *)
    unfold all_gather. cbv [bind GA_CHECK is_no_error ret].
    destruct (Hchk None 0 count (GA_OP_OTHER 0) false ltac:(reflexivity))
      as (dt & op & ->).
    reflexivity.
Qed.

(** [GA_HALF] in a build without the half type. *)
Lemma collective_refuses_codes_witness :
  call (run_collective (Broadcast (buf 1) 0 4 GA_HALF 0) comm1) no_half_env st0 =
  (st0, Returned GA_VALUE_ERROR).
Proof.
  apply collective_refuses_codes.
  - exact I.
  - right; left. reflexivity.
Defined.

(** With assertions compiled in, by a build that makes the read,
    [check_restrictions] on a NULL destination does not answer
    [GA_NO_ERROR]: its second assertion reads the size of the
    destination. *)
Lemma check_restrictions_null_checked (src : gpudata) (offsrc offdest count : Z)
    (t : typecode_t) (opc : opcode_t) (comm : gpucomm) (dtf opf : bool)
    (e : env) (st : state) :
  NDEBUG e = false ->
  NULL_READ_TRAPS e = true ->
  exists r,
    check_restrictions src offsrc None offdest count t opc comm dtf opf e st = (st, r) /\
    (r = Stop NullDeref \/ r = Stop AssertFailed \/
     exists dt op, r = Val (GA_VALUE_ERROR, dt, op)).
Proof.
  intros Hdbg Htrap. unfold check_restrictions.
  destruct (negb (g_ctx src =? comm_ctx comm));
    [eexists; split; [reflexivity|]; right; right; eauto|].
  destruct (dtf && is_NUM_TYPES _);
    [eexists; split; [reflexivity|]; right; right; eauto|].
  destruct (opf && is_NUM_OPS _);
    [eexists; split; [reflexivity|]; right; right; eauto|].
  destruct (size_wrap (g_sz src - offsrc) <? op_size_of count t);
    [eexists; split; [reflexivity|]; right; right; eauto|].
  cbv [bind assert_ ret deref_unneeded is_null negb andb stop]. rewrite Hdbg, Htrap.
  destruct (offsrc >? g_sz src); eexists; (split; [reflexivity|]); auto.
Qed.

(** In a build with assertions that makes the read of [dest->sz] through
    a NULL [dest] (the unoptimised build), a collective that validates a
    NULL destination - broadcast, reduce_scatter, all_gather, and reduce
    off the root or without a destination - never enters the critical
    section: the state is untouched and the call ends with an error
    status, a failed assertion or the read through the NULL pointer. *)
Theorem null_destination_stops_checked_build (c : collective) (comm : gpucomm)
    (e : env) (st : state) :
  NDEBUG e = false ->
  NULL_READ_TRAPS e = true ->
  validates_null_destination c comm ->
  exists o,
    call (run_collective c comm) e st = (st, o) /\
    In o [Returned GA_COMM_ERROR; Returned GA_VALUE_ERROR; AssertFailed; NullDeref].
Proof.
  intros Hdbg Htrap Hnull. unfold call.
  assert (Hend : forall (count : Z) (opc : opcode_t) (opf : bool)
                        (k : ga_error * ncclDataType_t * ncclRedOp_t -> comp ga_error),
            (forall dt op, k (GA_VALUE_ERROR, dt, op) e st = (st, Stop (Returned GA_VALUE_ERROR))) ->
            exists o,
              match bind (check_restrictions (source_of c) (offset_of c) None 0 count
                            (typecode_of c) opc comm true opf) k e st with
              | (st', Val code) => (st', Returned code)
              | (st', Stop o) => (st', o)
              end = (st, o) /\
              In o [Returned GA_COMM_ERROR; Returned GA_VALUE_ERROR; AssertFailed; NullDeref]).
  { intros count opc opf k Hk. unfold bind.
    destruct (check_restrictions_null_checked (source_of c) (offset_of c) 0 count
                (typecode_of c) opc comm true opf e st Hdbg Htrap)
      as (r & -> & [-> | [-> | (dt & op & ->)]]).
    - eexists; split; [reflexivity|]. cbn; auto.
    - eexists; split; [reflexivity|]. cbn; auto.
    - rewrite Hk. eexists; split; [reflexivity|]. cbn; auto. }
  destruct c; cbn [run_collective validates_null_destination source_of offset_of
                   typecode_of] in *.
  - (* reduce *)
    unfold reduce, get_rank, rank_of in *.
    destruct (nccl_user_rank (comm_c comm)) as [[|k] rank]; cbn [fst snd] in *;
      cbv [bind GA_CHECK is_no_error ret return_];
      [|eexists; split; [reflexivity|]; cbn; auto].
    assert (Hdst : (if rank =? root then dest else None) = None).
    { destruct Hnull as [Hr | ->]; [|destruct (rank =? root); reflexivity].
      apply Z.eqb_neq in Hr. rewrite Hr. reflexivity. }
    rewrite Hdst.
    destruct (check_restrictions_null_checked src offsrc offdest count typecode opcode
                comm true true e st Hdbg Htrap)
      as (r & -> & [-> | [-> | (dt & op & ->)]]);
      eexists; (split; [reflexivity|]); cbn; auto.
  - contradiction.
  - (* reduce_scatter *)
    unfold reduce_scatter, get_count.
    destruct (nccl_comm_count (comm_c comm)) as [[|k] ndev]; cbn [fst snd];
      [|eexists; split; [reflexivity|]; cbn; auto].
    cbv [GA_CHECK is_no_error]. unfold bind at 1. cbv [ret].
    apply Hend. intros dt op. reflexivity.
  - (* broadcast *)
    unfold broadcast. apply Hend. intros dt op. reflexivity.
  - (* all_gather *)
    unfold all_gather. apply Hend. intros dt op. reflexivity.
Qed.

(** broadcast of 4 floats with every operand valid. *)
Lemma null_destination_stops_checked_build_witness :
  exists o,
    call (run_collective (Broadcast (buf 1) 0 4 GA_FLOAT 0) comm1) (ok_env false) st0 =
    (st0, o) /\
    In o [Returned GA_COMM_ERROR; Returned GA_VALUE_ERROR; AssertFailed; NullDeref].
Proof.
  apply null_destination_stops_checked_build.
  - reflexivity.
  - reflexivity.
  - exact I.
Defined.

(* ================================================================== *)
(** * The handle of a context *)

(** ** [setup] and [teardown] *)

(** Unfold the primitives of a straight-line body over the handle. *)
Ltac run_handle :=
  cbv [Handle.bind Handle.ret Handle.return_ Handle.stop Handle.emit
       Handle.ga_call Handle.cublas_call
       Handle.cuda_enter Handle.cuda_exit Handle.cuda_wait Handle.cuda_record
       Handle.GA_CUDA_EXIT_ON_ERROR Handle.CUBLAS_EXIT_ON_ERROR
       Handle.calloc Handle.free Handle.error_sys
       Handle.cublasCreate Handle.cublasSetStream Handle.cublasSetPointerMode
       Handle.cublasDestroy Handle.GpuKernel_init Handle.GpuKernel_clear
       Handle.get_blas_handle Handle.set_blas_handle Handle.handle_of
       Handle.retain Handle.buffer_deinit Handle.ncclCommInitRank
       Handle.ncclCommDestroy Handle.comm_clear
       Handle.e1 Handle.e2 Handle.e3 Handle.e4 Handle.e5 Handle.e6];
  cbn [fst snd Handle.trace Handle.blas_handle].

(** Case analysis on the status the next creating call of [setup]
    answers. *)
Ltac split_status :=
  match goal with
  | |- context [cublas_answer ?o ?n] =>
      let E := fresh "E" in destruct (cublas_answer o n) eqn:E
  | |- context [ga_answer ?o ?n] =>
      let E := fresh "E" in destruct (ga_answer o n) eqn:E
  end;
  cbn [negb cublas_ok is_no_error fst snd Handle.trace Handle.blas_handle].

(** Count the resources of a trace. *)
Ltac account :=
  repeat (cbn [Handle.held_after Handle.release_one Handle.resource_eqb
               Handle.kernel_eqb andb app];
          rewrite ?Z.eqb_refl).

Lemma cuda_events_app (a b : list Handle.event) :
  Handle.cuda_events (a ++ b) = Handle.cuda_events a ++ Handle.cuda_events b.
Proof.
  induction a as [|ev a IH]; simpl; [reflexivity|].
  destruct ev; simpl; rewrite ?IH; reflexivity.
Qed.

Lemma error_cublas_is_error (s : cublasStatus_t) : is_no_error (error_cublas s) = false.
Proof. destruct s; reflexivity. Qed.

(** Every run of [setup] on a context without a handle, as a trace
    appended to the state. *)
Lemma setup_runs (ctx : Z) (e : Handle.env) (st : Handle.state) :
  Handle.blas_handle st ctx = None ->
  Handle.error_sys_answer e <> GA_NO_ERROR ->
  exists evs h' code,
    Handle.call (Handle.setup ctx) e st =
      (Handle.mk_state (Handle.trace st ++ evs) h', Returned code) /\
    gate_depth (Handle.cuda_events evs) = 0 /\
    (forall c, c <> ctx -> h' c = Handle.blas_handle st c) /\
    if is_no_error code then
      exists block,
        h' ctx = Some block /\
        Handle.held_after [] evs = Some (Handle.handle_resources block)
    else h' ctx = None /\ Handle.held_after [] evs = Some [].
Proof.
  intros Hnone Hsys.
  unfold Handle.call, Handle.setup.
  run_handle. rewrite Hnone.
  destruct (Handle.calloc_answer e (length (Handle.trace st))) as [block|];
    cbn [fst snd Handle.trace Handle.blas_handle].
  - repeat split_status.
    all: rewrite <- ?app_assoc.
    all: eexists _, _, _; (split; [reflexivity|]).
    all: split; [reflexivity|].
    all: split; [intros c Hc; try reflexivity;
                 apply Z.eqb_neq in Hc; rewrite Hc; reflexivity|].
    all: cbn [is_no_error error_cublas].
    all: try (split; [exact Hnone | account; reflexivity]).
    exists block. rewrite Z.eqb_refl. split; [reflexivity | account; reflexivity].
  - eexists _, _, _. split; [reflexivity|].
    split; [reflexivity|]. split; [reflexivity|].
    destruct (Handle.error_sys_answer e); [contradiction Hsys; reflexivity| ..];
      (split; [exact Hnone | reflexivity]).
Qed.

(** [setup] on a context without a handle returns, outside the critical
    section and with the handles of the other contexts as they were.
    When it returns [GA_NO_ERROR] the context has a handle, which owns
    its block, its cuBLAS handle and the six kernels.  When it returns an
    error the context still has no handle and nothing [setup] created is
    left: the kernels built before the failure have been cleared, the
    cuBLAS handle destroyed and the block freed. *)
Theorem setup_all_or_nothing (ctx : Z) (e : Handle.env) (st : Handle.state) :
  Handle.blas_handle st ctx = None ->
  Handle.error_sys_answer e <> GA_NO_ERROR ->
  let st' := fst (Handle.call (Handle.setup ctx) e st) in
  let evs := Handle.events_of (Handle.setup ctx) e st in
  gate_depth (Handle.cuda_events evs) = 0 /\
  (forall c, c <> ctx -> Handle.blas_handle st' c = Handle.blas_handle st c) /\
  exists code,
    Handle.outcome_of (Handle.setup ctx) e st = Returned code /\
    if is_no_error code then
      exists block,
        Handle.blas_handle st' ctx = Some block /\
        Handle.held_after [] evs = Some (Handle.handle_resources block)
    else
      Handle.blas_handle st' ctx = None /\ Handle.held_after [] evs = Some [].
Proof.
  intros Hnone Hsys. cbv zeta.
  destruct (setup_runs ctx e st Hnone Hsys) as (evs & h' & code & Heq & Hg & Hh & Hres).
  unfold Handle.outcome_of, Handle.events_of. rewrite Heq.
  cbn [fst snd Handle.trace Handle.blas_handle]. rewrite skipn_app_length.
  split; [exact Hg|]. split; [exact Hh|]. exists code. split; [reflexivity | exact Hres].
Qed.

(** [setup] with the third kernel failing to build. *)
Lemma setup_all_or_nothing_witness :
  gate_depth (Handle.cuda_events
                (Handle.events_of (Handle.setup 7) (Handle.env_of (ga_fail_env 7))
                   Handle.st0)) = 0 /\
  (forall c, c <> 7 ->
     Handle.blas_handle
       (fst (Handle.call (Handle.setup 7) (Handle.env_of (ga_fail_env 7)) Handle.st0)) c =
     Handle.blas_handle Handle.st0 c) /\
  exists code,
    Handle.outcome_of (Handle.setup 7) (Handle.env_of (ga_fail_env 7)) Handle.st0 =
      Returned code /\
    if is_no_error code then
      exists block,
        Handle.blas_handle
          (fst (Handle.call (Handle.setup 7) (Handle.env_of (ga_fail_env 7)) Handle.st0))
          7 = Some block /\
        Handle.held_after []
          (Handle.events_of (Handle.setup 7) (Handle.env_of (ga_fail_env 7)) Handle.st0) =
        Some (Handle.handle_resources block)
    else
      Handle.blas_handle
        (fst (Handle.call (Handle.setup 7) (Handle.env_of (ga_fail_env 7)) Handle.st0))
        7 = None /\
      Handle.held_after []
        (Handle.events_of (Handle.setup 7) (Handle.env_of (ga_fail_env 7)) Handle.st0) =
      Some [].
Proof.
  apply (setup_all_or_nothing 7 (Handle.env_of (ga_fail_env 7)) Handle.st0).
  - reflexivity.
  - discriminate.
Defined.

(** [setup] on a context that has a handle returns [GA_NO_ERROR] at once
    and leaves the state as it is; so does a second [setup] after one
    that succeeded, whatever the outside would answer. *)
Theorem setup_twice (ctx : Z) (e e' : Handle.env) (st : Handle.state) :
  Handle.outcome_of (Handle.setup ctx) e st = Returned GA_NO_ERROR ->
  Handle.error_sys_answer e <> GA_NO_ERROR ->
  let st' := fst (Handle.call (Handle.setup ctx) e st) in
  Handle.call (Handle.setup ctx) e' st' = (st', Returned GA_NO_ERROR).
Proof.
  intros Hok Hsys. cbv zeta.
  assert (Hhas : exists block,
             Handle.blas_handle (fst (Handle.call (Handle.setup ctx) e st)) ctx =
             Some block).
  { destruct (Handle.blas_handle st ctx) as [block|] eqn:Eh.
    - exists block. unfold Handle.call, Handle.setup. run_handle. rewrite Eh.
      cbn [fst]. exact Eh.
    - destruct (setup_runs ctx e st Eh Hsys) as (evs & h' & code & Heq & _ & _ & Hres).
      unfold Handle.outcome_of in Hok. rewrite Heq in *. cbn [fst snd] in *.
      injection Hok as ->. cbn [is_no_error] in Hres.
      destruct Hres as (block & Hb & _). exists block. exact Hb. }
  destruct Hhas as (block & Hb).
  generalize dependent (fst (Handle.call (Handle.setup ctx) e st)).
  intros st' Hb. unfold Handle.call, Handle.setup. run_handle. rewrite Hb.
  reflexivity.
Qed.

Lemma setup_twice_witness :
  Handle.call (Handle.setup 7) (Handle.env_of (ga_fail_env 0))
    (fst (Handle.call (Handle.setup 7) (Handle.env_of (ok_env true)) Handle.st0)) =
  (fst (Handle.call (Handle.setup 7) (Handle.env_of (ok_env true)) Handle.st0),
   Returned GA_NO_ERROR).
Proof.
  apply (setup_twice 7 (Handle.env_of (ok_env true)) (Handle.env_of (ga_fail_env 0))
           Handle.st0).
  - reflexivity.
  - discriminate.
Defined.

Lemma held_after_app (held : list Handle.resource) (a b : list Handle.event) :
  Handle.held_after held (a ++ b) =
  match Handle.held_after held a with
  | Some held' => Handle.held_after held' b
  | None => None
  end.
Proof.
  revert held. induction a as [|ev a IH]; intros held; [reflexivity|].
  destruct ev; cbn [app Handle.held_after]; try apply IH.
  - destruct block; apply IH.
  - destruct (Handle.release_one _ _); [apply IH | reflexivity].
  - destruct r; apply IH.
  - destruct (Handle.release_one _ _); [apply IH | reflexivity].
  - destruct r; apply IH.
  - destruct (Handle.release_one _ _); [apply IH | reflexivity].
  - destruct (Handle.release_one _ _); [apply IH | reflexivity].
  - destruct r; apply IH.
  - destruct (Handle.release_one _ _); [apply IH | reflexivity].
Qed.

(** [teardown] on a context without a handle does nothing.  On a context
    with a handle it returns outside the critical section, with the
    context left without a handle and those of the other contexts as they
    were, and it gives up all the handle owned: the cuBLAS handle, the
    six kernels and the block. *)
Theorem teardown_releases_handle (ctx : Z) (e : Handle.env) (st : Handle.state) :
  match Handle.blas_handle st ctx with
  | None => Handle.teardown ctx e st = (st, Val tt)
  | Some block =>
      exists evs h',
        Handle.teardown ctx e st = (Handle.mk_state (Handle.trace st ++ evs) h', Val tt) /\
        h' ctx = None /\
        (forall c, c <> ctx -> h' c = Handle.blas_handle st c) /\
        gate_depth (Handle.cuda_events evs) = 0 /\
        Handle.held_after (Handle.handle_resources block) evs = Some []
  end.
Proof.
  unfold Handle.teardown. run_handle.
  destruct (Handle.blas_handle st ctx) as [block|] eqn:Eh; [|reflexivity].
  rewrite <- !app_assoc. eexists _, _. split; [reflexivity|].
  cbn beta. rewrite Z.eqb_refl.
  split; [reflexivity|].
  split; [intros c Hc; apply Z.eqb_neq in Hc; rewrite Hc; reflexivity|].
  split; [reflexivity|].
  unfold Handle.handle_resources. account. reflexivity.
Qed.

(** A [setup] that succeeds on a context without a handle, followed by
    [teardown], leaves the context without a handle and nothing held:
    every resource [setup] created has been given up, each once. *)
Theorem setup_then_teardown (ctx : Z) (e : Handle.env) (st : Handle.state) :
  Handle.blas_handle st ctx = None ->
  Handle.error_sys_answer e <> GA_NO_ERROR ->
  Handle.outcome_of (Handle.setup ctx) e st = Returned GA_NO_ERROR ->
  exists st2,
    Handle.teardown ctx e (fst (Handle.call (Handle.setup ctx) e st)) = (st2, Val tt) /\
    Handle.blas_handle st2 ctx = None /\
    gate_depth (Handle.cuda_events (skipn (length (Handle.trace st)) (Handle.trace st2))) = 0 /\
    Handle.held_after [] (skipn (length (Handle.trace st)) (Handle.trace st2)) = Some [].
Proof.
  intros Hnone Hsys Hok.
  destruct (setup_runs ctx e st Hnone Hsys) as (evs & h' & code & Heq & Hg & _ & Hres).
  unfold Handle.outcome_of in Hok. rewrite Heq in *. cbn [fst snd] in *.
  injection Hok as ->. cbn [is_no_error] in Hres.
  destruct Hres as (block & Hb & Hheld).
  unfold Handle.teardown. run_handle. rewrite Hb.
  eexists. split; [reflexivity|].
  cbn [Handle.trace Handle.blas_handle]. rewrite Z.eqb_refl. split; [reflexivity|].
  rewrite <- !app_assoc, skipn_app_length.
  split.
  - rewrite cuda_events_app, gate_depth_app, Hg. reflexivity.
  - rewrite held_after_app, Hheld. unfold Handle.handle_resources. account. reflexivity.
Qed.

Lemma setup_then_teardown_witness :
  exists st2,
    Handle.teardown 7 (Handle.env_of (ok_env true))
      (fst (Handle.call (Handle.setup 7) (Handle.env_of (ok_env true)) Handle.st0)) =
    (st2, Val tt) /\
    Handle.blas_handle st2 7 = None /\
    gate_depth (Handle.cuda_events
                  (skipn (length (Handle.trace Handle.st0)) (Handle.trace st2))) = 0 /\
    Handle.held_after [] (skipn (length (Handle.trace Handle.st0)) (Handle.trace st2)) =
    Some [].
Proof.
  apply (setup_then_teardown 7 (Handle.env_of (ok_env true)) Handle.st0).
  - reflexivity.
  - discriminate.
  - reflexivity.
Defined.

(** ** gemv, the reduced-precision gemm and the strided-batched gemm *)

(** The end of a path of an entry point over the handle. *)
Ltac settle_handle :=
  cbn [fst snd Handle.trace Handle.blas_handle];
  rewrite <- ?app_assoc in *;
  first [rewrite skipn_app_length | rewrite skipn_all];
  let code := fresh "code" in
  let H := fresh "H" in
  intros code H;
  first
    [ discriminate H
    | split;
      [ reflexivity
      | intros ->;
        first [ not_success
              | discriminate H
              | split; [reflexivity|]; split; [reflexivity|];
                split; [eexists; reflexivity | reflexivity] ] ] ].

Ltac walk_handle :=
  run_handle;
  repeat (first [ split_answer
                | match goal with
                  | Eh : Handle.blas_handle _ _ = _ |- _ => rewrite Eh
                  end ];
          cbn [fst snd Handle.trace Handle.blas_handle]);
  settle_handle.

(** [sgemv] and [dgemv] leave the critical section whenever they return,
    and a call that returns [GA_NO_ERROR] has found the handle of the
    context, made one vendor call, and recorded each operand with the
    mode it waited for: READ for [A] and [X], ALL for [Y]. *)
Theorem gemv_gate_and_hazards (p : prec) (order : cb_order) (tA : cb_transpose)
    (M N : Z) (alpha : float) (A : gpudata) (offA lda : Z)
    (X : gpudata) (offX incX : Z) (beta : float) (Y : gpudata) (offY incY : Z)
    (e : Handle.env) (st : Handle.state) :
  let run := Handle.gemv p order tA M N alpha A offA lda X offX incX beta Y offY incY in
  let evs := Handle.events_of run e st in
  forall code,
    Handle.outcome_of run e st = Returned code ->
    gate_depth (Handle.cuda_events evs) = 0 /\
    (code = GA_NO_ERROR ->
     waits (Handle.cuda_events evs) =
       [(A, CUDA_WAIT_READ); (X, CUDA_WAIT_READ); (Y, CUDA_WAIT_ALL)] /\
     records (Handle.cuda_events evs) = waits (Handle.cuda_events evs) /\
     (exists h, Handle.blas_handle st (g_ctx A) = Some h) /\
     length (Handle.vendor_events evs) = 1%nat).
Proof.
  cbv zeta. unfold Handle.outcome_of, Handle.events_of, Handle.call, Handle.gemv.
  destruct (Handle.gemv_sizes_large M N lda incX incY); [run_handle; settle_handle|].
  destruct order; unfold Handle.gemv_issue;
    destruct (Handle.blas_handle st (g_ctx A)) as [h|] eqn:Eh; walk_handle.
Qed.

(** A row-major [sgemv] of a 3 by 2 matrix on the context of [Handle.st1]. *)
Lemma gemv_gate_and_hazards_witness :
  gate_depth (Handle.cuda_events
                (Handle.events_of
                   (Handle.sgemv cb_c cb_no_trans 3 2 1 (buf 1) 0 2 (buf 2) 0 1 1 (buf 3) 0 1)
                   (Handle.env_of (ok_env true)) Handle.st1)) = 0 /\
  records (Handle.cuda_events
             (Handle.events_of
                (Handle.sgemv cb_c cb_no_trans 3 2 1 (buf 1) 0 2 (buf 2) 0 1 1 (buf 3) 0 1)
                (Handle.env_of (ok_env true)) Handle.st1)) =
    [(buf 1, CUDA_WAIT_READ); (buf 2, CUDA_WAIT_READ); (buf 3, CUDA_WAIT_ALL)].
Proof.
  destruct (gemv_gate_and_hazards F32 cb_c cb_no_trans 3 2 1 (buf 1) 0 2 (buf 2) 0 1 1
              (buf 3) 0 1 (Handle.env_of (ok_env true)) Handle.st1 GA_NO_ERROR)
    as [Hg Hh].
  - reflexivity.
  - destruct (Hh eq_refl) as (Hw & Hr & _).
    split; [exact Hg|]. unfold Handle.sgemv. rewrite Hr. exact Hw.
Defined.

Lemma gemv_sizes_large_swap (M N lda incX incY : Z) :
  Handle.gemv_sizes_large N M lda incX incY = Handle.gemv_sizes_large M N lda incX incY.
Proof.
  unfold Handle.gemv_sizes_large. rewrite (Z.mul_comm N M).
  destruct (LARGE_VAL M), (LARGE_VAL N); reflexivity.
Qed.

(** A row-major gemv is the column-major gemv of the transposed matrix:
    [sgemv]/[dgemv] with [cb_c] runs as the call with [cb_fortran] on N
    and M and the other transposition flag, [cb_trans] for
    [cb_no_trans] and [cb_no_trans] for both [cb_trans] and
    [cb_conj_trans]; so a row-major call never asks cuBLAS for the
    conjugate transpose. *)
Theorem gemv_row_major_is_toggled_column_major (p : prec) (tA : cb_transpose)
    (M N : Z) (alpha : float) (A : gpudata) (offA lda : Z)
    (X : gpudata) (offX incX : Z) (beta : float) (Y : gpudata) (offY incY : Z)
    (e : Handle.env) (st : Handle.state) :
  Handle.call (Handle.gemv p cb_c tA M N alpha A offA lda X offX incX beta Y offY incY)
    e st =
  Handle.call (Handle.gemv p cb_fortran
                 (match tA with cb_no_trans => cb_trans | _ => cb_no_trans end)
                 N M alpha A offA lda X offX incX beta Y offY incY) e st /\
  forall h op m n a x y,
    In (Handle.Gemv h p op m n alpha a lda x incX beta y incY)
       (Handle.events_of
          (Handle.gemv p cb_c tA M N alpha A offA lda X offX incX beta Y offY incY) e st) ->
    op <> CUBLAS_OP_C.
Proof.
  split.
  - unfold Handle.call, Handle.gemv. cbv zeta.
    rewrite gemv_sizes_large_swap. reflexivity.
  - intros h op m n a x y.
    unfold Handle.events_of, Handle.call, Handle.gemv.
    destruct (Handle.gemv_sizes_large M N lda incX incY).
    + run_handle. rewrite skipn_all. intros [].
    + unfold Handle.gemv_issue.
      destruct (Handle.blas_handle st (g_ctx A)) as [h0|] eqn:Eh; run_handle;
        repeat (first [ split_answer
                      | match goal with
                        | Eh : Handle.blas_handle _ _ = _ |- _ => rewrite Eh
                        end ];
                cbn [fst snd Handle.trace Handle.blas_handle]);
        cbn [fst snd Handle.trace Handle.blas_handle];
        rewrite <- ?app_assoc; rewrite skipn_app_length;
        cbn [app In]; intros Hin;
        repeat (destruct Hin as [Hin | Hin]; [try discriminate Hin|]); try contradiction;
        injection Hin as <- <- <- <- <- <- <-; destruct tA; discriminate.
Qed.

(** [sgemv] and [dgemv] return the overflow status, with the state
    untouched, as soon as a dimension, the leading dimension, an
    increment or the product M*N reaches [INT_MAX]. *)
Theorem gemv_rejects_overflow (p : prec) (order : cb_order) (tA : cb_transpose)
    (M N : Z) (alpha : float) (A : gpudata) (offA lda : Z)
    (X : gpudata) (offX incX : Z) (beta : float) (Y : gpudata) (offY incY : Z)
    (e : Handle.env) (st : Handle.state) :
  0 <= M -> 0 <= N ->
  INT_MAX <= M \/ INT_MAX <= N \/ INT_MAX <= M * N \/
  INT_MAX <= lda \/ INT_MAX <= incX \/ INT_MAX <= incY ->
  Handle.call (Handle.gemv p order tA M N alpha A offA lda X offX incX beta Y offY incY)
    e st = (st, Returned GA_XLARGE_ERROR).
Proof.
  intros HM HN Hbig.
  assert (Hl : Handle.gemv_sizes_large M N lda incX incY = true).
  { unfold Handle.gemv_sizes_large. rewrite !orb_true_iff, !LARGE_VAL_true.
    destruct (Z_lt_le_dec M INT_MAX) as [HM'|HM']; [|tauto].
    destruct (Z_lt_le_dec N INT_MAX) as [HN'|HN']; [|tauto].
    unfold INT_MAX in *. rewrite (size_wrap_small (M * N)) by nia. tauto. }
  unfold Handle.call, Handle.gemv. cbv zeta. rewrite Hl. reflexivity.
Qed.

(** A 65536 by 65536 matrix. *)
Lemma gemv_rejects_overflow_witness :
  Handle.call (Handle.dgemv cb_fortran cb_no_trans 65536 65536 1 (buf 1) 0 65536
                 (buf 2) 0 1 1 (buf 3) 0 1) (Handle.env_of (ok_env true)) Handle.st1 =
  (Handle.st1, Returned GA_XLARGE_ERROR).
Proof.
  apply (gemv_rejects_overflow F64 cb_fortran cb_no_trans 65536 65536 1 (buf 1) 0 65536
           (buf 2) 0 1 1 (buf 3) 0 1 (Handle.env_of (ok_env true)) Handle.st1);
    unfold INT_MAX; lia.
Defined.

(** [hgemm] and the strided-batched gemm test for the routine first: when
    the loader has not found it they return [GA_DEVSUP_ERROR] with the
    state untouched, whatever the sizes.  When it is there, they return
    the overflow status, with the state untouched, as soon as a
    dimension, a leading dimension or one of the products M*N, M*K, K*N
    reaches [INT_MAX]. *)
Theorem handle_gemm_guards (order : cb_order) (tA tB : cb_transpose) (M N K : Z)
    (alpha beta : float) (A : gpudata) (offA lda : Z) (B : gpudata) (offB ldb : Z)
    (C : gpudata) (offC ldc : Z) (e : Handle.env) (st : Handle.state) :
  0 <= M -> 0 <= N -> 0 <= K ->
  (forall f sA sB sC bc,
     Handle.loaded e f = false ->
     Handle.call (Handle.gemm3D f order tA tB M N K alpha A offA lda sA B offB ldb sB
                    beta C offC ldc sC bc) e st = (st, Returned GA_DEVSUP_ERROR)) /\
  (Handle.loaded e Handle.cublasSgemmEx = false ->
   Handle.call (Handle.hgemm order tA tB M N K alpha A offA lda B offB ldb
                  beta C offC ldc) e st = (st, Returned GA_DEVSUP_ERROR)) /\
  (INT_MAX <= M \/ INT_MAX <= N \/ INT_MAX <= K \/
   INT_MAX <= lda \/ INT_MAX <= ldb \/ INT_MAX <= ldc \/
   INT_MAX <= M * N \/ INT_MAX <= M * K \/ INT_MAX <= K * N ->
   (forall f sA sB sC bc,
      Handle.loaded e f = true ->
      Handle.call (Handle.gemm3D f order tA tB M N K alpha A offA lda sA B offB ldb sB
                     beta C offC ldc sC bc) e st = (st, Returned GA_XLARGE_ERROR)) /\
   (Handle.loaded e Handle.cublasSgemmEx = true ->
    Handle.call (Handle.hgemm order tA tB M N K alpha A offA lda B offB ldb
                   beta C offC ldc) e st = (st, Returned GA_XLARGE_ERROR))).
Proof.
  intros HM HN HK.
  split; [|split].
  - intros f sA sB sC bc Hl. unfold Handle.call, Handle.gemm3D. rewrite Hl. reflexivity.
  - intros Hl. unfold Handle.call, Handle.hgemm. rewrite Hl. reflexivity.
  - intros Hbig.
    apply (gemm_sizes_large_iff M N K lda ldb ldc HM HN HK) in Hbig.
    split.
    + intros f sA sB sC bc Hl. unfold Handle.call, Handle.gemm3D.
      rewrite Hl, Hbig. reflexivity.
    + intros Hl. unfold Handle.call, Handle.hgemm. rewrite Hl, Hbig. reflexivity.
Qed.

(** [hgemm3D] of an oversized product, with and without the routine. *)
Lemma handle_gemm_guards_witness :
  Handle.call (Handle.hgemm3D cb_fortran cb_no_trans cb_no_trans 65536 65536 1 1
                 (buf 1) 0 65536 0 (buf 2) 0 1 0 0 (buf 3) 0 65536 0 4)
              Handle.unloaded_env Handle.st1 = (Handle.st1, Returned GA_DEVSUP_ERROR) /\
  Handle.call (Handle.hgemm3D cb_fortran cb_no_trans cb_no_trans 65536 65536 1 1
                 (buf 1) 0 65536 0 (buf 2) 0 1 0 0 (buf 3) 0 65536 0 4)
              (Handle.env_of (ok_env true)) Handle.st1 =
    (Handle.st1, Returned GA_XLARGE_ERROR).
Proof.
  split.
  - apply (handle_gemm_guards cb_fortran cb_no_trans cb_no_trans 65536 65536 1 1 0
             (buf 1) 0 65536 (buf 2) 0 1 (buf 3) 0 65536 Handle.unloaded_env Handle.st1);
      try lia. reflexivity.
  - apply (handle_gemm_guards cb_fortran cb_no_trans cb_no_trans 65536 65536 1 1 0
             (buf 1) 0 65536 (buf 2) 0 1 (buf 3) 0 65536 (Handle.env_of (ok_env true))
             Handle.st1); try (unfold INT_MAX; lia). reflexivity.
Defined.

(** [hgemm] and the strided-batched gemm leave the critical section
    whenever they return, and a call that returns [GA_NO_ERROR] has found
    the handle of the context, made one vendor call, and recorded each
    operand with the mode it waited for: READ for the two sources, in
    the order the row-major swap leaves them, ALL for [C]. *)
Theorem handle_gemm_gate_and_hazards (order : cb_order) (tA tB : cb_transpose)
    (M N K : Z) (alpha : float) (A : gpudata) (offA lda : Z)
    (B : gpudata) (offB ldb : Z) (beta : float) (C : gpudata) (offC ldc : Z)
    (run : Handle.comp ga_error) (e : Handle.env) (st : Handle.state) :
  run = Handle.hgemm order tA tB M N K alpha A offA lda B offB ldb beta C offC ldc \/
  (exists f sA sB sC bc,
     run = Handle.gemm3D f order tA tB M N K alpha A offA lda sA B offB ldb sB
             beta C offC ldc sC bc) ->
  let evs := Handle.events_of run e st in
  forall code,
    Handle.outcome_of run e st = Returned code ->
    gate_depth (Handle.cuda_events evs) = 0 /\
    (code = GA_NO_ERROR ->
     waits (Handle.cuda_events evs) =
       [(fst (swapped order A B), CUDA_WAIT_READ);
        (snd (swapped order A B), CUDA_WAIT_READ); (C, CUDA_WAIT_ALL)] /\
     records (Handle.cuda_events evs) = waits (Handle.cuda_events evs) /\
     (exists h, Handle.blas_handle st (g_ctx A) = Some h) /\
     length (Handle.vendor_events evs) = 1%nat).
Proof.
  intros Hrun. cbv zeta.
  unfold Handle.outcome_of, Handle.events_of, Handle.call.
  destruct Hrun as [-> | (f & sA & sB & sC & bc & ->)].
  - unfold Handle.hgemm.
    destruct (negb (Handle.loaded e Handle.cublasSgemmEx)); [run_handle; settle_handle|].
    destruct (gemm_sizes_large M N K lda ldb ldc); [run_handle; settle_handle|].
    destruct order; unfold Handle.hgemm_issue, swapped;
      destruct (Handle.blas_handle st (g_ctx A)) as [h|] eqn:Eh; walk_handle.
  - unfold Handle.gemm3D.
    destruct (negb (Handle.loaded e f)); [run_handle; settle_handle|].
    destruct (gemm_sizes_large M N K lda ldb ldc); [run_handle; settle_handle|].
    destruct order; unfold Handle.gemm3D_issue, swapped;
      destruct (Handle.blas_handle st (g_ctx A)) as [h|] eqn:Eh; walk_handle.
Qed.

(** A row-major [sgemm3D] of two batches on the context of [Handle.st1]. *)
Lemma handle_gemm_gate_and_hazards_witness :
  gate_depth (Handle.cuda_events
                (Handle.events_of
                   (Handle.sgemm3D cb_c cb_no_trans cb_no_trans 2 2 2 1 (buf 1) 0 2 4
                      (buf 2) 0 2 4 0 (buf 3) 0 2 4 2)
                   (Handle.env_of (ok_env true)) Handle.st1)) = 0 /\
  records (Handle.cuda_events
             (Handle.events_of
                (Handle.sgemm3D cb_c cb_no_trans cb_no_trans 2 2 2 1 (buf 1) 0 2 4
                   (buf 2) 0 2 4 0 (buf 3) 0 2 4 2)
                (Handle.env_of (ok_env true)) Handle.st1)) =
    [(buf 2, CUDA_WAIT_READ); (buf 1, CUDA_WAIT_READ); (buf 3, CUDA_WAIT_ALL)].
Proof.
  destruct (handle_gemm_gate_and_hazards cb_c cb_no_trans cb_no_trans 2 2 2 1
              (buf 1) 0 2 (buf 2) 0 2 0 (buf 3) 0 2
              (Handle.sgemm3D cb_c cb_no_trans cb_no_trans 2 2 2 1 (buf 1) 0 2 4
                 (buf 2) 0 2 4 0 (buf 3) 0 2 4 2)
              (Handle.env_of (ok_env true)) Handle.st1) with (code := GA_NO_ERROR)
    as [Hg Hh].
  - right. exists Handle.cublasSgemmStridedBatched, 4, 4, 4, 2. reflexivity.
  - reflexivity.
  - destruct (Hh eq_refl) as (Hw & Hr & _).
    split; [exact Hg|]. rewrite Hr. exact Hw.
Defined.

(** A row-major [hgemm] or strided-batched gemm is the column-major call
    on the swapped operands: on buffers of one context, the call with
    [cb_c] runs as the call with [cb_fortran] on B and A, N and M, ldb
    and lda, transB and transA, offB and offA, and strideB and strideA. *)
Theorem handle_gemm_row_major_is_swapped_column_major (tA tB : cb_transpose)
    (M N K : Z) (alpha : float) (A : gpudata) (offA lda : Z)
    (B : gpudata) (offB ldb : Z) (beta : float) (C : gpudata) (offC ldc : Z)
    (e : Handle.env) (st : Handle.state) :
  g_ctx A = g_ctx B ->
  Handle.call (Handle.hgemm cb_c tA tB M N K alpha A offA lda B offB ldb
                 beta C offC ldc) e st =
  Handle.call (Handle.hgemm cb_fortran tB tA N M K alpha B offB ldb A offA lda
                 beta C offC ldc) e st /\
  forall f sA sB sC bc,
    Handle.call (Handle.gemm3D f cb_c tA tB M N K alpha A offA lda sA B offB ldb sB
                   beta C offC ldc sC bc) e st =
    Handle.call (Handle.gemm3D f cb_fortran tB tA N M K alpha B offB ldb sB A offA lda sA
                   beta C offC ldc sC bc) e st.
Proof.
  intros Hctx. split; [|intros f sA sB sC bc];
    unfold Handle.call, Handle.hgemm, Handle.gemm3D; cbv zeta;
    rewrite gemm_sizes_large_swap, Hctx; reflexivity.
Qed.

Lemma handle_gemm_row_major_is_swapped_column_major_witness :
  Handle.call (Handle.hgemm cb_c cb_trans cb_no_trans 2 3 4 1 (buf 1) 0 4 (buf 2) 0 3 0
                 (buf 3) 0 3) (Handle.env_of (ok_env true)) Handle.st1 =
  Handle.call (Handle.hgemm cb_fortran cb_no_trans cb_trans 3 2 4 1 (buf 2) 0 3 (buf 1) 0 4 0
                 (buf 3) 0 3) (Handle.env_of (ok_env true)) Handle.st1.
Proof.
  destruct (handle_gemm_row_major_is_swapped_column_major cb_trans cb_no_trans 2 3 4 1
              (buf 1) 0 4 (buf 2) 0 3 0 (buf 3) 0 3 (Handle.env_of (ok_env true))
              Handle.st1 eq_refl) as [H _].
  exact H.
Defined.

(** ** The life of a communicator *)

(** [comm_new] returns outside the critical section with one of three
    statuses.  With [GA_NO_ERROR] it has stored the new communicator,
    which holds its block, a reference to the context and the NCCL
    communicator.  With [GA_MEMORY_ERROR], when [calloc] fails, and with
    [GA_COMM_ERROR], when NCCL fails, it has stored NULL and nothing it
    created is left: the reference has been released and the block
    freed.  The handles of the contexts are not touched. *)
Theorem comm_new_all_or_nothing (ctx comm_id ndev rank : Z)
    (e : Handle.env) (st : Handle.state) :
  exists evs code ptr,
    Handle.comm_new ctx comm_id ndev rank e st =
      (Handle.mk_state (Handle.trace st ++ evs) (Handle.blas_handle st),
       Val (code, ptr)) /\
    gate_depth (Handle.cuda_events evs) = 0 /\
    ((code = GA_NO_ERROR /\
      exists comm, ptr = Some comm /\
        Handle.held_after [] evs =
        Some [Handle.Communicator comm; Handle.Reference ctx; Handle.Block comm]) \/
     ((code = GA_MEMORY_ERROR \/ code = GA_COMM_ERROR) /\
      ptr = None /\ Handle.held_after [] evs = Some [])).
Proof.
  unfold Handle.comm_new. run_handle.
  destruct (Handle.calloc_answer e (length (Handle.trace st))) as [comm|];
    cbn [fst snd Handle.trace Handle.blas_handle].
  - match goal with
    | |- context [nccl_answer ?o ?n] => destruct (nccl_answer o n) eqn:E
    end; cbn [negb nccl_ok fst snd Handle.trace Handle.blas_handle];
      rewrite <- ?app_assoc; eexists _, _, _; (split; [reflexivity|]);
      (split; [reflexivity|]).
    + left. split; [reflexivity|]. exists comm. split; [reflexivity|]. reflexivity.
    + right. split; [right; reflexivity|]. split; [reflexivity|]. account. reflexivity.
  - eexists _, _, _. split; [reflexivity|]. split; [reflexivity|].
    right. split; [left; reflexivity|]. split; reflexivity.
Qed.

(** [comm_free] after a [comm_new] that succeeded is, in this order: the
    critical section entered, the NCCL communicator destroyed, the
    critical section left, the reference to the context released, the
    block freed; and it leaves nothing held of what [comm_new] created. *)
Theorem comm_new_then_comm_free (ctx comm_id ndev rank comm : Z)
    (e : Handle.env) (st st1 : Handle.state) :
  Handle.comm_new ctx comm_id ndev rank e st = (st1, Val (GA_NO_ERROR, Some comm)) ->
  exists st2,
    Handle.comm_free ctx comm e st1 = (st2, Val tt) /\
    Handle.trace st2 =
      Handle.trace st1 ++
      [Handle.Cuda (EvEnter ctx); Handle.NcclCommDestroy comm; Handle.Cuda (EvExit ctx);
       Handle.BufferDeinit ctx; Handle.Free comm] /\
    gate_depth (Handle.cuda_events (skipn (length (Handle.trace st)) (Handle.trace st2))) = 0 /\
    Handle.held_after [] (skipn (length (Handle.trace st)) (Handle.trace st2)) = Some [].
Proof.
  unfold Handle.comm_new, Handle.comm_free. run_handle.
  destruct (Handle.calloc_answer e (length (Handle.trace st))) as [comm'|];
    cbn [fst snd Handle.trace Handle.blas_handle]; [|discriminate].
  match goal with
  | |- context [nccl_answer ?o ?n] => destruct (nccl_answer o n) eqn:E
  end; cbn [negb nccl_ok fst snd Handle.trace Handle.blas_handle]; [|discriminate].
  intros Hnew. injection Hnew as <- <-.
  eexists. split; [reflexivity|].
  cbn [Handle.trace]. rewrite <- !app_assoc.
  split; [reflexivity|].
  rewrite skipn_app_length.
  split; [reflexivity|].
  account. reflexivity.
Qed.

Lemma comm_new_then_comm_free_witness :
  exists st2,
    Handle.comm_free 7 4242 (Handle.env_of (ok_env true))
      (fst (Handle.comm_new 7 99 2 1 (Handle.env_of (ok_env true)) Handle.st0)) =
    (st2, Val tt) /\
    Handle.trace st2 =
      Handle.trace (fst (Handle.comm_new 7 99 2 1 (Handle.env_of (ok_env true))
                           Handle.st0)) ++
      [Handle.Cuda (EvEnter 7); Handle.NcclCommDestroy 4242; Handle.Cuda (EvExit 7);
       Handle.BufferDeinit 7; Handle.Free 4242] /\
    gate_depth (Handle.cuda_events
                  (skipn (length (Handle.trace Handle.st0)) (Handle.trace st2))) = 0 /\
    Handle.held_after [] (skipn (length (Handle.trace Handle.st0)) (Handle.trace st2)) =
    Some [].
Proof.
  apply (comm_new_then_comm_free 7 99 2 1 4242 (Handle.env_of (ok_env true)) Handle.st0).
  reflexivity.
Defined.
